(** * Montreal fire prediction: the data-processing and feature-engineering nodes

    A shallow embedding of
    [pipelines/data_processing/nodes.py] and
    [pipelines/feature_engineering/nodes.py].

    A pandas table is a list of column labels together with a list of rows;
    a row is a finite map from column label to cell.  Library code that is not
    part of the repository (pandas' string parsers, the datetime accessors,
    the geometry engine) is taken as an interface; numpy's real functions are
    the ones of the Standard Library's real numbers. *)

From Stdlib Require Import ZArith QArith Qcanon Reals Qreals Ascii String List Lia Lra.
From stdpp Require Import base option list gmap strings numbers sorting.

Open Scope string_scope.

(** ** Cells *)

(** One cell of a table.  [VNaN] stands for every missing marker of pandas
    ([None], [NaN], [NaT]).  [VNum] carries a finite [int64] or [float64] datum
    exactly (the dtype is not tracked and rounding is outside the model; the
    range of [int64] enters where [astype(int)] converts).  [VReal] is a float produced by numpy's transcendental functions;
    the pipeline only ever stores one in [distance_to_fire_station]. *)
Inductive value : Type :=
  | VNaN
  | VBool (b : bool)
  | VNum (q : Qc)
  | VInf (negative : bool)
  | VReal (x : R)
  | VStr (s : string).

#[global] Instance R_eq_dec : EqDecision R := Req_dec_T.

#[global] Instance value_eq_dec : EqDecision value.
Proof. solve_decision. Defined.

Definition qz (z : Z) : Qc := Q2Qc (inject_Z z).

Definition VInt (z : Z) : value := VNum (qz z).

(** Python identifies [True] with [1] and [False] with [0]. *)
Definition norm (v : value) : value :=
  match v with
  | VBool b => VInt (if b then 1 else 0)
  | _ => v
  end.

Definition isna (v : value) : bool :=
  match v with VNaN => true | _ => false end.

(** Element-wise [==]: a missing value equals nothing, not even itself. *)
Definition py_eqb (v w : value) : bool :=
  negb (isna v) && negb (isna w) && bool_decide (norm v = norm w).

(** Element-wise [!=]. *)
Definition py_neb (v w : value) : bool := negb (py_eqb v w).

(** Equality of the hash-based operations ([isin], [drop_duplicates], the keys
    of [merge]): as [==], but two missing values are the same key. *)
Definition same_key (v w : value) : bool := bool_decide (norm v = norm w).

(** ** Exceptions *)

Inductive error : Type :=
  | KeyError (label : string)
  | ValueError
  | TypeError
  | MergeError
  | IntCastingNaNError.

Inductive result (A : Type) : Type :=
  | Ok (a : A)
  | Raise (e : error).
Arguments Ok {A} a.
Arguments Raise {A} e.

#[global] Instance result_ret : MRet result := fun _ a => Ok a.
#[global] Instance result_bind : MBind result := fun _ _ f m =>
  match m with Ok a => f a | Raise e => Raise e end.
#[global] Instance result_fmap : FMap result := fun _ _ f m =>
  match m with Ok a => Ok (f a) | Raise e => Raise e end.

(** Run [f] on every element, stopping at the first exception. *)
Fixpoint traverse {A B : Type} (f : A -> result B) (l : list A) : result (list B) :=
  match l with
  | [] => Ok []
  | a :: l' => b ← f a; bs ← traverse f l'; Ok (b :: bs)
  end.

(** ** Tables *)

Abbreviation row := (gmap string value).

Record DataFrame : Type := {
  columns : list string;
  rows : list row
}.

(** A label that a row does not bind reads as missing. *)
Definition cell (r : row) (c : string) : value := default VNaN (r !! c).

Definition has_column (x : DataFrame) (c : string) : bool :=
  bool_decide (c ∈ columns x).

(** [x[c]] fails on an unknown label. *)
Definition require (x : DataFrame) (c : string) : result unit :=
  if has_column x c then Ok tt else Raise (KeyError c).

Fixpoint require_all (x : DataFrame) (cs : list string) : result unit :=
  match cs with
  | [] => Ok tt
  | c :: cs' => _ ← require x c; require_all x cs'
  end.

(** [x[c]] as a Series. *)
Definition series (x : DataFrame) (c : string) : result (list value) :=
  _ ← require x c; Ok (map (fun r => cell r c) (rows x)).

(** [x[mask]] where the mask is computed row by row. *)
Definition loc (keep : row -> bool) (x : DataFrame) : DataFrame :=
  {| columns := columns x; rows := List.filter keep (rows x) |}.

Definition add_label (c : string) (cs : list string) : list string :=
  if bool_decide (c ∈ cs) then cs else cs ++ [c].

(** [x[c] = s] for a Series [s] aligned with the rows: a new label goes last,
    an old one keeps its place. *)
Fixpoint set_cells (c : string) (rs : list row) (s : list value) : list row :=
  match rs, s with
  | r :: rs', v :: s' => <[c := v]> r :: set_cells c rs' s'
  | _, _ => []
  end.

Definition assign_series (c : string) (s : list value) (x : DataFrame) : DataFrame :=
  {| columns := add_label c (columns x); rows := set_cells c (rows x) s |}.

(** [x[[c1, ..., cn]]]. *)
Definition project_row (cs : list string) (r : row) : row :=
  foldr (fun c acc => <[c := cell r c]> acc) ∅ cs.

Definition select (x : DataFrame) (cs : list string) : result DataFrame :=
  _ ← require_all x cs;
  Ok {| columns := cs; rows := map (project_row cs) (rows x) |}.

Definition delete_all (cs : list string) (r : row) : row :=
  foldr (fun c acc => delete c acc) r cs.

Definition remove_labels (cs : list string) (l : list string) : list string :=
  List.filter (fun c => negb (bool_decide (c ∈ cs))) l.

(** [pd.concat([x, y], ignore_index=True, sort=False)]: the labels of [x], then
    the new labels of [y]; the rows of [x], then the rows of [y]. *)
Definition concat (x y : DataFrame) : DataFrame :=
  {| columns := columns x ++ remove_labels (columns x) (columns y);
     rows := rows x ++ rows y |}.

(** ** The libraries *)

(** What the string-to-number conversion of pandas yields on a string that it
    accepts. *)
Inductive number : Type :=
  | Finite (q : Qc)
  | Infinite (negative : bool)
  | NotANumber.

Definition value_of_number (n : number) : value :=
  match n with
  | Finite q => VNum q
  | Infinite s => VInf s
  | NotANumber => VNaN
  end.

(** pandas: the conversions of one cell that are library code. *)
Class Pandas : Type := {
  (** the numeric parser behind [pd.to_numeric]; [None] when the string is
      not a number *)
  floatify : string -> option number;
  Timestamp : Type;
  (** [pd.to_datetime(_, format='mixed')] on one cell; [Ok None] is [NaT] *)
  to_datetime : value -> result (option Timestamp);
  dt_date : Timestamp -> string;
  dt_time : Timestamp -> string;
  dt_dayofweek : Timestamp -> Z;
  dt_month : Timestamp -> Z;
  dt_year : Timestamp -> Z;
  dt_hour : Timestamp -> Z;
  (** what the conversion of numpy to [int64] stores for an integer that
      [int64] cannot hold *)
  int64_overflow : Z -> Z
}.

(** A table with one geometry per row. *)
Record GeoDataFrame (geometry : Type) : Type := {
  gcolumns : list string;
  grows : list (row * geometry)
}.
Arguments gcolumns {geometry} _.
Arguments grows {geometry} _.

(** geopandas and shapely. *)
Class Geopandas : Type := {
  geometry : Type;
  (** [gpd.sjoin(left, right, how='inner', predicate='intersects', rsuffix=_)] *)
  sjoin : GeoDataFrame geometry -> GeoDataFrame geometry -> string ->
          GeoDataFrame geometry;
  (** latitude and longitude of the centroid taken in EPSG:32613 and brought
      back to EPSG:4326 *)
  centroid_lat_long : geometry -> value * value;
  (** [gpd.points_from_xy(longitude, latitude)] *)
  point_from_xy : value -> value -> geometry
}.

(** ** [data_processing/nodes.py] *)

Definition _get_time_of_day (hour : Z) : string :=
  if (5 <=? hour)%Z && (hour <? 12)%Z then "morning"
  else if (12 <=? hour)%Z && (hour <? 17)%Z then "afternoon"
  else if (17 <=? hour)%Z && (hour <? 21)%Z then "evening"
  else "night".

(** A Python [dict] literal with distinct keys, in insertion order. *)
Fixpoint dict_get {A B : Type} `{EqDecision A} (d : list (A * B)) (k : A) : option B :=
  match d with
  | [] => None
  | (k', b) :: d' => if decide (k = k') then Some b else dict_get d' k
  end.

Definition rename_label (column_names : list (string * string)) (c : string) : string :=
  default c (dict_get column_names c).

Definition rename_row (column_names : list (string * string)) (cs : list string)
    (r : row) : row :=
  foldr (fun c acc =>
           match r !! c with
           | Some v => <[rename_label column_names c := v]> acc
           | None => acc
           end) ∅ cs.

(** [x.rename(columns=column_names)]: labels that the table does not have are
    ignored. *)
Definition _rename_columns (x : DataFrame) (column_names : list (string * string))
    : DataFrame :=
  {| columns := map (rename_label column_names) (columns x);
     rows := map (rename_row column_names (columns x)) (rows x) |}.

(** [x.drop(columns=column_names)]: every label must exist. *)
Definition _drop_columns (x : DataFrame) (column_names : list string)
    : result DataFrame :=
  _ ← require_all x column_names;
  Ok {| columns := remove_labels column_names (columns x);
        rows := map (delete_all column_names) (rows x) |}.

(** [pd.to_numeric(_, errors='coerce')] on one cell. *)
Definition to_numeric_coerce `{Pandas} (v : value) : value :=
  match v with
  | VStr s =>
      match floatify s with
      | Some n => value_of_number n
      | None => VNaN
      end
  | _ => v
  end.

Definition fillna (fill : value) (v : value) : value :=
  if isna v then fill else v.

(** Rounding toward zero. *)
Definition Qctrunc (q : Qc) : Z := Z.quot (Qnum (this q)) (Z.pos (Qden (this q))).

Definition Rtrunc (x : R) : Z :=
  if Rle_dec 0 x then Int_part x else (- Int_part (- x))%Z.

Definition int64_min : Z := (- 2 ^ 63)%Z.
Definition int64_max : Z := (2 ^ 63 - 1)%Z.

(** The conversion to [int64]: exact within the range of the type; outside it
    numpy does not raise and stores what the platform's conversion gives. *)
Definition to_int64 `{Pandas} (z : Z) : Z :=
  if (int64_min <=? z)%Z && (z <=? int64_max)%Z then z else int64_overflow z.

(** [astype(int)] on one cell: pandas refuses the non-finite values, drops the
    fraction of a finite one and converts to [int64]. *)
Definition astype_int `{Pandas} (v : value) : result value :=
  match v with
  | VNum q => Ok (VInt (to_int64 (Qctrunc q)))
  | VBool b => Ok (norm v)
  | VReal x => Ok (VInt (to_int64 (Rtrunc x)))
  | VNaN | VInf _ => Raise IntCastingNaNError
  | VStr _ => Raise ValueError
  end.

Definition _parse_integers `{Pandas} (x : list value) : result (list value) :=
  let x := map (fun v => fillna (VInt 0) (to_numeric_coerce v)) x in
  traverse astype_int x.

Fixpoint replace_value (map_of_values : list (value * value)) (v : value) : value :=
  match map_of_values with
  | [] => v
  | (k, w) :: d' => if py_eqb v k then w else replace_value d' v
  end.

Definition _rename_incidents (x : list value) (map_of_values : list (value * value))
    : list value :=
  map (replace_value map_of_values) x.

Fixpoint _remove_incident_outliers (x : DataFrame)
    (values_to_drop : list (string * value)) : result DataFrame :=
  match values_to_drop with
  | [] => Ok x
  | (column, v) :: rest =>
      _ ← require x column;
      _remove_incident_outliers (loc (fun r => py_neb (cell r column) v) x) rest
  end.

(** [x.dropna(subset=columns_to_check)]. *)
Definition _remove_incident_NaN (x : DataFrame) (columns_to_check : list string)
    : result DataFrame :=
  _ ← require_all x columns_to_check;
  Ok (loc (fun r => forallb (fun c => negb (isna (cell r c))) columns_to_check) x).

Definition _remove_incidents_2024 (x : DataFrame) (column_name : string)
    : result DataFrame :=
  _ ← require x column_name;
  Ok (loc (fun r => py_neb (cell r column_name) (VInt 2024)) x).

(** A column rewritten by a function of the whole Series. *)
Definition update_series (c : string) (f : list value -> result (list value))
    (x : DataFrame) : result DataFrame :=
  s ← series x c;
  s' ← f s;
  Ok (assign_series c s' x).

Definition outliers_to_drop : list (string * value) :=
  [("INCIDENT_CATEGORY", VStr "NOUVEAU"); ("LATITUDE", VInt 0)].

Definition map_of_incidents_values : list (value * value) :=
  [(VStr "SANS FEU", VStr "Sans incendie");
   (VStr "FAU-ALER", VStr "Fausses alertes/annulations");
   (VStr "1-REPOND", VStr "Premier répondant");
   (VStr "AUTREFEU", VStr "Autres incendies");
   (VStr "INCENDIE", VStr "Incendies de bâtiments")].

Definition new_incidents_column_names : list (string * string) :=
  [("CASERNE", "DISPATCHED_FIRE_STATION_ID");
   ("INCIDENT_TYPE_DESC", "INCIDENT_TYPE");
   ("DESCRIPTION_GROUPE", "INCIDENT_CATEGORY");
   ("NOMBRE_UNITES", "UNITS_DEPLOYED")].

Definition opt_int {A : Type} (f : A -> Z) (o : option A) : value :=
  match o with Some a => VInt (f a) | None => VNaN end.

Definition opt_str {A : Type} (f : A -> string) (o : option A) : value :=
  match o with Some a => VStr (f a) | None => VStr "NaT" end.

(** The columns derived from the parsed [CREATION_DATE_TIME] of one row.  On
    [NaT] the hour is [NaN], every comparison of [_get_time_of_day] is false and
    the bucket is its last branch. *)
Definition datetime_fields `{Pandas} (r : row) : result row :=
  ts ← to_datetime (cell r "CREATION_DATE_TIME");
  let tod := match ts with
             | Some t => _get_time_of_day (dt_hour t)
             | None => "night"
             end in
  Ok (<["time_of_day" := VStr tod]>
      (<["hour" := opt_int dt_hour ts]>
      (<["year" := opt_int dt_year ts]>
      (<["month" := opt_int dt_month ts]>
      (<["day_of_week" := opt_int dt_dayofweek ts]>
      (<["CREATION_TIME" := opt_str dt_time ts]>
      (<["CREATION_DATE" := opt_str dt_date ts]> r))))))).

Definition datetime_labels : list string :=
  ["CREATION_DATE"; "CREATION_TIME"; "day_of_week"; "month"; "year"; "hour";
   "time_of_day"].

Definition preprocess_incidents `{Pandas} (incidents : DataFrame) : result DataFrame :=
  incidents ← _drop_columns incidents
    ["INCIDENT_NBR"; "NOM_ARROND"; "DIVISION"; "NOM_VILLE"; "MTM8_X"; "MTM8_Y"];
  let incidents := _rename_columns incidents new_incidents_column_names in
  incidents ← update_series "INCIDENT_CATEGORY"
    (fun s => Ok (_rename_incidents s map_of_incidents_values)) incidents;
  incidents ← _remove_incident_outliers incidents outliers_to_drop;
  incidents ← _remove_incident_NaN incidents ["LATITUDE"; "LONGITUDE"; "INCIDENT_CATEGORY"];
  _ ← require incidents "CREATION_DATE_TIME";
  rs ← traverse datetime_fields (rows incidents);
  let incidents :=
    {| columns := foldl (fun cs c => add_label c cs) (columns incidents) datetime_labels;
       rows := rs |} in
  incidents ← _drop_columns incidents ["CREATION_DATE_TIME"];
  incidents ← _remove_incidents_2024 incidents "year";
  update_series "UNITS_DEPLOYED" _parse_integers incidents.

(** [x <= bound] on one cell of a numeric column. *)
Definition le_scalar (v : value) (bound : Z) : result bool :=
  match norm v with
  | VNum q => Ok (bool_decide (q ≤ qz bound)%Qc)
  | VInf negative => Ok negative
  | VReal x => Ok (if Rle_dec x (IZR bound) then true else false)
  | VNaN => Ok false
  | _ => Raise TypeError
  end.

(** [np.where(x <= 2024, x, np.nan)] *)
Definition where_le_2024 (x : list value) : result (list value) :=
  traverse (fun v =>
              match le_scalar v 2024 with
              | Ok true => Ok (norm v)
              | Ok false => Ok VNaN
              | Raise e => Raise e
              end) x.

Definition new_property_assessments_column_names : list (string * string) :=
  [("ID_UEV", "ASSESSMENT_ID");
   ("ETAGE_HORS_SOL", "ABOVE_GROUND_FLOORS");
   ("NOMBRE_LOGEMENT", "HOUSING_UNITS");
   ("ANNEE_CONSTRUCTION", "YEAR_CONSTRUCTION");
   ("CODE_UTILISATION", "USE_CODE");
   ("LIBELLE_UTILISATION", "USE_DESCRIPTION");
   ("CATEGORIE_UEF", "USE_CATEGORY");
   ("SUPERFICIE_TERRAIN", "AREA_LAND");
   ("SUPERFICIE_BATIMENT", "AREA_BUILDING")].

Definition _get_latitude_longitude `{Geopandas} (x : GeoDataFrame geometry) : DataFrame :=
  {| columns := add_label "LONGITUDE" (add_label "LATITUDE" (gcolumns x));
     rows := map (fun rg : row * geometry =>
                    <["LONGITUDE" := snd (centroid_lat_long (snd rg))]>
                    (<["LATITUDE" := fst (centroid_lat_long (snd rg))]> (fst rg)))
                 (grows x) |}.

Definition preprocess_property_assessments `{Pandas} `{Geopandas}
    (property_assessments : GeoDataFrame geometry) : result DataFrame :=
  let pa := _get_latitude_longitude property_assessments in
  pa ← _drop_columns pa
    ["MUNICIPALITE"; "CIVIQUE_DEBUT"; "CIVIQUE_FIN"; "NOM_RUE"; "SUITE_DEBUT";
     "LETTRE_DEBUT"; "LETTRE_DEBUT"; "LETTRE_FIN"; "MATRICULE83"; "NO_ARROND_ILE_CUM"];
  let pa := _rename_columns pa new_property_assessments_column_names in
  pa ← update_series "ABOVE_GROUND_FLOORS" _parse_integers pa;
  pa ← update_series "HOUSING_UNITS" _parse_integers pa;
  pa ← update_series "YEAR_CONSTRUCTION" _parse_integers pa;
  pa ← update_series "USE_CODE" _parse_integers pa;
  pa ← update_series "AREA_LAND" _parse_integers pa;
  pa ← update_series "AREA_BUILDING" _parse_integers pa;
  pa ← update_series "YEAR_CONSTRUCTION" where_le_2024 pa;
  update_series "USE_CATEGORY"
    (fun s => Ok (_rename_incidents s [(VStr "Régulier", VStr "Regular")])) pa.

(** ** [feature_engineering/nodes.py] *)

(** [np.where(x.isin(condition), True, False)] *)
Definition _generate_flag (x : list value) (condition : list value) : list value :=
  map (fun v => VBool (existsb (same_key v) condition)) x.

Definition _spatial_join_points `{Geopandas}
    (x_left x_right : GeoDataFrame geometry) (rsuffix : string)
    : GeoDataFrame geometry :=
  sjoin x_left x_right rsuffix.

Definition key_of (subset : list string) (r : row) : list value :=
  map (fun c => norm (cell r c)) subset.

(** [drop_duplicates(subset=_, keep='first')] on the rows, [seen] holding the
    keys met so far. *)
Fixpoint keep_first {G : Type} (subset : list string) (seen : list (list value))
    (rs : list (row * G)) : list (row * G) :=
  match rs with
  | [] => []
  | rg :: rs' =>
      if bool_decide (key_of subset (fst rg) ∈ seen)
      then keep_first subset seen rs'
      else rg :: keep_first subset (key_of subset (fst rg) :: seen) rs'
  end.

Fixpoint grequire_all {G : Type} (x : GeoDataFrame G) (cs : list string) : result unit :=
  match cs with
  | [] => Ok tt
  | c :: cs' =>
      if bool_decide (c ∈ gcolumns x) then grequire_all x cs' else Raise (KeyError c)
  end.

Definition _remove_duplicates {G : Type} (x : GeoDataFrame G) (subset : list string)
    : result (GeoDataFrame G) :=
  _ ← grequire_all x subset;
  Ok {| gcolumns := gcolumns x; grows := keep_first subset [] (grows x) |}.

Definition _intersect_mesh `{Geopandas} (x mesh : GeoDataFrame geometry)
    (duplicate_keys : list string) : result (GeoDataFrame geometry) :=
  let table_gdf := _spatial_join_points x mesh "mesh" in
  _remove_duplicates table_gdf duplicate_keys.

(** [np.radians] *)
Definition np_radians (x : R) : R := (x * PI / 180)%R.

(** [np.arctan2] *)
Definition np_arctan2 (y x : R) : R :=
  if Rlt_dec 0 x then atan (y / x)
  else if Rlt_dec x 0 then
    (if Rle_dec 0 y then atan (y / x) + PI else atan (y / x) - PI)%R
  else if Rlt_dec 0 y then (PI / 2)%R
  else if Rlt_dec y 0 then (- (PI / 2))%R
  else 0%R.

(** The formula of [_haversine_distance] on four finite floats, read as real
    numbers: rounding is outside the model.  Over the reals [a] never exceeds
    1; in [float64] a rounding error can push it above 1 near antipodal
    points, where numpy takes the root of a negative number and returns
    [nan]. *)
Definition _haversine_distance (lat1 lon1 lat2 lon2 : R) : R :=
  let R_earth := 6371%R in
  let phi1 := np_radians lat1 in
  let phi2 := np_radians lat2 in
  let delta_phi := np_radians (lat2 - lat1) in
  let delta_lambda := np_radians (lon2 - lon1) in
  let a := ((sin (delta_phi / 2)) ^ 2 +
            cos phi1 * cos phi2 * (sin (delta_lambda / 2)) ^ 2)%R in
  let c := (2 * np_arctan2 (sqrt a) (sqrt (1 - a)))%R in
  (R_earth * c)%R.

(** A cell as a float operand: [Ok None] is [nan]. *)
Definition as_float (v : value) : result (option R) :=
  match norm v with
  | VNum q => Ok (Some (Q2R (this q)))
  | VReal x => Ok (Some x)
  | VNaN => Ok None
  | VInf _ => Ok None
  | _ => Raise TypeError
  end.

(** [_haversine_distance] on one row of its four Series.  [nan] propagates
    through the arithmetic, and an infinite operand yields [nan] in [sin] or
    [cos]. *)
Definition haversine_cells (lat1 lon1 lat2 lon2 : value) : result value :=
  a ← as_float lat1; b ← as_float lon1; c ← as_float lat2; d ← as_float lon2;
  match a, b, c, d with
  | Some a, Some b, Some c, Some d => Ok (VReal (_haversine_distance a b c d))
  | _, _, _, _ => Ok VNaN
  end.

(** [current_year - x], the clock being read by [datetime.now().year]. *)
Definition _calculate_building_age (current_year : Z) (x : value) : result value :=
  match norm x with
  | VNum q => Ok (VNum (qz current_year - q))
  | VReal y => Ok (VReal (IZR current_year - y))
  | VInf negative => Ok (VInf (negb negative))
  | VNaN => Ok VNaN
  | _ => Raise TypeError
  end.

Definition drop_geometry {G : Type} (x : GeoDataFrame G) : DataFrame :=
  {| columns := gcolumns x; rows := map fst (grows x) |}.

(** [gpd.GeoDataFrame(x, geometry=gpd.points_from_xy(x.LONGITUDE, x.LATITUDE))] *)
Definition with_points `{Geopandas} (x : DataFrame) : result (GeoDataFrame geometry) :=
  _ ← require x "LONGITUDE";
  _ ← require x "LATITUDE";
  Ok {| gcolumns := columns x;
        grows := map (fun r => (r, point_from_xy (cell r "LONGITUDE") (cell r "LATITUDE")))
                     (rows x) |}.

Definition spatial_join `{Geopandas} (key : string) (x : DataFrame)
    (mesh : GeoDataFrame geometry) : result DataFrame :=
  x_gdf ← with_points x;
  grid_gdf ← _intersect_mesh x_gdf mesh [key];
  Ok (drop_geometry grid_gdf).

Definition spatial_join_incidents `{Geopandas} := spatial_join "INCIDENT_ID".
Definition spatial_join_property_assessments `{Geopandas} := spatial_join "ASSESSMENT_ID".
Definition spatial_join_census `{Geopandas} := spatial_join "DGUID".

Definition merge_incidents_property_assessments
    (incidents property_assessments : DataFrame) : DataFrame :=
  concat incidents property_assessments.

Definition merge_incidents_property_assessments_census
    (incidents_property_assessments census : DataFrame) : DataFrame :=
  concat incidents_property_assessments census.

(** The label of a right-hand column in the result of [merge]. *)
Definition suffixed (left_labels : list string) (rsuffix : string) (c : string) : string :=
  if bool_decide (c ∈ left_labels) then c ++ rsuffix else c.

Definition attach (left_labels : list string) (rsuffix : string) (extra : list string)
    (from : string -> value) (l : row) : row :=
  foldr (fun c acc => <[suffixed left_labels rsuffix c := from c]> acc) l extra.

(** The rows that a left join makes of the row [l]: one for each partner in
    [right], in the order of [right], or one filled with missing values. *)
Definition join_row (left_labels : list string) (right : DataFrame) (on rsuffix : string)
    (extra : list string) (l : row) : list row :=
  match List.filter (fun m => same_key (cell l on) (cell m on)) (rows right) with
  | [] => [attach left_labels rsuffix extra (fun _ => VNaN) l]
  | ms => map (fun m => attach left_labels rsuffix extra (cell m) l) ms
  end.

(** [left.merge(right, left_on=on, right_on=on, how='left', suffixes=("", rsuffix))].
    Rows come in the order of [left]; a row without a partner gets missing
    values; missing keys match each other (pandas refuses to merge a key
    column of strings with one of numbers; here such keys find no partner).
    When a suffixed label is already a
    label of [left] pandas builds a table with a repeated label, on which the
    column assignment that follows in [create_input_table] raises [ValueError]. *)
Definition merge_left (left right : DataFrame) (on : string) (rsuffix : string)
    : result DataFrame :=
  _ ← require left on;
  _ ← require right on;
  let extra := remove_labels [on] (columns right) in
  if existsb (fun c => bool_decide (c ∈ columns left) &&
                       bool_decide (c ++ rsuffix ∈ columns left)) extra
  then Raise ValueError
  else
    Ok {| columns := columns left ++ map (suffixed (columns left) rsuffix) extra;
          rows := flat_map (join_row (columns left) right on rsuffix extra) (rows left) |}.

Definition fire_categories : list value :=
  [VStr "Autres incendies"; VStr "Incendies de b√¢timents"].

(** [table['building_age'] = np.where(table['ASSESSMENT_ID'].isna() == False,
    table['YEAR_CONSTRUCTION'].apply(_calculate_building_age), np.nan)] *)
Definition add_building_age (current_year : Z) (table : DataFrame) : result DataFrame :=
  _ ← require table "ASSESSMENT_ID";
  _ ← require table "YEAR_CONSTRUCTION";
  rs ← traverse
         (fun r =>
            age ← _calculate_building_age current_year (cell r "YEAR_CONSTRUCTION");
            Ok (<["building_age" :=
                   if isna (cell r "ASSESSMENT_ID") then VNaN else age]> r))
         (rows table);
  Ok {| columns := add_label "building_age" (columns table); rows := rs |}.

(** [table.merge(firestations[["FIRE_STATION_ID", "LATITUDE", "LONGITUDE"]], ...)] *)
Definition merge_firestations (table firestations : DataFrame) : result DataFrame :=
  stations ← select firestations ["FIRE_STATION_ID"; "LATITUDE"; "LONGITUDE"];
  merge_left table stations "FIRE_STATION_ID" "_firestation".

Definition add_distance (table : DataFrame) : result DataFrame :=
  _ ← require_all table
        ["grid_lat"; "grid_long"; "LATITUDE_firestation"; "LONGITUDE_firestation"];
  rs ← traverse
         (fun r =>
            d ← haversine_cells (cell r "grid_lat") (cell r "grid_long")
                  (cell r "LATITUDE_firestation") (cell r "LONGITUDE_firestation");
            Ok (<["distance_to_fire_station" := d]> r))
         (rows table);
  Ok {| columns := add_label "distance_to_fire_station" (columns table); rows := rs |}.

Definition add_is_fire (table : DataFrame) : result DataFrame :=
  s ← series table "INCIDENT_CATEGORY";
  Ok (assign_series "is_fire" (_generate_flag s fire_categories) table).

Definition create_input_table (current_year : Z) (table firestations : DataFrame)
    : result DataFrame :=
  table ← add_building_age current_year table;
  table ← merge_firestations table firestations;
  table ← add_distance table;
  table ← add_is_fire table;
  _drop_columns table ["LATITUDE"; "LONGITUDE"].

(** ** Reading the model *)

(** The predicate that [_remove_incident_outliers] ends up applying. *)
Definition survives (values_to_drop : list (string * value)) (r : row) : bool :=
  forallb (fun cv => py_neb (cell r (fst cv)) (snd cv)) values_to_drop.

(** ** A small instance of the library interfaces

    Enough of pandas to run the nodes on sample tables: decimal integers and
    the spellings of infinity for [floatify], timestamps written
    [YYYY-MM-DD HH:MM:SS] for [to_datetime]. *)

Definition digit (a : ascii) : option Z :=
  let n := (Z.of_nat (nat_of_ascii a) - 48)%Z in
  if (0 <=? n)%Z && (n <=? 9)%Z then Some n else None.

Fixpoint digits_from (acc : Z) (s : string) : option Z :=
  match s with
  | EmptyString => Some acc
  | String a s' =>
      match digit a with
      | Some d => digits_from (10 * acc + d) s'
      | None => None
      end
  end.

Definition digits (s : string) : option Z :=
  match s with
  | EmptyString => None
  | _ => digits_from 0 s
  end.

Definition sample_floatify (s : string) : option number :=
  if bool_decide (s = "inf") then Some (Infinite false)
  else if bool_decide (s = "-inf") then Some (Infinite true)
  else if bool_decide (s = "nan") then Some NotANumber
  else match s with
       | String "-" s' => (fun z => Finite (qz (- z))) <$> digits s'
       | _ => (fun z => Finite (qz z)) <$> digits s
       end.

Definition field (start len : nat) (s : string) : Z :=
  default 0%Z (digits (substring start len s)).

Definition iso_shaped (s : string) : bool :=
  bool_decide (String.length s = 19%nat) &&
  forallb (fun i => bool_decide (is_Some (digits (substring i 1 s))))
          [0; 1; 2; 3; 5; 6; 8; 9; 11; 12; 14; 15; 17; 18]%nat &&
  bool_decide (substring 4 1 s = "-") && bool_decide (substring 7 1 s = "-") &&
  bool_decide (substring 10 1 s = " ") &&
  bool_decide (substring 13 1 s = ":") && bool_decide (substring 16 1 s = ":").

Definition sample_to_datetime (v : value) : result (option string) :=
  match v with
  | VNaN => Ok None
  | VStr s => if iso_shaped s then Ok (Some s) else Raise ValueError
  | _ => Raise TypeError
  end.

(** Monday is 0. *)
Definition sample_dayofweek (s : string) : Z :=
  let m := field 5 2 s in
  let y := if (m <? 3)%Z then (field 0 4 s - 1)%Z else field 0 4 s in
  let t := nth (Z.to_nat (m - 1)) [0; 3; 2; 5; 0; 3; 5; 1; 4; 6; 2; 4]%Z 0%Z in
  ((y + y / 4 - y / 100 + y / 400 + t + field 8 2 s + 6) mod 7)%Z.

Definition sample_pandas : Pandas :=
  {| floatify := sample_floatify;
     Timestamp := string;
     to_datetime := sample_to_datetime;
     dt_date := substring 0 10;
     dt_time := substring 11 8;
     dt_dayofweek := sample_dayofweek;
     dt_month := field 5 2;
     dt_year := field 0 4;
     dt_hour := field 11 2;
     int64_overflow := fun _ => (- 2 ^ 63)%Z |}.

Definition mk_row (l : list (string * value)) : row := list_to_map l.

Definition vq (n : Z) (d : positive) : value := VNum (Q2Qc (n # d)).

(** Four raw incidents: a forbidden category, a zero latitude, a regular
    building fire, and one with no category. *)
Definition sample_incidents : DataFrame :=
  {| columns := ["INCIDENT_NBR"; "NOM_ARROND"; "DIVISION"; "NOM_VILLE"; "MTM8_X";
                 "MTM8_Y"; "CASERNE"; "INCIDENT_TYPE_DESC"; "DESCRIPTION_GROUPE";
                 "NOMBRE_UNITES"; "CREATION_DATE_TIME"; "LATITUDE"; "LONGITUDE";
                 "INCIDENT_ID"];
     rows :=
       [mk_row [("CASERNE", VInt 5); ("DESCRIPTION_GROUPE", VStr "NOUVEAU");
                ("NOMBRE_UNITES", VStr "3"); ("CREATION_DATE_TIME", VStr "2023-05-01 10:15:00");
                ("LATITUDE", vq 4551 100); ("LONGITUDE", vq (-7356) 100);
                ("INCIDENT_ID", VInt 0)];
        mk_row [("CASERNE", VInt 5); ("DESCRIPTION_GROUPE", VStr "AUTREFEU");
                ("NOMBRE_UNITES", VStr "2"); ("CREATION_DATE_TIME", VStr "2023-05-02 13:00:00");
                ("LATITUDE", VInt 0); ("LONGITUDE", VInt 0);
                ("INCIDENT_ID", VInt 1)];
        mk_row [("CASERNE", VInt 7); ("DESCRIPTION_GROUPE", VStr "INCENDIE");
                ("NOMBRE_UNITES", VStr "n/a"); ("CREATION_DATE_TIME", VStr "2023-05-03 22:40:10");
                ("LATITUDE", vq 4552 100); ("LONGITUDE", vq (-7357) 100);
                ("INCIDENT_ID", VInt 2)];
        mk_row [("CASERNE", VInt 7);
                ("NOMBRE_UNITES", VStr "1"); ("CREATION_DATE_TIME", VStr "2023-05-04 04:00:00");
                ("LATITUDE", vq 4553 100); ("LONGITUDE", vq (-7358) 100);
                ("INCIDENT_ID", VInt 3)]] |}.


(** One raw incident whose number of units reads as infinity. *)
Definition sample_incident_infinite_units : DataFrame :=
  {| columns := columns sample_incidents;
     rows :=
       [mk_row [("CASERNE", VInt 7); ("DESCRIPTION_GROUPE", VStr "INCENDIE");
                ("NOMBRE_UNITES", VStr "inf"); ("CREATION_DATE_TIME", VStr "2023-05-03 22:40:10");
                ("LATITUDE", vq 4552 100); ("LONGITUDE", vq (-7357) 100);
                ("INCIDENT_ID", VInt 0)]] |}.

(** The incidents as they reach the outlier step: labels renamed, categories
    relabelled. *)
Definition sample_renamed : DataFrame :=
  {| columns := ["INCIDENT_CATEGORY"; "LATITUDE"; "LONGITUDE"; "INCIDENT_ID"];
     rows :=
       [mk_row [("INCIDENT_CATEGORY", VStr "NOUVEAU"); ("LATITUDE", vq 4551 100);
                ("LONGITUDE", vq (-7356) 100); ("INCIDENT_ID", VInt 0)];
        mk_row [("INCIDENT_CATEGORY", VStr "Autres incendies"); ("LATITUDE", VInt 0);
                ("LONGITUDE", VInt 0); ("INCIDENT_ID", VInt 1)];
        mk_row [("INCIDENT_CATEGORY", VStr "Incendies de bâtiments");
                ("LATITUDE", vq 4552 100); ("LONGITUDE", vq (-7357) 100);
                ("INCIDENT_ID", VInt 2)];
        mk_row [("LATITUDE", vq 4553 100); ("LONGITUDE", vq (-7358) 100);
                ("INCIDENT_ID", VInt 3)]] |}.


Definition required_fields : list string := ["LATITUDE"; "LONGITUDE"; "INCIDENT_CATEGORY"].

(** The row of [sample_renamed] that has no category. *)
Definition sample_no_category : row :=
  mk_row [("LATITUDE", vq 4553 100); ("LONGITUDE", vq (-7358) 100);
          ("INCIDENT_ID", VInt 3)].

(** Rows that carry the key [k]. *)
Definition has_key {G : Type} (subset : list string) (k : list value)
    (rg : row * G) : bool :=
  bool_decide (key_of subset (fst rg) = k).

(** A planar geometry of points and closed axis-parallel boxes, joined by
    nested loops: every left row in turn, against the cells in their order.
    It serves tables whose labels do not overlap. *)
Inductive shape : Type :=
  | Point (x y : Qc)
  | Box (x0 y0 x1 y1 : Qc)
  | Empty.

Definition between (lo v hi : Qc) : bool :=
  bool_decide (lo ≤ v)%Qc && bool_decide (v ≤ hi)%Qc.

Definition intersects (a b : shape) : bool :=
  match a, b with
  | Point x y, Box x0 y0 x1 y1 | Box x0 y0 x1 y1, Point x y =>
      between x0 x x1 && between y0 y y1
  | Point x y, Point x' y' => bool_decide (x = x') && bool_decide (y = y')
  | Box a0 b0 a1 b1, Box c0 d0 c1 d1 =>
      bool_decide (a0 ≤ c1)%Qc && bool_decide (c0 ≤ a1)%Qc &&
      bool_decide (b0 ≤ d1)%Qc && bool_decide (d0 ≤ b1)%Qc
  | _, _ => false
  end.

Fixpoint enumerate {A : Type} (i : Z) (l : list A) : list (Z * A) :=
  match l with
  | [] => []
  | a :: l' => (i, a) :: enumerate (i + 1) l'
  end.

Definition sample_sjoin (left right : GeoDataFrame shape) (rsuffix : string)
    : GeoDataFrame shape :=
  {| gcolumns := gcolumns left ++ ["index_" ++ rsuffix] ++ gcolumns right;
     grows :=
       flat_map
         (fun lg : row * shape =>
            flat_map
              (fun jc : Z * (row * shape) =>
                 if intersects (snd lg) (snd (snd jc))
                 then [(<["index_" ++ rsuffix := VInt (fst jc)]>
                          (fst (snd jc) ∪ fst lg), snd lg)]
                 else [])
              (enumerate 0 (grows right)))
         (grows left) |}.

Definition sample_centroid (g : shape) : value * value :=
  match g with
  | Point x y => (VNum y, VNum x)
  | Box x0 y0 x1 y1 => (VNum ((y0 + y1) / 2), VNum ((x0 + x1) / 2))
  | Empty => (VNaN, VNaN)
  end.

Definition sample_point (x y : value) : shape :=
  match x, y with
  | VNum x, VNum y => Point x y
  | _, _ => Empty
  end.

Definition sample_geopandas : Geopandas :=
  {| geometry := shape;
     sjoin := sample_sjoin;
     centroid_lat_long := sample_centroid;
     point_from_xy := sample_point |}.

(** Two unit cells side by side, sharing the edge [x = 1]. *)
Definition sample_mesh : GeoDataFrame shape :=
  {| gcolumns := ["FIRE_STATION_ID"; "grid_long"; "grid_lat"];
     grows :=
       [(mk_row [("FIRE_STATION_ID", VInt 5); ("grid_long", vq 1 2); ("grid_lat", vq 1 2)],
         Box (qz 0) (qz 0) (qz 1) (qz 1));
        (mk_row [("FIRE_STATION_ID", VInt 7); ("grid_long", vq 3 2); ("grid_lat", vq 1 2)],
         Box (qz 1) (qz 0) (qz 2) (qz 1))] |}.

(** One incident inside the second cell, one on the shared edge. *)
Definition sample_points : GeoDataFrame shape :=
  {| gcolumns := ["INCIDENT_ID"; "INCIDENT_CATEGORY"];
     grows :=
       [(mk_row [("INCIDENT_ID", VInt 0); ("INCIDENT_CATEGORY", VStr "Autres incendies")],
         Point (Q2Qc (3 # 2)) (Q2Qc (1 # 2)));
        (mk_row [("INCIDENT_ID", VInt 1); ("INCIDENT_CATEGORY", VStr "Sans incendie")],
         Point (qz 1) (Q2Qc (1 # 2)))] |}.


(** ** [create_input_table] row by row *)

Definition station_labels : list string := ["FIRE_STATION_ID"; "LATITUDE"; "LONGITUDE"].

(** The labels of the input table once [building_age] is assigned. *)
Definition aged_labels (table : DataFrame) : list string :=
  add_label "building_age" (columns table).

Definition age_cell (current_year : Z) (r : row) : value :=
  match _calculate_building_age current_year (cell r "YEAR_CONSTRUCTION") with
  | Ok age => if isna (cell r "ASSESSMENT_ID") then VNaN else age
  | Raise _ => VNaN
  end.

Definition distance_cell (r : row) : value :=
  match haversine_cells (cell r "grid_lat") (cell r "grid_long")
          (cell r "LATITUDE_firestation") (cell r "LONGITUDE_firestation") with
  | Ok d => d
  | Raise _ => VNaN
  end.

Definition is_fire_cell (r : row) : value :=
  VBool (existsb (same_key (cell r "INCIDENT_CATEGORY")) fire_categories).

(** What the last three steps make of a row of the merged table. *)
Definition finish_row (r : row) : row :=
  let r := <["distance_to_fire_station" := distance_cell r]> r in
  delete_all ["LATITUDE"; "LONGITUDE"] (<["is_fire" := is_fire_cell r]> r).

(** The rows of the output that stem from the row [r] of the input. *)
Definition output_rows (current_year : Z) (table stations : DataFrame) (r : row)
    : list row :=
  map finish_row
      (join_row (aged_labels table) stations "FIRE_STATION_ID" "_firestation"
                ["LATITUDE"; "LONGITUDE"]
                (<["building_age" := age_cell current_year r]> r)).

(** The labels that [create_input_table] writes or deletes. *)
Definition touched_labels : list string :=
  ["building_age"; "LATITUDE_firestation"; "LONGITUDE_firestation";
   "distance_to_fire_station"; "is_fire"; "LATITUDE"; "LONGITUDE"].

(** A merged table: two incidents, one assessed building, one census unit.
    The first incident lies in the area of station 7 and was answered by
    station 5. *)
Definition sample_merged : DataFrame :=
  {| columns := ["DISPATCHED_FIRE_STATION_ID"; "INCIDENT_CATEGORY"; "LATITUDE";
                 "LONGITUDE"; "INCIDENT_ID"; "FIRE_STATION_ID"; "grid_long";
                 "grid_lat"; "ASSESSMENT_ID"; "YEAR_CONSTRUCTION"; "DGUID"];
     rows :=
       [mk_row [("DISPATCHED_FIRE_STATION_ID", VInt 5);
                ("INCIDENT_CATEGORY", VStr "Incendies de bâtiments");
                ("LATITUDE", vq 4552 100); ("LONGITUDE", vq (-7357) 100);
                ("INCIDENT_ID", VInt 2); ("FIRE_STATION_ID", VInt 7);
                ("grid_long", vq (-7355) 100); ("grid_lat", vq 4555 100)];
        mk_row [("DISPATCHED_FIRE_STATION_ID", VInt 7);
                ("INCIDENT_CATEGORY", VStr "Autres incendies");
                ("LATITUDE", vq 4553 100); ("LONGITUDE", vq (-7358) 100);
                ("INCIDENT_ID", VInt 3); ("FIRE_STATION_ID", VInt 7);
                ("grid_long", vq (-7355) 100); ("grid_lat", vq 4555 100)];
        mk_row [("LATITUDE", vq 4554 100); ("LONGITUDE", vq (-7359) 100);
                ("FIRE_STATION_ID", VInt 5);
                ("grid_long", vq (-7365) 100); ("grid_lat", vq 4555 100);
                ("ASSESSMENT_ID", VInt 1001); ("YEAR_CONSTRUCTION", VInt 0)];
        mk_row [("LATITUDE", vq 4556 100); ("LONGITUDE", vq (-7360) 100);
                ("FIRE_STATION_ID", VInt 9);
                ("grid_long", vq (-7375) 100); ("grid_lat", vq 4555 100);
                ("DGUID", VStr "2021S0512")]] |}.

Definition sample_firestations : DataFrame :=
  {| columns := ["FIRE_STATION_ID"; "STREET_NAME"; "LATITUDE"; "LONGITUDE"];
     rows :=
       [mk_row [("FIRE_STATION_ID", VInt 5); ("STREET_NAME", VStr "Ontario");
                ("LATITUDE", vq 4550 100); ("LONGITUDE", vq (-7366) 100)];
        mk_row [("FIRE_STATION_ID", VInt 7); ("STREET_NAME", VStr "Rachel");
                ("LATITUDE", vq 4560 100); ("LONGITUDE", vq (-7356) 100)]] |}.


(** ** Well-labelled tables *)

(** Every cell of the table sits under one of its labels. *)
Definition labelled (x : DataFrame) : Prop :=
  forall r, r ∈ rows x -> forall c, is_Some (r !! c) -> c ∈ columns x.

(** The station key of a row, as the join compares it. *)
Definition station_key (m : row) : value := norm (cell m "FIRE_STATION_ID").

(** Incidents, assessed buildings and census units after their spatial joins,
    each with the labels of its own source. *)
Definition sample_joined_incidents : DataFrame :=
  {| columns := ["INCIDENT_CATEGORY"; "LATITUDE"; "LONGITUDE"; "INCIDENT_ID";
                 "FIRE_STATION_ID"; "grid_long"; "grid_lat"];
     rows :=
       [mk_row [("INCIDENT_CATEGORY", VStr "Autres incendies");
                ("LATITUDE", vq 4553 100); ("LONGITUDE", vq (-7358) 100);
                ("INCIDENT_ID", VInt 3); ("FIRE_STATION_ID", VInt 7);
                ("grid_long", vq (-7355) 100); ("grid_lat", vq 4555 100)]] |}.

Definition sample_joined_assessments : DataFrame :=
  {| columns := ["ASSESSMENT_ID"; "YEAR_CONSTRUCTION"; "LATITUDE"; "LONGITUDE";
                 "FIRE_STATION_ID"; "grid_long"; "grid_lat"];
     rows :=
       [mk_row [("ASSESSMENT_ID", VInt 1001); ("YEAR_CONSTRUCTION", VInt 1987);
                ("LATITUDE", vq 4554 100); ("LONGITUDE", vq (-7359) 100);
                ("FIRE_STATION_ID", VInt 5);
                ("grid_long", vq (-7365) 100); ("grid_lat", vq 4555 100)]] |}.

Definition sample_joined_census : DataFrame :=
  {| columns := ["DGUID"; "LATITUDE"; "LONGITUDE"; "FIRE_STATION_ID"; "grid_long";
                 "grid_lat"];
     rows :=
       [mk_row [("DGUID", VStr "2021S0512"); ("LATITUDE", vq 4556 100);
                ("LONGITUDE", vq (-7360) 100); ("FIRE_STATION_ID", VInt 9);
                ("grid_long", vq (-7375) 100); ("grid_lat", vq 4555 100)]] |}.

(** [labelled], decided row by row. *)
Definition labelledb (x : DataFrame) : bool :=
  forallb (fun r : row =>
             forallb (fun kv : string * value => bool_decide (kv.1 ∈ columns x))
                     (map_to_list r))
          (rows x).


(** Two incidents with their coordinates: the first inside the second cell of
    [sample_mesh], the second on the edge that the two cells share. *)
Definition sample_located : DataFrame :=
  {| columns := ["INCIDENT_ID"; "LONGITUDE"; "LATITUDE"];
     rows :=
       [mk_row [("INCIDENT_ID", VInt 0); ("LONGITUDE", vq 3 2); ("LATITUDE", vq 1 2)];
        mk_row [("INCIDENT_ID", VInt 1); ("LONGITUDE", VInt 1); ("LATITUDE", vq 1 2)]] |}.


(** ** [preprocess_census] *)

Definition new_census_column_names : list (string * string) :=
  [("Average size of census families", "AVERAGE_FAMILY_SIZE");
   ("Population density per square kilometre", "POPULATION_DENSITY");
   ("Population, 2021", "2021_POPULATION")].

Definition census_outliers_to_drop : list (string * value) :=
  [("POPULATION_DENSITY", VInt 0); ("2021_POPULATION", VInt 0)].

(** The census with the coordinates of its centroids, once [geometry] and
    [centroid] are dropped. *)
Definition census_coordinates `{Geopandas} (census : GeoDataFrame geometry) : DataFrame :=
  {| columns := remove_labels ["centroid"]
                  (add_label "LATITUDE" (add_label "LONGITUDE" (gcolumns census)));
     rows := map (fun rg : row * geometry =>
                    delete_all ["centroid"]
                      (<["LATITUDE" := fst (centroid_lat_long (snd rg))]>
                       (<["LONGITUDE" := snd (centroid_lat_long (snd rg))]> (fst rg))))
                 (grows census) |}.

Definition preprocess_census `{Geopandas} (census : GeoDataFrame geometry)
    : result DataFrame :=
  let census := census_coordinates census in
  let census := _rename_columns census new_census_column_names in
  _remove_incident_outliers census census_outliers_to_drop.

(** Three census units: one inhabited, one with a density of zero, one whose
    population is not known. *)
Definition sample_census : GeoDataFrame shape :=
  {| gcolumns := ["DGUID"; "Population density per square kilometre";
                  "Population, 2021"];
     grows :=
       [(mk_row [("DGUID", VStr "2021S0512"); 
                 ("Population density per square kilometre", vq 51234 10);
                 ("Population, 2021", VInt 812)],
         Box (qz 0) (qz 0) (qz 1) (qz 1));
        (mk_row [("DGUID", VStr "2021S0513");
                 ("Population density per square kilometre", VInt 0);
                 ("Population, 2021", VInt 0)],
         Box (qz 1) (qz 0) (qz 2) (qz 1));
        (mk_row [("DGUID", VStr "2021S0514");
                 ("Population density per square kilometre", vq 3 2)],
         Box (qz 2) (qz 0) (qz 3) (qz 1))] |}.


(** ** [preprocess_firestations] *)

Definition new_firestations_column_names : list (string * string) :=
  [("CASERNE", "FIRE_STATION_ID");
   ("NO_CIVIQUE", "STREET_NUMBER");
   ("RUE", "STREET_NAME");
   ("ARRONDISSEMENT", "NEIGHBORHOOD");
   ("VILLE", "CITY");
   ("NOM_RUE", "STREET_NAME");
   ("DATE_DEBUT", "START_DATE");
   ("DATE_FIN", "END_DATE")].

(** [x.combine_first(y)] on two Series of one table. *)
Definition _combine_neighbourhoods_and_city (x y : list value) : list value :=
  zip_with (fun a b => if isna a then b else a) x y.

Definition _parse_date `{Pandas} (x : list value) : result (list value * list value) :=
  x ← traverse to_datetime x;
  let y := map (opt_str dt_time) x in
  let x := map (opt_str dt_date) x in
  Ok (x, y).

Definition drop_firestation_columns : list string :=
  ["NEIGHBORHOOD"; "CITY"; "MTM8_X"; "MTM8_Y"].

Definition preprocess_firestations `{Pandas} (firestations : DataFrame)
    : result DataFrame :=
  let firestations := _rename_columns firestations new_firestations_column_names in
  neighborhood ← series firestations "NEIGHBORHOOD";
  city ← series firestations "CITY";
  let firestations :=
    assign_series "AREA" (_combine_neighbourhoods_and_city neighborhood city)
                  firestations in
  firestations ← _drop_columns firestations drop_firestation_columns;
  firestations ← update_series "START_DATE" (fun s => fst <$> _parse_date s) firestations;
  update_series "END_DATE" (fun s => fst <$> _parse_date s) firestations.

(** Two raw fire stations: one in a borough of the city, still in service, and
    one of a town without boroughs. *)
Definition sample_raw_firestations : DataFrame :=
  {| columns := ["CASERNE"; "NO_CIVIQUE"; "RUE"; "ARRONDISSEMENT"; "VILLE";
                 "DATE_DEBUT"; "DATE_FIN"; "MTM8_X"; "MTM8_Y"; "LATITUDE"; "LONGITUDE"];
     rows :=
       [mk_row [("CASERNE", VInt 5); ("NO_CIVIQUE", VInt 75); ("RUE", VStr "Ontario");
                ("ARRONDISSEMENT", VStr "Ville-Marie"); ("VILLE", VStr "Montreal");
                ("DATE_DEBUT", VStr "1975-01-01 00:00:00");
                ("MTM8_X", vq 3001234 10); ("MTM8_Y", vq 50412345 10);
                ("LATITUDE", vq 4550 100); ("LONGITUDE", vq (-7366) 100)];
        mk_row [("CASERNE", VInt 76); ("NO_CIVIQUE", VInt 19); ("RUE", VStr "Stanton");
                ("VILLE", VStr "Westmount");
                ("DATE_DEBUT", VStr "1980-06-15 00:00:00");
                ("DATE_FIN", VStr "2015-12-31 00:00:00");
                ("MTM8_X", vq 2991234 10); ("MTM8_Y", vq 50402345 10);
                ("LATITUDE", vq 4548 100); ("LONGITUDE", vq (-7360) 100)]] |}.


(** Two raw assessment units: a regular building with a year of construction
    that cannot be read, and a condominium announced for 2027. *)
Definition sample_raw_assessments : GeoDataFrame shape :=
  {| gcolumns := ["ID_UEV"; "MUNICIPALITE"; "CIVIQUE_DEBUT"; "CIVIQUE_FIN"; "NOM_RUE";
                  "SUITE_DEBUT"; "LETTRE_DEBUT"; "LETTRE_FIN"; "MATRICULE83";
                  "NO_ARROND_ILE_CUM"; "ETAGE_HORS_SOL"; "NOMBRE_LOGEMENT";
                  "ANNEE_CONSTRUCTION"; "CODE_UTILISATION"; "LIBELLE_UTILISATION";
                  "CATEGORIE_UEF"; "SUPERFICIE_TERRAIN"; "SUPERFICIE_BATIMENT"];
     grows :=
       [(mk_row [("ID_UEV", VStr "01001"); ("MUNICIPALITE", VStr "50");
                 ("CIVIQUE_DEBUT", VInt 75); ("NOM_RUE", VStr "rue Ontario");
                 ("ETAGE_HORS_SOL", vq 5 2); ("NOMBRE_LOGEMENT", VStr "3");
                 ("ANNEE_CONSTRUCTION", VStr "n/a"); ("CODE_UTILISATION", VInt 1000);
                 ("LIBELLE_UTILISATION", VStr "Logement");
                 ("CATEGORIE_UEF", VStr "Régulier");
                 ("SUPERFICIE_TERRAIN", VInt 310); ("SUPERFICIE_BATIMENT", VInt 180)],
         Box (qz 0) (qz 0) (qz 1) (qz 1));
        (mk_row [("ID_UEV", VStr "01002"); ("MUNICIPALITE", VStr "50");
                 ("CIVIQUE_DEBUT", VInt 19); ("NOM_RUE", VStr "rue Stanton");
                 ("ETAGE_HORS_SOL", VInt 12); ("NOMBRE_LOGEMENT", VInt 96);
                 ("ANNEE_CONSTRUCTION", VInt 2027); ("CODE_UTILISATION", VInt 1000);
                 ("LIBELLE_UTILISATION", VStr "Logement");
                 ("CATEGORIE_UEF", VStr "Condominium");
                 ("SUPERFICIE_TERRAIN", VInt 2200)],
         Box (qz 1) (qz 0) (qz 2) (qz 1))] |}.


(** ** [combine_incidents] *)

(** The order of Python on [str], code point by code point. *)
Definition label_le (a b : string) : Prop := String.leb a b = true.

#[global] Instance label_le_dec (a b : string) : Decision (label_le a b).
Proof. unfold label_le. solve_decision. Defined.

(** The order in which [sorted] puts the items of a [dict]: by key. *)
Definition key_le {A : Type} (a b : string * A) : Prop := label_le (fst a) (fst b).

#[global] Instance key_le_dec {A : Type} (a b : string * A) : Decision (key_le a b).
Proof. unfold key_le. solve_decision. Defined.

(** [pd.concat([x, y], ignore_index=True, sort=True)]: the rows of [x], then the
    rows of [y], under the sorted union of the labels. *)
Definition concat_sorted (x y : DataFrame) : DataFrame :=
  {| columns := merge_sort label_le (columns x ++ remove_labels (columns x) (columns y));
     rows := rows x ++ rows y |}.

(** A partition stands for the table that its load function returns. *)
Definition _concat_partitions (partitioned_input : list (string * DataFrame))
    : DataFrame :=
  foldl (fun result kv => concat_sorted result (snd kv))
        {| columns := []; rows := [] |}
        (merge_sort key_le partitioned_input).

(** [x.index] after [ignore_index=True]: the positions of the rows. *)
Definition _create_id (x : DataFrame) : list value :=
  map (fun i => VInt (Z.of_nat i)) (seq 0 (length (rows x))).

Definition combine_incidents (partitioned_input : list (string * DataFrame))
    : DataFrame :=
  let incidents := _concat_partitions partitioned_input in
  assign_series "INCIDENT_ID" (_create_id incidents) incidents.


(** * Properties *)

(** ** The exception monad *)

Lemma bind_ok {A B : Type} (m : result A) (f : A -> result B) (b : B) :
  m ≫= f = Ok b <-> exists a, m = Ok a /\ f a = Ok b.
Proof.
  destruct m as [a|e]; simpl; split.
  - intros Hf. exists a. split; [reflexivity | exact Hf].
  - intros (a' & Ha & Hf). inversion Ha; subst. exact Hf.
  - intros Hf. discriminate Hf.
  - intros (a' & Ha & _). discriminate Ha.
Qed.

Lemma fmap_ok {A B : Type} (f : A -> B) (m : result A) (b : B) :
  f <$> m = Ok b <-> exists a, m = Ok a /\ f a = b.
Proof.
  destruct m as [a|e]; simpl; split.
  - intros Hf. inversion Hf. exists a. split; reflexivity.
  - intros (a' & Ha & Hf). inversion Ha; subst. reflexivity.
  - intros Hf. discriminate Hf.
  - intros (a' & Ha & _). discriminate Ha.
Qed.

Tactic Notation "bind_inv" hyp(H) :=
  let a := fresh "a" in
  let Ha := fresh "Ha" in
  apply bind_ok in H; destruct H as (a & Ha & H); cbv beta in H.

Tactic Notation "bind_inv" hyp(H) "as" ident(a) ident(Ha) :=
  apply bind_ok in H; destruct H as (a & Ha & H); cbv beta in H.

Lemma traverse_ok {A B : Type} (f : A -> result B) (l : list A) (l' : list B) :
  traverse f l = Ok l' <-> Forall2 (fun a b => f a = Ok b) l l'.
Proof.
  revert l'. induction l as [|a l IH]; intros l'; simpl.
  - split.
    + intros Heq. inversion Heq. constructor.
    + intros Hall. inversion Hall. reflexivity.
  - split.
    + intros Heq. bind_inv Heq. bind_inv Heq. inversion Heq; subst.
      constructor; [assumption | apply IH; assumption].
    + intros Hall. inversion Hall as [|? b ? bs Hb Hbs]; subst.
      rewrite Hb. simpl. apply IH in Hbs. rewrite Hbs. reflexivity.
Qed.

(** ** Time of day *)

(** C8: the bucket of an hour is [morning] on [5,12), [afternoon] on [12,17),
    [evening] on [17,21) and [night] everywhere else; the nine hours listed by
    the specification fall where it says. *)
Theorem get_time_of_day_buckets (hour : Z) :
  ((5 <= hour < 12)%Z -> _get_time_of_day hour = "morning") /\
  ((12 <= hour < 17)%Z -> _get_time_of_day hour = "afternoon") /\
  ((17 <= hour < 21)%Z -> _get_time_of_day hour = "evening") /\
  ((hour < 5 \/ 21 <= hour)%Z -> _get_time_of_day hour = "night") /\
  map _get_time_of_day [4; 5; 11; 12; 16; 17; 20; 21; 23]%Z =
    ["night"; "morning"; "morning"; "afternoon"; "afternoon"; "evening";
     "evening"; "night"; "night"].
Proof.
  unfold _get_time_of_day.
  repeat split; try reflexivity; intros Hh;
    repeat match goal with
           | |- context [(?a <=? ?b)%Z] => destruct (Z.leb_spec a b)
           | |- context [(?a <? ?b)%Z] => destruct (Z.ltb_spec a b)
           end; simpl; try reflexivity; lia.
Qed.

Lemma get_time_of_day_buckets_witness :
  _get_time_of_day 5 = "morning" /\ _get_time_of_day 16 = "afternoon" /\
  _get_time_of_day 20 = "evening" /\ _get_time_of_day 2 = "night".
Proof.
  split; [| split; [| split]].
  - apply (proj1 (get_time_of_day_buckets 5)). lia.
  - apply (proj1 (proj2 (get_time_of_day_buckets 16))). lia.
  - apply (proj1 (proj2 (proj2 (get_time_of_day_buckets 20)))). lia.
  - apply (proj1 (proj2 (proj2 (proj2 (get_time_of_day_buckets 2))))). lia.
Defined.

(** ** Cells and rows *)

Lemma cell_insert_ne (r : row) (c c' : string) (v : value) :
  c <> c' -> cell (<[c := v]> r) c' = cell r c'.
Proof. intros Hne. unfold cell. rewrite lookup_insert_ne by exact Hne. reflexivity. Qed.

Lemma cell_insert_eq (r : row) (c : string) (v : value) :
  cell (<[c := v]> r) c = v.
Proof. unfold cell. rewrite lookup_insert_eq. reflexivity. Qed.

Lemma lookup_delete_all (cs : list string) (r : row) (c : string) :
  delete_all cs r !! c = if bool_decide (c ∈ cs) then None else r !! c.
Proof.
  induction cs as [|c0 cs IH]; simpl.
  - reflexivity.
  - destruct (decide (c0 = c)) as [->|Hne].
    + rewrite lookup_delete_eq. rewrite bool_decide_eq_true_2 by left. reflexivity.
    + rewrite lookup_delete_ne by exact Hne. rewrite IH.
      destruct (bool_decide_reflect (c ∈ cs)) as [Hin|Hnin].
      * rewrite bool_decide_eq_true_2 by (right; exact Hin). reflexivity.
      * rewrite bool_decide_eq_false_2; [reflexivity|].
        intros Hin. apply elem_of_cons in Hin. destruct Hin as [->|Hin]; tauto.
Qed.

Lemma cell_delete_all_notin (cs : list string) (r : row) (c : string) :
  c ∉ cs -> cell (delete_all cs r) c = cell r c.
Proof.
  intros Hnin. unfold cell. rewrite lookup_delete_all.
  rewrite bool_decide_eq_false_2 by exact Hnin. reflexivity.
Qed.

Lemma elem_of_set_cells (c : string) (rs : list row) (s : list value) (r' : row) :
  r' ∈ set_cells c rs s -> exists r v, r ∈ rs /\ r' = <[c := v]> r.
Proof.
  revert s. induction rs as [|r rs IH]; intros [|v s] Hin; simpl in Hin;
    try (apply elem_of_nil in Hin; contradiction).
  apply elem_of_cons in Hin. destruct Hin as [->|Hin].
  - exists r, v. split; [left | reflexivity].
  - destruct (IH s Hin) as (r0 & v0 & Hr0 & ->).
    exists r0, v0. split; [right; exact Hr0 | reflexivity].
Qed.

Lemma set_cells_map (c : string) (f : row -> value) (rs : list row) :
  set_cells c rs (map f rs) = map (fun r => <[c := f r]> r) rs.
Proof. induction rs as [|r rs IH]; simpl; [reflexivity | rewrite IH; reflexivity]. Qed.

Lemma require_ok (x : DataFrame) (c : string) :
  require x c = Ok tt <-> c ∈ columns x.
Proof.
  unfold require, has_column. destruct (bool_decide_reflect (c ∈ columns x)); split;
    intros H; try reflexivity; try assumption; try discriminate; contradiction.
Qed.

Lemma require_all_ok (x : DataFrame) (cs : list string) :
  require_all x cs = Ok tt <-> forall c, c ∈ cs -> c ∈ columns x.
Proof.
  induction cs as [|c cs IH]; simpl.
  - split; [intros _ c Hc; apply elem_of_nil in Hc; contradiction | reflexivity].
  - split.
    + intros H. bind_inv H. destruct a. apply require_ok in Ha.
      pose proof (proj1 IH H) as Hcs.
      intros c' Hc'. apply elem_of_cons in Hc'. destruct Hc' as [->|Hc']; auto.
    + intros H. assert (Hc : require x c = Ok tt) by (apply require_ok, H; left).
      rewrite Hc. simpl. apply IH. intros c' Hc'. apply H. right. exact Hc'.
Qed.

Lemma filter_filter {A : Type} (p q : A -> bool) (l : list A) :
  List.filter q (List.filter p l) = List.filter (fun a => p a && q a) l.
Proof.
  induction l as [|a l IH]; simpl; [reflexivity|].
  destruct (p a); simpl; [destruct (q a)|]; rewrite IH; reflexivity.
Qed.

Lemma elem_of_filter_bool {A : Type} (p : A -> bool) (l : list A) (a : A) :
  a ∈ List.filter p l <-> a ∈ l /\ p a = true.
Proof. rewrite !list_elem_of_In. apply List.filter_In. Qed.

(** ** Outlier removal and missing-value filtering *)

Lemma survives_spec (d : list (string * value)) (r : row) :
  survives d r = true <-> forall c v, (c, v) ∈ d -> py_eqb (cell r c) v = false.
Proof.
  unfold survives. rewrite forallb_forall. split.
  - intros H c v Hin. apply list_elem_of_In in Hin. specialize (H _ Hin).
    simpl in H. unfold py_neb in H. apply negb_true_iff in H. exact H.
  - intros H [c v] Hin. apply list_elem_of_In in Hin. simpl.
    unfold py_neb. rewrite (H _ _ Hin). reflexivity.
Qed.

Lemma remove_outliers_inv (d : list (string * value)) (x y : DataFrame) :
  _remove_incident_outliers x d = Ok y ->
  columns y = columns x /\ rows y = List.filter (survives d) (rows x).
Proof.
  revert x. induction d as [|[c v] d IH]; intros x Hrun; simpl in Hrun.
  - inversion Hrun; subst. split; [reflexivity|].
    unfold survives. simpl. symmetry. apply List.filter_true.
  - bind_inv Hrun. apply IH in Hrun. destruct Hrun as [Hc Hr]. simpl in Hc, Hr.
    split; [exact Hc|]. rewrite Hr, filter_filter. reflexivity.
Qed.

Lemma remove_outliers_total (d : list (string * value)) (x : DataFrame) :
  (forall c v, (c, v) ∈ d -> c ∈ columns x) ->
  exists y, _remove_incident_outliers x d = Ok y.
Proof.
  revert x. induction d as [|[c v] d IH]; intros x Hcols; simpl.
  - exists x. reflexivity.
  - assert (Hc : require x c = Ok tt) by (apply require_ok, (Hcols c v); left).
    rewrite Hc. simpl. apply IH. intros c' v' Hin. simpl.
    apply (Hcols c' v'). right. exact Hin.
Qed.

Lemma remove_NaN_inv (cs : list string) (x y : DataFrame) :
  _remove_incident_NaN x cs = Ok y ->
  columns y = columns x /\
  rows y = List.filter (fun r => forallb (fun c => negb (isna (cell r c))) cs) (rows x).
Proof.
  unfold _remove_incident_NaN. intros Hrun. bind_inv Hrun. inversion Hrun; subst.
  split; reflexivity.
Qed.

Lemma survives_ext (d : list (string * value)) (r r' : row) :
  (forall c v, (c, v) ∈ d -> cell r' c = cell r c) -> survives d r' = survives d r.
Proof.
  intros Hsame. unfold survives. induction d as [|[c v] d IH]; simpl; [reflexivity|].
  rewrite (Hsame c v) by left. rewrite IH; [reflexivity|].
  intros c' v' Hin. apply (Hsame c' v'). right. exact Hin.
Qed.

Lemma Forall2_image_r {A B : Type} (R : A -> B -> Prop) (l : list A) (l' : list B) (b : B) :
  Forall2 R l l' -> b ∈ l' -> exists a, a ∈ l /\ R a b.
Proof.
  induction 1 as [|a b' l l' Hab _ IH]; intros Hin.
  - apply elem_of_nil in Hin. contradiction.
  - apply elem_of_cons in Hin. destruct Hin as [->|Hin].
    + exists a. split; [left | exact Hab].
    + destruct (IH Hin) as (a' & Ha' & HR). exists a'. split; [right; exact Ha' | exact HR].
Qed.

Lemma Forall2_image_l {A B : Type} (R : A -> B -> Prop) (l : list A) (l' : list B) (a : A) :
  Forall2 R l l' -> a ∈ l -> exists b, b ∈ l' /\ R a b.
Proof.
  induction 1 as [|a' b l l' Hab _ IH]; intros Hin.
  - apply elem_of_nil in Hin. contradiction.
  - apply elem_of_cons in Hin. destruct Hin as [->|Hin].
    + exists b. split; [left | exact Hab].
    + destruct (IH Hin) as (b' & Hb' & HR). exists b'. split; [right; exact Hb' | exact HR].
Qed.

Ltac label_notin := apply (bool_decide_unpack _); vm_compute; exact I.

Lemma datetime_fields_keeps `{Pandas} (r r' : row) (c : string) :
  datetime_fields r = Ok r' -> c ∉ datetime_labels -> cell r' c = cell r c.
Proof.
  unfold datetime_fields. intros Hrun Hc. bind_inv Hrun. inversion Hrun; subst.
  unfold datetime_labels in Hc.
  repeat (rewrite cell_insert_ne;
          [| intros Heq; subst c; apply Hc; apply (bool_decide_unpack _);
             vm_compute; exact I]).
  reflexivity.
Qed.

Lemma drop_columns_inv (x y : DataFrame) (cs : list string) :
  _drop_columns x cs = Ok y ->
  (forall c, c ∈ cs -> c ∈ columns x) /\
  columns y = remove_labels cs (columns x) /\
  rows y = map (delete_all cs) (rows x).
Proof.
  unfold _drop_columns. intros Hrun. bind_inv Hrun. destruct a.
  inversion Hrun; subst. split; [apply require_all_ok; exact Ha | split; reflexivity].
Qed.

Lemma update_series_inv (c : string) (f : list value -> result (list value))
    (x y : DataFrame) :
  update_series c f x = Ok y ->
  c ∈ columns x /\
  exists s', f (map (fun r => cell r c) (rows x)) = Ok s' /\
             columns y = add_label c (columns x) /\
             rows y = set_cells c (rows x) s'.
Proof.
  unfold update_series, series. intros Hrun. bind_inv Hrun as s Hs.
  bind_inv Hs as u Hu. destruct u. inversion Hs; subst s.
  bind_inv Hrun as s' Hs'. inversion Hrun; subst y.
  split; [apply require_ok; exact Hu|]. exists s'. repeat split. exact Hs'.
Qed.

(** No row of the preprocessed incidents matches a forbidden pair. *)
Lemma preprocess_incidents_survivors `{Pandas} (incidents out : DataFrame) (r : row) :
  preprocess_incidents incidents = Ok out -> r ∈ rows out ->
  survives outliers_to_drop r = true.
Proof.
  unfold preprocess_incidents. intros Hrun Hr.
  bind_inv Hrun as x0 Hx0. bind_inv Hrun as x1 Ha0. bind_inv Hrun as x2 Ha1.
  bind_inv Hrun as x3 Ha2. bind_inv Hrun as u Ha3. bind_inv Hrun as rs Ha4.
  bind_inv Hrun as x5 Ha5. bind_inv Hrun as a6 Ha6.
  apply update_series_inv in Hrun. destruct Hrun as (_ & s' & _ & _ & Hrows).
  rewrite Hrows in Hr. apply elem_of_set_cells in Hr. destruct Hr as (r6 & v & Hr6 & ->).
  unfold _remove_incidents_2024 in Ha6. bind_inv Ha6 as u' Hu'. inversion Ha6; subst a6.
  simpl in Hr6. apply elem_of_filter_bool in Hr6. destruct Hr6 as [Hr5 _].
  apply drop_columns_inv in Ha5. destruct Ha5 as (_ & _ & Hrows5). simpl in Hrows5.
  rewrite Hrows5 in Hr5. apply list_elem_of_fmap in Hr5. destruct Hr5 as (r4 & -> & Hr4).
  apply traverse_ok in Ha4. destruct (Forall2_image_r _ _ _ _ Ha4 Hr4) as (r2 & Hr2 & Hdt).
  apply remove_NaN_inv in Ha2. destruct Ha2 as [_ Hrows2]. rewrite Hrows2 in Hr2.
  apply elem_of_filter_bool in Hr2. destruct Hr2 as [Hr1 _].
  apply remove_outliers_inv in Ha1. destruct Ha1 as [_ Hrows1]. rewrite Hrows1 in Hr1.
  apply elem_of_filter_bool in Hr1. destruct Hr1 as [_ Hsurv].
  transitivity (survives outliers_to_drop r2); [| exact Hsurv].
  apply survives_ext. intros c w Hin.
  assert (Hc : c = "INCIDENT_CATEGORY" \/ c = "LATITUDE").
  { unfold outliers_to_drop in Hin. apply elem_of_cons in Hin. destruct Hin as [Heq|Hin].
    - inversion Heq. left. reflexivity.
    - apply elem_of_cons in Hin. destruct Hin as [Heq|Hin].
      + inversion Heq. right. reflexivity.
      + apply elem_of_nil in Hin. contradiction. }
  rewrite cell_insert_ne by (destruct Hc as [->| ->]; discriminate).
  rewrite cell_delete_all_notin by (destruct Hc as [->| ->]; label_notin).
  apply (datetime_fields_keeps _ _ _ Hdt). destruct Hc as [->| ->]; label_notin.
Qed.

Lemma remove_outliers_rows (d : list (string * value)) (x y : DataFrame) (r : row) :
  _remove_incident_outliers x d = Ok y ->
  r ∈ rows y <->
  r ∈ rows x /\ forall c v, (c, v) ∈ d -> py_eqb (cell r c) v = false.
Proof.
  intros Hrun. apply remove_outliers_inv in Hrun. destruct Hrun as [_ Hrows].
  rewrite Hrows, elem_of_filter_bool, survives_spec. reflexivity.
Qed.

Lemma elem_of_outliers_to_drop (c : string) (v : value) :
  (c, v) ∈ outliers_to_drop <->
  (c = "INCIDENT_CATEGORY" /\ v = VStr "NOUVEAU") \/ (c = "LATITUDE" /\ v = VInt 0).
Proof.
  unfold outliers_to_drop. rewrite !elem_of_cons, elem_of_nil. split.
  - intros [Heq|[Heq|[]]]; inversion Heq; subst; [left | right]; split; reflexivity.
  - intros [[-> ->]|[-> ->]]; [left | right; left]; reflexivity.
Qed.

Lemma survives_outliers_to_drop (r : row) :
  survives outliers_to_drop r = true <->
  py_eqb (cell r "INCIDENT_CATEGORY") (VStr "NOUVEAU") = false /\
  py_eqb (cell r "LATITUDE") (VInt 0) = false.
Proof.
  rewrite survives_spec. split.
  - intros H. split; apply H; apply elem_of_outliers_to_drop; [left | right];
      split; reflexivity.
  - intros [Hcat Hlat] c v Hin. apply elem_of_outliers_to_drop in Hin.
    destruct Hin as [[-> ->]|[-> ->]]; assumption.
Qed.

(** C5: outlier removal succeeds whenever the checked labels exist, keeps the
    labels, and keeps exactly the rows that equal none of the forbidden values,
    each one as it was and in its place.  With the pairs of
    [preprocess_incidents] a row is kept iff its category is not ['NOUVEAU'] and
    its latitude is not [0], and no row of the preprocessed incidents has
    either. *)
Theorem remove_incident_outliers_conjunctive `{Pandas}
    (x : DataFrame) (values_to_drop : list (string * value)) :
  Forall (fun cv => fst cv ∈ columns x) values_to_drop ->
  (exists y, _remove_incident_outliers x values_to_drop = Ok y /\
     columns y = columns x /\
     rows y = List.filter (survives values_to_drop) (rows x) /\
     forall r, r ∈ rows y <->
               r ∈ rows x /\
               forall c v, (c, v) ∈ values_to_drop -> py_eqb (cell r c) v = false) /\
  (forall y r, _remove_incident_outliers x outliers_to_drop = Ok y ->
     r ∈ rows y <->
     r ∈ rows x /\
     py_eqb (cell r "INCIDENT_CATEGORY") (VStr "NOUVEAU") = false /\
     py_eqb (cell r "LATITUDE") (VInt 0) = false) /\
  (forall incidents out r, preprocess_incidents incidents = Ok out -> r ∈ rows out ->
     py_eqb (cell r "INCIDENT_CATEGORY") (VStr "NOUVEAU") = false /\
     py_eqb (cell r "LATITUDE") (VInt 0) = false).
Proof.
  intros Hcols. split; [| split].
  - destruct (remove_outliers_total values_to_drop x) as [y Hy].
    { intros c v Hin. rewrite List.Forall_forall in Hcols.
      apply list_elem_of_In in Hin. apply (Hcols (c, v) Hin). }
    exists y. split; [exact Hy|].
    destruct (remove_outliers_inv _ _ _ Hy) as [Hc Hr].
    split; [exact Hc | split; [exact Hr|]].
    intros r. apply remove_outliers_rows. exact Hy.
  - intros y r Hy. apply remove_outliers_inv in Hy. destruct Hy as [_ Hr].
    rewrite Hr, elem_of_filter_bool, survives_outliers_to_drop. reflexivity.
  - intros incidents out r Hrun Hr. apply survives_outliers_to_drop.
    apply (preprocess_incidents_survivors _ _ _ Hrun Hr).
Qed.

Lemma remove_incident_outliers_conjunctive_witness :
  (exists y, _remove_incident_outliers sample_renamed outliers_to_drop = Ok y /\
             rows y = List.filter (survives outliers_to_drop) (rows sample_renamed) /\
             length (rows y) = 2%nat) /\
  exists out, @preprocess_incidents sample_pandas sample_incidents = Ok out /\
              length (rows out) = 1%nat /\
              forall r, r ∈ rows out ->
                py_eqb (cell r "INCIDENT_CATEGORY") (VStr "NOUVEAU") = false /\
                py_eqb (cell r "LATITUDE") (VInt 0) = false.
Proof.
  assert (Hcols : Forall (fun cv : string * value => fst cv ∈ columns sample_renamed)
                         outliers_to_drop).
  { apply (bool_decide_unpack _). vm_compute. exact I. }
  destruct (@remove_incident_outliers_conjunctive sample_pandas
              sample_renamed outliers_to_drop Hcols) as ((y & Hy & _ & Hr & _) & _ & Hpre).
  split.
  - exists y. split; [exact Hy | split; [exact Hr|]].
    rewrite Hr. vm_compute. reflexivity.
  - assert (Hrun : (fun out => length (rows out))
                     <$> @preprocess_incidents sample_pandas sample_incidents = Ok 1%nat)
      by (vm_compute; reflexivity).
    apply fmap_ok in Hrun. destruct Hrun as (out & Hout & Hlen).
    exists out. split; [exact Hout | split; [exact Hlen|]].
    intros r Hin. apply (Hpre sample_incidents out r Hout Hin).
Defined.

(** C10: a missing value passes every [!=] test, so a row can only be dropped
    by outlier removal on account of a field that is not missing; the row
    whose checked fields are all missing is kept as it is.  It is the
    missing-value filter that then drops it, exactly when one of the required
    fields is missing. *)
Theorem null_fields_pass_outlier_removal
    (x y z : DataFrame) (values_to_drop : list (string * value))
    (columns_to_check : list string) (r : row) :
  _remove_incident_outliers x values_to_drop = Ok y ->
  _remove_incident_NaN y columns_to_check = Ok z ->
  (forall c v, isna (cell r c) = true -> py_neb (cell r c) v = true) /\
  (r ∈ rows y <->
   r ∈ rows x /\
   forall c v, (c, v) ∈ values_to_drop -> isna (cell r c) = false ->
               py_eqb (cell r c) v = false) /\
  (r ∈ rows x ->
   (forall c v, (c, v) ∈ values_to_drop -> isna (cell r c) = true) -> r ∈ rows y) /\
  (r ∈ rows z <->
   r ∈ rows y /\ forall c, c ∈ columns_to_check -> isna (cell r c) = false).
Proof.
  intros Hy Hz.
  assert (Hnull : forall c v, isna (cell r c) = true -> py_neb (cell r c) v = true).
  { intros c v Hna. unfold py_neb, py_eqb. rewrite Hna. reflexivity. }
  split; [exact Hnull|].
  pose proof (remove_outliers_rows _ _ _ r Hy) as Hrows.
  split; [| split].
  - rewrite Hrows. split; intros [Hin Hall]; (split; [exact Hin|]).
    + intros c v Hcv _. apply (Hall c v Hcv).
    + intros c v Hcv. destruct (isna (cell r c)) eqn:Hna.
      * specialize (Hnull c v Hna). unfold py_neb in Hnull.
        apply negb_true_iff in Hnull. exact Hnull.
      * apply (Hall c v Hcv). exact Hna.
  - intros Hin Hall. apply Hrows. split; [exact Hin|].
    intros c v Hcv. specialize (Hnull c v (Hall c v Hcv)). unfold py_neb in Hnull.
    apply negb_true_iff in Hnull. exact Hnull.
  - apply remove_NaN_inv in Hz. destruct Hz as [_ Hr]. rewrite Hr, elem_of_filter_bool.
    rewrite forallb_forall. split; intros [Hin Hall]; (split; [exact Hin|]).
    + intros c Hc. apply list_elem_of_In in Hc. specialize (Hall c Hc).
      apply negb_true_iff in Hall. exact Hall.
    + intros c Hc. apply list_elem_of_In in Hc. rewrite (Hall c Hc). reflexivity.
Qed.

Lemma null_fields_pass_outlier_removal_witness :
  sample_no_category ∈ rows (loc (survives outliers_to_drop) sample_renamed) /\
  ~ sample_no_category ∈
      rows (loc (fun r => forallb (fun c => negb (isna (cell r c))) required_fields)
                (loc (survives outliers_to_drop) sample_renamed)).
Proof.
  assert (Hy : _remove_incident_outliers sample_renamed outliers_to_drop =
               Ok (loc (survives outliers_to_drop) sample_renamed))
    by (vm_compute; reflexivity).
  assert (Hz : _remove_incident_NaN (loc (survives outliers_to_drop) sample_renamed)
                 required_fields =
               Ok (loc (fun r => forallb (fun c => negb (isna (cell r c))) required_fields)
                       (loc (survives outliers_to_drop) sample_renamed)))
    by (vm_compute; reflexivity).
  destruct (null_fields_pass_outlier_removal _ _ _ _ _ sample_no_category Hy Hz)
    as (_ & Hkept & _ & Hdropped).
  split.
  - apply Hkept. split.
    + apply (bool_decide_unpack _). vm_compute. exact I.
    + intros c v Hin Hna. apply elem_of_outliers_to_drop in Hin.
      destruct Hin as [[-> ->]|[-> ->]]; [discriminate Hna | vm_compute; reflexivity].
  - intros Hin. apply Hdropped in Hin. destruct Hin as [_ Hall].
    specialize (Hall "INCIDENT_CATEGORY").
    assert (Hreq : "INCIDENT_CATEGORY" ∈ required_fields)
      by (apply (bool_decide_unpack _); vm_compute; exact I).
    specialize (Hall Hreq). discriminate Hall.
Defined.

(** ** Deduplication after the spatial join *)

Lemma keep_first_filter {G : Type} (subset : list string) (k : list value)
    (l : list (row * G)) (seen : list (list value)) :
  List.filter (has_key subset k) (keep_first subset seen l) =
  if bool_decide (k ∈ seen) then []
  else match List.find (has_key subset k) l with
       | Some first => [first]
       | None => []
       end.
Proof.
  revert seen. induction l as [|rg l IH]; intros seen; simpl.
  - destruct (bool_decide (k ∈ seen)); reflexivity.
  - unfold has_key at 2. destruct (bool_decide_reflect (key_of subset rg.1 ∈ seen)) as [Hseen|Hnew].
    + rewrite IH. destruct (bool_decide_reflect (key_of subset rg.1 = k)) as [Heq|Hne].
      * subst k. rewrite bool_decide_eq_true_2 by exact Hseen. reflexivity.
      * reflexivity.
    + simpl. unfold has_key at 1. rewrite IH.
      destruct (bool_decide_reflect (key_of subset rg.1 = k)) as [Heq|Hne].
      * subst k. rewrite bool_decide_eq_true_2 by left.
        rewrite bool_decide_eq_false_2 by exact Hnew. reflexivity.
      * destruct (bool_decide_reflect (k ∈ seen)) as [Hk|Hk].
        -- rewrite bool_decide_eq_true_2 by (right; exact Hk). reflexivity.
        -- rewrite bool_decide_eq_false_2; [reflexivity|].
           intros Hin. apply elem_of_cons in Hin. destruct Hin as [Heq|Hin]; auto.
Qed.

Lemma keep_first_incl {G : Type} (subset : list string) (l : list (row * G))
    (seen : list (list value)) (rg : row * G) :
  rg ∈ keep_first subset seen l -> rg ∈ l.
Proof.
  revert seen. induction l as [|a l IH]; intros seen; simpl.
  - intros Hin. exact Hin.
  - destruct (bool_decide (key_of subset a.1 ∈ seen)).
    + intros Hin. right. apply (IH _ Hin).
    + intros Hin. apply elem_of_cons in Hin. destruct Hin as [->|Hin].
      * left.
      * right. apply (IH _ Hin).
Qed.

Lemma find_first_split {A : Type} (p : A -> bool) (l : list A) (a : A) :
  List.find p l = Some a ->
  exists pre post, l = (pre ++ a :: post)%list /\ p a = true /\
                   forall b, b ∈ pre -> p b = false.
Proof.
  induction l as [|b l IH]; simpl; [discriminate|].
  destruct (p b) eqn:Hb.
  - intros Heq. inversion Heq; subst. exists [], l. split; [reflexivity|].
    split; [exact Hb|]. intros b Hin. apply elem_of_nil in Hin. contradiction.
  - intros Hfind. destruct (IH Hfind) as (pre & post & -> & Ha & Hpre).
    exists (b :: pre), post. split; [reflexivity|]. split; [exact Ha|].
    intros b' Hin. apply elem_of_cons in Hin. destruct Hin as [->|Hin]; auto.
Qed.

Lemma find_present {A : Type} (p : A -> bool) (l : list A) (a : A) :
  a ∈ l -> p a = true -> exists b, List.find p l = Some b.
Proof.
  induction l as [|b l IH]; intros Hin Ha.
  - apply elem_of_nil in Hin. contradiction.
  - simpl. destruct (p b) eqn:Hb; [exists b; reflexivity|].
    apply elem_of_cons in Hin. destruct Hin as [->|Hin]; [congruence | auto].
Qed.

Lemma grequire_all_ok {G : Type} (x : GeoDataFrame G) (cs : list string) :
  (forall c, c ∈ cs -> c ∈ gcolumns x) -> grequire_all x cs = Ok tt.
Proof.
  induction cs as [|c cs IH]; intros Hcs; simpl; [reflexivity|].
  rewrite bool_decide_eq_true_2 by (apply Hcs; left).
  apply IH. intros c' Hc'. apply Hcs. right. exact Hc'.
Qed.

(** C6: when the key labels exist in the joined table, [_intersect_mesh]
    returns a table in which every record key of the join is carried by exactly
    one row, and that row is the first of the join to carry it, however many
    cells the point met; nothing else is added. *)
Theorem intersect_mesh_keeps_first_match `{Geopandas}
    (x mesh : GeoDataFrame geometry) (duplicate_keys : list string) :
  (forall c, c ∈ duplicate_keys ->
             c ∈ gcolumns (_spatial_join_points x mesh "mesh")) ->
  exists out,
    _intersect_mesh x mesh duplicate_keys = Ok out /\
    gcolumns out = gcolumns (_spatial_join_points x mesh "mesh") /\
    (forall rg, rg ∈ grows out -> rg ∈ grows (_spatial_join_points x mesh "mesh")) /\
    forall rg, rg ∈ grows (_spatial_join_points x mesh "mesh") ->
      exists pre first post,
        grows (_spatial_join_points x mesh "mesh") = (pre ++ first :: post)%list /\
        key_of duplicate_keys (fst first) = key_of duplicate_keys (fst rg) /\
        (forall p, p ∈ pre ->
                   key_of duplicate_keys (fst p) <> key_of duplicate_keys (fst rg)) /\
        List.filter (has_key duplicate_keys (key_of duplicate_keys (fst rg)))
                    (grows out) = [first].
Proof.
  intros Hkeys. unfold _intersect_mesh, _remove_duplicates.
  rewrite (grequire_all_ok _ _ Hkeys). simpl.
  eexists. split; [reflexivity|]. simpl. split; [reflexivity|]. split.
  - intros rg Hin. apply (keep_first_incl _ _ _ _ Hin).
  - intros rg Hin. set (k := key_of duplicate_keys rg.1).
    destruct (find_present (has_key duplicate_keys k) _ rg Hin) as [first Hfind].
    { unfold has_key. apply bool_decide_eq_true_2. reflexivity. }
    destruct (find_first_split _ _ _ Hfind) as (pre & post & Hsplit & Hfirst & Hpre).
    exists pre, first, post. split; [exact Hsplit|]. split.
    + unfold has_key in Hfirst. apply bool_decide_eq_true_1 in Hfirst. exact Hfirst.
    + split.
      * intros p Hp Heq. specialize (Hpre p Hp). unfold has_key in Hpre.
        rewrite bool_decide_eq_true_2 in Hpre by exact Heq. discriminate Hpre.
      * rewrite keep_first_filter, Hfind.
        rewrite bool_decide_eq_false_2 by apply not_elem_of_nil. reflexivity.
Qed.

Lemma intersect_mesh_keeps_first_match_witness :
  exists out,
    @_intersect_mesh sample_geopandas sample_points sample_mesh ["INCIDENT_ID"] = Ok out /\
    length (grows (@_spatial_join_points sample_geopandas sample_points sample_mesh "mesh"))
      = 3%nat /\
    map (fun rg => (cell (fst rg) "INCIDENT_ID", cell (fst rg) "index_mesh")) (grows out)
      = [(VInt 0, VInt 1); (VInt 1, VInt 0)].
Proof.
  assert (Hkeys : forall c, c ∈ ["INCIDENT_ID"] ->
            c ∈ gcolumns (@_spatial_join_points sample_geopandas sample_points
                            sample_mesh "mesh")).
  { intros c Hc. apply list_elem_of_singleton in Hc. subst c.
    apply (bool_decide_unpack _). vm_compute. exact I. }
  destruct (@intersect_mesh_keeps_first_match sample_geopandas sample_points
              sample_mesh ["INCIDENT_ID"] Hkeys) as (out & Hout & _).
  exists out. split; [exact Hout|]. split; [vm_compute; reflexivity|].
  assert (Hrun : @_intersect_mesh sample_geopandas sample_points sample_mesh ["INCIDENT_ID"] =
                 Ok {| gcolumns := gcolumns (sample_sjoin sample_points sample_mesh "mesh");
                       grows := keep_first ["INCIDENT_ID"] []
                                  (grows (sample_sjoin sample_points sample_mesh "mesh")) |})
    by (vm_compute; reflexivity).
  rewrite Hrun in Hout. inversion Hout; subst out. vm_compute. reflexivity.
Defined.

(** ** Integer coercion *)

Lemma Qctrunc_qz (z : Z) : Qctrunc (qz z) = z.
Proof.
  unfold Qctrunc, qz. simpl this.
  rewrite Qred_identity by (simpl; apply Z.gcd_1_r).
  simpl. apply Z.quot_1_r.
Qed.

Lemma qz_le (a b : Z) : (qz a ≤ qz b)%Qc <-> (a <= b)%Z.
Proof.
  unfold Qcle, qz. simpl this. rewrite !Qred_correct, <- Zle_Qle. reflexivity.
Qed.

Lemma qz_sub (a b : Z) : (qz a - qz b)%Qc = qz (a - b).
Proof.
  apply Qc_is_canon. unfold qz. simpl this.
  rewrite !Qred_correct. unfold Z.sub.
  rewrite inject_Z_plus, inject_Z_opp. reflexivity.
Qed.

(** A value that [pd.to_numeric] cannot read, or a missing one, comes out
    as [0]. *)
Lemma to_int64_in_range `{Pandas} (z : Z) :
  (int64_min <= z <= int64_max)%Z -> to_int64 z = z.
Proof.
  intros [Hlo Hhi]. unfold to_int64.
  rewrite (proj2 (Z.leb_le _ _) Hlo), (proj2 (Z.leb_le _ _) Hhi). reflexivity.
Qed.

Lemma astype_int_zero `{Pandas} : astype_int (VInt 0) = Ok (VInt 0).
Proof.
  unfold astype_int, VInt. rewrite Qctrunc_qz. rewrite to_int64_in_range; [reflexivity|].
  unfold int64_min, int64_max. lia.
Qed.

Lemma parse_integers_non_numeric `{Pandas} (v : value) :
  to_numeric_coerce v = VNaN -> _parse_integers [v] = Ok [VInt 0].
Proof.
  intros Hv. unfold _parse_integers. cbn [map traverse]. rewrite Hv.
  change (fillna (VInt 0) VNaN) with (VInt 0). rewrite astype_int_zero. reflexivity.
Qed.

(** A string that reads as the integer [n] comes out as [n], when [int64]
    holds [n]. *)
Lemma parse_integers_integer_string `{Pandas} (s : string) (n : Z) :
  (int64_min <= n <= int64_max)%Z ->
  floatify s = Some (Finite (qz n)) -> _parse_integers [VStr s] = Ok [VInt n].
Proof.
  intros Hn Hs. unfold _parse_integers. simpl. rewrite Hs. simpl.
  rewrite Qctrunc_qz, (to_int64_in_range _ Hn). reflexivity.
Qed.

(** C7 fails on the code: [fillna(0)] leaves an infinite float in place and
    [astype(int)] raises on it, so the coercion is not total.  The infinite
    value may be a float of the column or a string that pandas reads as
    infinity. *)
Theorem parse_integers_raises_on_infinity `{Pandas} (negative : bool) :
  _parse_integers [VInf negative] = Raise IntCastingNaNError /\
  @_parse_integers sample_pandas [VStr "3"; VStr "inf"] = Raise IntCastingNaNError /\
  @preprocess_incidents sample_pandas sample_incident_infinite_units
    = Raise IntCastingNaNError.
Proof. split; [| split]; [reflexivity | reflexivity | vm_compute; reflexivity]. Qed.

(** ** Year of construction *)

Lemma le_scalar_int (y bound : Z) : le_scalar (VInt y) bound = Ok (y <=? bound)%Z.
Proof.
  unfold le_scalar. simpl. destruct (Z.leb_spec y bound) as [Hle|Hgt].
  - rewrite bool_decide_eq_true_2 by (apply qz_le; exact Hle). reflexivity.
  - rewrite bool_decide_eq_false_2 by (rewrite qz_le; lia). reflexivity.
Qed.

Lemma where_le_2024_int (y : Z) :
  where_le_2024 [VInt y] = Ok [if (y <=? 2024)%Z then VInt y else VNaN].
Proof.
  unfold where_le_2024, traverse. rewrite le_scalar_int.
  destruct (y <=? 2024)%Z; reflexivity.
Qed.

Lemma calculate_building_age_int (current_year y : Z) :
  _calculate_building_age current_year (VInt y) = Ok (VInt (current_year - y)).
Proof. unfold _calculate_building_age, VInt. simpl. rewrite qz_sub. reflexivity. Qed.

Lemma astype_int_ok `{Pandas} (v w : value) :
  astype_int v = Ok w -> exists n, w = VInt n.
Proof.
  destruct v as [|b|q|neg|x|s0]; simpl; intros Hcast; inversion Hcast; eexists; reflexivity.
Qed.

(** A row of a table whose column [c] was rewritten cell by cell. *)
Lemma update_series_row (c : string) (g : value -> result value) (x y : DataFrame)
    (r' : row) :
  update_series c (traverse g) x = Ok y -> r' ∈ rows y ->
  exists r v, r ∈ rows x /\ g (cell r c) = Ok v /\ r' = <[c := v]> r.
Proof.
  intros Hrun Hin. apply update_series_inv in Hrun.
  destruct Hrun as (_ & s' & Hs' & _ & Hrows). rewrite Hrows in Hin. clear Hrows.
  apply traverse_ok in Hs'. revert s' Hs' Hin.
  induction (rows x) as [|r rs IH]; intros s' Hs' Hin; simpl in Hs'.
  - inversion Hs'; subst. apply elem_of_nil in Hin. contradiction.
  - inversion Hs' as [|? v ? s'' Hv Hrest]; subst. simpl in Hin.
    apply elem_of_cons in Hin. destruct Hin as [->|Hin].
    + exists r, v. split; [left | split; [exact Hv | reflexivity]].
    + destruct (IH _ Hrest Hin) as (r0 & v0 & Hr0 & Hv0 & ->).
      exists r0, v0. split; [right; exact Hr0 | split; [exact Hv0 | reflexivity]].
Qed.

Lemma parse_integers_traverse `{Pandas} (x : list value) :
  _parse_integers x =
  traverse (fun v => astype_int (fillna (VInt 0) (to_numeric_coerce v))) x.
Proof.
  unfold _parse_integers. induction x as [|v x IH]; simpl; [reflexivity|].
  rewrite IH. reflexivity.
Qed.

Lemma update_parsed_row `{Pandas} (c : string) (x y : DataFrame) (r' : row) :
  update_series c _parse_integers x = Ok y -> r' ∈ rows y ->
  exists r n, r ∈ rows x /\ r' = <[c := VInt n]> r.
Proof.
  intros Hrun Hin.
  assert (Hrun' : update_series c
            (traverse (fun v => astype_int (fillna (VInt 0) (to_numeric_coerce v)))) x
            = Ok y).
  { unfold update_series in *. destruct (series x c) as [s0|e]; [| exact Hrun].
    simpl in *. rewrite <- parse_integers_traverse. exact Hrun. }
  destruct (update_series_row _ _ _ _ _ Hrun' Hin) as (r & v & Hr & Hv & ->).
  destruct (astype_int_ok _ _ Hv) as [n ->]. exists r, n. split; [exact Hr | reflexivity].
Qed.

(** In the output of [preprocess_property_assessments] a year of construction
    is an integer up to 2024 or a missing value. *)
Lemma preprocess_property_assessments_years `{Pandas} `{Geopandas}
    (property_assessments : GeoDataFrame geometry) (out : DataFrame) (r : row) :
  preprocess_property_assessments property_assessments = Ok out -> r ∈ rows out ->
  cell r "YEAR_CONSTRUCTION" = VNaN \/
  exists y, (y <= 2024)%Z /\ cell r "YEAR_CONSTRUCTION" = VInt y.
Proof.
  unfold preprocess_property_assessments. intros Hrun Hin.
  bind_inv Hrun as pa0 Hs0. bind_inv Hrun as pa1 Hs1. bind_inv Hrun as pa2 Hs2.
  bind_inv Hrun as pa3 Hs3. bind_inv Hrun as pa4 Hs4. bind_inv Hrun as pa5 Hs5.
  bind_inv Hrun as pa6 Hs6. bind_inv Hrun as pa7 Hs7.
  apply update_series_inv in Hrun. destruct Hrun as (_ & s' & _ & _ & Hrows).
  rewrite Hrows in Hin. apply elem_of_set_cells in Hin.
  destruct Hin as (r7 & v8 & Hr7 & ->).
  rewrite cell_insert_ne by discriminate.
  destruct (update_series_row _ _ _ _ _ Hs7 Hr7) as (r6 & v7 & Hr6 & Hv7 & ->).
  rewrite cell_insert_eq.
  destruct (update_parsed_row _ _ _ _ Hs6 Hr6) as (r5 & n6 & Hr5 & ->).
  destruct (update_parsed_row _ _ _ _ Hs5 Hr5) as (r4 & n5 & Hr4 & ->).
  destruct (update_parsed_row _ _ _ _ Hs4 Hr4) as (r3 & n4 & Hr3 & ->).
  destruct (update_parsed_row _ _ _ _ Hs3 Hr3) as (r2 & n3 & Hr2 & ->).
  rewrite !cell_insert_ne in Hv7 by discriminate. rewrite cell_insert_eq in Hv7.
  rewrite le_scalar_int in Hv7. destruct (Z.leb_spec n3 2024) as [Hle|Hgt].
  - right. exists n3. split; [exact Hle|]. inversion Hv7. reflexivity.
  - left. inversion Hv7. reflexivity.
Qed.

(** C4 fails on the code: the bound is the literal [2024], whatever year the
    run takes place in.  A building of 2025 is turned into a missing value,
    also when the clock that [_calculate_building_age] reads says 2026. *)
Theorem year_construction_bound_is_2024 (y : Z) :
  where_le_2024 [VInt y] = Ok [if (y <=? 2024)%Z then VInt y else VNaN] /\
  where_le_2024 [VInt 2025] = Ok [VNaN] /\
  _calculate_building_age 2026 (VInt 2025) = Ok (VInt 1).
Proof.
  split; [apply where_le_2024_int|]. split.
  - apply (where_le_2024_int 2025).
  - apply (calculate_building_age_int 2026 2025).
Qed.

(** ** [create_input_table], stage by stage *)

Lemma traverse_ok_map {A B : Type} (f : A -> result B) (g : A -> B)
    (l : list A) (l' : list B) :
  (forall a b, f a = Ok b -> b = g a) -> traverse f l = Ok l' -> l' = map g l.
Proof.
  intros Hfg Hrun. apply traverse_ok in Hrun.
  induction Hrun as [|a b l l' Hab _ IH]; simpl; [reflexivity|].
  rewrite (Hfg a b Hab), IH. reflexivity.
Qed.

Lemma map_flat_map {A B C : Type} (f : B -> C) (g : A -> list B) (l : list A) :
  map f (flat_map g l) = flat_map (fun a => map f (g a)) l.
Proof.
  induction l as [|a l IH]; simpl; [reflexivity|].
  rewrite List.map_app, IH. reflexivity.
Qed.

Lemma flat_map_map {A B C : Type} (g : B -> list C) (h : A -> B) (l : list A) :
  flat_map g (map h l) = flat_map (fun a => g (h a)) l.
Proof. induction l as [|a l IH]; simpl; [reflexivity | rewrite IH; reflexivity]. Qed.

Lemma add_building_age_inv (current_year : Z) (table t1 : DataFrame) :
  add_building_age current_year table = Ok t1 ->
  columns t1 = aged_labels table /\
  rows t1 = map (fun r => <["building_age" := age_cell current_year r]> r) (rows table).
Proof.
  unfold add_building_age. intros Hrun.
  bind_inv Hrun as u1 Hu1. bind_inv Hrun as u2 Hu2. bind_inv Hrun as rs Hrs.
  inversion Hrun; subst t1. simpl. split; [reflexivity|].
  eapply traverse_ok_map; [| exact Hrs].
  intros r r' Hr. cbv beta in Hr. bind_inv Hr as age Hage. inversion Hr; subst r'.
  unfold age_cell. rewrite Hage. reflexivity.
Qed.

Lemma select_inv (x y : DataFrame) (cs : list string) :
  select x cs = Ok y ->
  (forall c, c ∈ cs -> c ∈ columns x) /\
  columns y = cs /\ rows y = map (project_row cs) (rows x).
Proof.
  unfold select. intros Hrun. bind_inv Hrun as u Hu. destruct u.
  inversion Hrun; subst y. simpl.
  split; [apply require_all_ok; exact Hu | split; reflexivity].
Qed.

Lemma merge_firestations_inv (t1 firestations t2 : DataFrame) :
  merge_firestations t1 firestations = Ok t2 ->
  exists stations,
    select firestations station_labels = Ok stations /\
    "FIRE_STATION_ID" ∈ columns t1 /\
    columns t2 = (columns t1 ++
                  map (suffixed (columns t1) "_firestation") ["LATITUDE"; "LONGITUDE"])%list /\
    rows t2 = flat_map (join_row (columns t1) stations "FIRE_STATION_ID" "_firestation"
                                 ["LATITUDE"; "LONGITUDE"]) (rows t1).
Proof.
  unfold merge_firestations. intros Hrun. bind_inv Hrun as stations Hst.
  exists stations. split; [exact Hst|].
  destruct (select_inv _ _ _ Hst) as (_ & Hcols & _).
  unfold merge_left in Hrun. rewrite Hcols in Hrun.
  bind_inv Hrun as u1 Hu1. bind_inv Hrun as u2 Hu2.
  change (remove_labels ["FIRE_STATION_ID"] station_labels)
    with ["LATITUDE"; "LONGITUDE"] in Hrun.
  destruct (existsb _ _); [discriminate Hrun|].
  inversion Hrun; subst t2. simpl.
  split; [apply require_ok; destruct u1; exact Hu1 | split; reflexivity].
Qed.

Lemma add_distance_inv (t2 t3 : DataFrame) :
  add_distance t2 = Ok t3 ->
  (forall c, c ∈ ["grid_lat"; "grid_long"; "LATITUDE_firestation"; "LONGITUDE_firestation"] ->
             c ∈ columns t2) /\
  columns t3 = add_label "distance_to_fire_station" (columns t2) /\
  rows t3 = map (fun r => <["distance_to_fire_station" := distance_cell r]> r) (rows t2) /\
  forall r, r ∈ rows t2 ->
    haversine_cells (cell r "grid_lat") (cell r "grid_long")
      (cell r "LATITUDE_firestation") (cell r "LONGITUDE_firestation") =
    Ok (distance_cell r).
Proof.
  unfold add_distance. intros Hrun. bind_inv Hrun as u Hu. destruct u.
  bind_inv Hrun as rs Hrs. inversion Hrun; subst t3. simpl.
  split; [apply require_all_ok; exact Hu|]. split; [reflexivity|]. split.
  - eapply traverse_ok_map; [| exact Hrs].
    intros r r' Hr. cbv beta in Hr. bind_inv Hr as d Hd. inversion Hr; subst r'.
    unfold distance_cell. rewrite Hd. reflexivity.
  - intros r Hr. apply traverse_ok in Hrs.
    destruct (Forall2_image_l _ _ _ _ Hrs Hr) as (r' & _ & Hrun').
    cbv beta in Hrun'. bind_inv Hrun' as d Hd.
    unfold distance_cell. rewrite Hd. reflexivity.
Qed.

Lemma add_is_fire_inv (t3 t4 : DataFrame) :
  add_is_fire t3 = Ok t4 ->
  "INCIDENT_CATEGORY" ∈ columns t3 /\
  columns t4 = add_label "is_fire" (columns t3) /\
  rows t4 = map (fun r => <["is_fire" := is_fire_cell r]> r) (rows t3).
Proof.
  unfold add_is_fire, series. intros Hrun. bind_inv Hrun as s Hs.
  bind_inv Hs as u Hu. destruct u. inversion Hs; subst s.
  inversion Hrun; subst t4. simpl.
  split; [apply require_ok; exact Hu|]. split; [reflexivity|].
  unfold _generate_flag. rewrite List.map_map.
  apply (set_cells_map "is_fire" is_fire_cell).
Qed.

(** The output of [create_input_table], label by label and row by row. *)
Lemma create_input_table_inv (current_year : Z) (table firestations out : DataFrame) :
  create_input_table current_year table firestations = Ok out ->
  exists stations,
    select firestations station_labels = Ok stations /\
    columns out =
      remove_labels ["LATITUDE"; "LONGITUDE"]
        (add_label "is_fire"
           (add_label "distance_to_fire_station"
              (aged_labels table ++
               map (suffixed (aged_labels table) "_firestation")
                   ["LATITUDE"; "LONGITUDE"]))) /\
    rows out = flat_map (output_rows current_year table stations) (rows table) /\
    forall r r2, r ∈ rows table ->
      r2 ∈ join_row (aged_labels table) stations "FIRE_STATION_ID" "_firestation"
             ["LATITUDE"; "LONGITUDE"] (<["building_age" := age_cell current_year r]> r) ->
      haversine_cells (cell r2 "grid_lat") (cell r2 "grid_long")
        (cell r2 "LATITUDE_firestation") (cell r2 "LONGITUDE_firestation") =
      Ok (distance_cell r2).
Proof.
  unfold create_input_table. intros Hrun.
  bind_inv Hrun as t1 H1. bind_inv Hrun as t2 H2. bind_inv Hrun as t3 H3.
  bind_inv Hrun as t4 H4.
  apply add_building_age_inv in H1. destruct H1 as [Hc1 Hr1].
  apply merge_firestations_inv in H2. destruct H2 as (stations & Hst & _ & Hc2 & Hr2).
  apply add_distance_inv in H3. destruct H3 as (_ & Hc3 & Hr3 & Hd3).
  apply add_is_fire_inv in H4. destruct H4 as (_ & Hc4 & Hr4).
  apply drop_columns_inv in Hrun. destruct Hrun as (_ & Hc5 & Hr5).
  exists stations. split; [exact Hst|]. split; [| split].
  - rewrite Hc5, Hc4, Hc3, Hc2, Hc1. reflexivity.
  - rewrite Hr5, Hr4, Hr3, Hr2, Hr1, Hc1.
    rewrite flat_map_map, !map_flat_map. apply List.flat_map_ext. intros r.
    unfold output_rows, finish_row. rewrite !List.map_map. reflexivity.
  - intros r r2 Hin Hin2. apply Hd3. rewrite Hr2, Hr1, Hc1, flat_map_map.
    apply list_elem_of_In, List.in_flat_map. exists r.
    split; apply list_elem_of_In; assumption.
Qed.

(** ** The rows of the output *)

Lemma elem_of_add_label (c c' : string) (cs : list string) :
  c' ∈ add_label c cs <-> c' ∈ cs \/ c' = c.
Proof.
  unfold add_label. destruct (bool_decide_reflect (c ∈ cs)) as [Hin|Hnin].
  - split; [intros H; left; exact H | intros [H| ->]; assumption].
  - rewrite elem_of_app, list_elem_of_singleton. reflexivity.
Qed.

Lemma elem_of_remove_labels (cs l : list string) (c : string) :
  c ∈ remove_labels cs l <-> c ∈ l /\ c ∉ cs.
Proof.
  unfold remove_labels. rewrite elem_of_filter_bool, negb_true_iff.
  rewrite bool_decide_eq_false. reflexivity.
Qed.

Lemma project_row_cell (cs : list string) (r : row) (c : string) :
  c ∈ cs -> cell (project_row cs r) c = cell r c.
Proof.
  unfold project_row. induction cs as [|c0 cs IH]; intros Hin; simpl.
  - apply elem_of_nil in Hin. contradiction.
  - destruct (decide (c0 = c)) as [->|Hne].
    + apply cell_insert_eq.
    + rewrite cell_insert_ne by exact Hne. apply IH.
      apply elem_of_cons in Hin. destruct Hin as [->|Hin]; [contradiction | exact Hin].
Qed.

Lemma suffixed_present (cs : list string) (c : string) :
  c ∈ cs -> suffixed cs "_firestation" c = c ++ "_firestation".
Proof. intros Hin. unfold suffixed. rewrite bool_decide_eq_true_2 by exact Hin. reflexivity. Qed.

Lemma suffixed_cases (cs : list string) (c : string) :
  suffixed cs "_firestation" c = c \/ suffixed cs "_firestation" c = c ++ "_firestation".
Proof. unfold suffixed. destruct (bool_decide (c ∈ cs)); [right | left]; reflexivity. Qed.

Lemma attach_coordinates (cs : list string) (from : string -> value) (l : row) :
  attach cs "_firestation" ["LATITUDE"; "LONGITUDE"] from l =
  <[suffixed cs "_firestation" "LATITUDE" := from "LATITUDE"]>
    (<[suffixed cs "_firestation" "LONGITUDE" := from "LONGITUDE"]> l).
Proof. reflexivity. Qed.

(** A left join changes nothing but the coordinate labels of the station. *)
Lemma attach_frame (cs : list string) (from : string -> value) (l : row) (c : string) :
  c ∉ ["LATITUDE"; "LONGITUDE"; "LATITUDE_firestation"; "LONGITUDE_firestation"] ->
  attach cs "_firestation" ["LATITUDE"; "LONGITUDE"] from l !! c = l !! c.
Proof.
  intros Hc. rewrite attach_coordinates.
  rewrite !lookup_insert_ne; [reflexivity | |].
  - intros Heq. apply Hc. rewrite <- Heq.
    destruct (suffixed_cases cs "LONGITUDE") as [-> | ->]; label_notin.
  - intros Heq. apply Hc. rewrite <- Heq.
    destruct (suffixed_cases cs "LATITUDE") as [-> | ->]; label_notin.
Qed.

Lemma join_row_cases (cs : list string) (stations : DataFrame) (l r2 : row) :
  r2 ∈ join_row cs stations "FIRE_STATION_ID" "_firestation" ["LATITUDE"; "LONGITUDE"] l ->
  (exists m, m ∈ rows stations /\
             same_key (cell l "FIRE_STATION_ID") (cell m "FIRE_STATION_ID") = true /\
             r2 = attach cs "_firestation" ["LATITUDE"; "LONGITUDE"] (cell m) l) \/
  ((forall m, m ∈ rows stations ->
              same_key (cell l "FIRE_STATION_ID") (cell m "FIRE_STATION_ID") = false) /\
   r2 = attach cs "_firestation" ["LATITUDE"; "LONGITUDE"] (fun _ => VNaN) l).
Proof.
  unfold join_row.
  destruct (List.filter _ (rows stations)) as [|m0 ms] eqn:Hms; intros Hin.
  - right. split.
    + intros m Hm.
      destruct (same_key (cell l "FIRE_STATION_ID") (cell m "FIRE_STATION_ID")) eqn:Hk;
        [|reflexivity].
      assert (Hmem : m ∈ List.filter
                (fun m => same_key (cell l "FIRE_STATION_ID") (cell m "FIRE_STATION_ID"))
                (rows stations)) by (apply elem_of_filter_bool; split; assumption).
      rewrite Hms in Hmem. apply elem_of_nil in Hmem. contradiction.
    + apply list_elem_of_singleton in Hin. exact Hin.
  - left. apply list_elem_of_fmap in Hin. destruct Hin as (m & -> & Hm).
    rewrite <- Hms in Hm. apply elem_of_filter_bool in Hm. destruct Hm as [Hm Hk].
    exists m. split; [exact Hm | split; [exact Hk | reflexivity]].
Qed.

Lemma join_row_nonempty (cs : list string) (stations : DataFrame) (l : row) :
  exists r2, r2 ∈ join_row cs stations "FIRE_STATION_ID" "_firestation"
                    ["LATITUDE"; "LONGITUDE"] l.
Proof.
  unfold join_row. destruct (List.filter _ (rows stations)) as [|m0 ms].
  - eexists. left.
  - eexists. simpl. left.
Qed.

Lemma finish_row_frame (r : row) (c : string) :
  c ∉ ["distance_to_fire_station"; "is_fire"; "LATITUDE"; "LONGITUDE"] ->
  finish_row r !! c = r !! c.
Proof.
  intros Hc. unfold finish_row. rewrite lookup_delete_all.
  rewrite bool_decide_eq_false_2.
  - rewrite !lookup_insert_ne; [reflexivity | |]; intros Heq; apply Hc; subst c; label_notin.
  - intros Hin. apply Hc. right. right. exact Hin.
Qed.

Lemma finish_row_is_fire (r : row) :
  cell (finish_row r) "is_fire" =
  VBool (existsb (same_key (cell r "INCIDENT_CATEGORY")) fire_categories).
Proof.
  unfold finish_row. rewrite cell_delete_all_notin by label_notin.
  rewrite cell_insert_eq. unfold is_fire_cell.
  rewrite cell_insert_ne by discriminate. reflexivity.
Qed.

Lemma finish_row_distance (r : row) :
  cell (finish_row r) "distance_to_fire_station" = distance_cell r.
Proof.
  unfold finish_row. rewrite cell_delete_all_notin by label_notin.
  rewrite cell_insert_ne by discriminate. apply cell_insert_eq.
Qed.

Lemma finish_row_coordinates (r : row) :
  finish_row r !! "LATITUDE" = None /\ finish_row r !! "LONGITUDE" = None.
Proof. unfold finish_row. rewrite !lookup_delete_all. split; reflexivity. Qed.

Lemma cell_of_lookup (r r' : row) (c : string) : r' !! c = r !! c -> cell r' c = cell r c.
Proof. unfold cell. intros ->. reflexivity. Qed.

Lemma notin_sublabels (big small : list string) (c : string) :
  forallb (fun x => bool_decide (x ∈ big)) small = true -> c ∉ big -> c ∉ small.
Proof.
  intros Hsub Hc Hin. apply Hc. rewrite forallb_forall in Hsub.
  apply list_elem_of_In in Hin. specialize (Hsub c Hin).
  apply bool_decide_eq_true_1 in Hsub. exact Hsub.
Qed.

(** Every label outside [touched_labels] reads the same in a row of the output
    as in the row of the input it stems from. *)
Lemma output_rows_frame (current_year : Z) (table stations : DataFrame) (r r' : row)
    (c : string) :
  r' ∈ output_rows current_year table stations r -> c ∉ touched_labels ->
  r' !! c = r !! c.
Proof.
  unfold output_rows. intros Hin Hc.
  apply list_elem_of_fmap in Hin. destruct Hin as (r2 & -> & Hr2).
  rewrite finish_row_frame by (apply (notin_sublabels touched_labels); [reflexivity | exact Hc]).
  assert (Hframe : r2 !! c = (<["building_age" := age_cell current_year r]> r) !! c).
  { apply join_row_cases in Hr2.
    destruct Hr2 as [(m & _ & _ & ->) | (_ & ->)]; apply attach_frame;
      (apply (notin_sublabels touched_labels); [reflexivity | exact Hc]). }
  rewrite Hframe. apply lookup_insert_ne. intros Heq. apply Hc. subst c.
  apply (bool_decide_unpack _). vm_compute. exact I.
Qed.

Lemma elem_of_output (current_year : Z) (table firestations out : DataFrame) (r' : row) :
  create_input_table current_year table firestations = Ok out -> r' ∈ rows out ->
  exists stations r,
    select firestations station_labels = Ok stations /\ r ∈ rows table /\
    r' ∈ output_rows current_year table stations r.
Proof.
  intros Hrun Hin. apply create_input_table_inv in Hrun.
  destruct Hrun as (stations & Hst & _ & Hrows & _). rewrite Hrows in Hin.
  apply list_elem_of_In, List.in_flat_map in Hin. destruct Hin as (r & Hr & Hr').
  exists stations, r. split; [exact Hst|]. split; apply list_elem_of_In; assumption.
Qed.

Lemma output_of_elem (current_year : Z) (table firestations out : DataFrame) (r : row) :
  create_input_table current_year table firestations = Ok out -> r ∈ rows table ->
  exists r', r' ∈ rows out /\ forall c, c ∉ touched_labels -> r' !! c = r !! c.
Proof.
  intros Hrun Hin. apply create_input_table_inv in Hrun.
  destruct Hrun as (stations & _ & _ & Hrows & _).
  destruct (join_row_nonempty (aged_labels table) stations
              (<["building_age" := age_cell current_year r]> r)) as [r2 Hr2].
  assert (Hout : finish_row r2 ∈ output_rows current_year table stations r).
  { unfold output_rows. apply list_elem_of_fmap. exists r2. split; [reflexivity | exact Hr2]. }
  exists (finish_row r2). split.
  - rewrite Hrows. apply list_elem_of_In, List.in_flat_map. exists r.
    split; apply list_elem_of_In; assumption.
  - intros c Hc. apply (output_rows_frame _ _ _ _ _ _ Hout Hc).
Qed.

Lemma output_rows_building_age (current_year : Z) (table stations : DataFrame) (r r' : row) :
  r' ∈ output_rows current_year table stations r ->
  cell r' "building_age" = age_cell current_year r.
Proof.
  unfold output_rows. intros Hin.
  apply list_elem_of_fmap in Hin. destruct Hin as (r2 & -> & Hr2).
  apply join_row_cases in Hr2.
  transitivity (cell (<["building_age" := age_cell current_year r]> r) "building_age");
    [| apply cell_insert_eq].
  apply cell_of_lookup. rewrite finish_row_frame by label_notin.
  destruct Hr2 as [(m & _ & _ & ->) | (_ & ->)]; apply attach_frame; label_notin.
Qed.

Lemma output_rows_is_fire (current_year : Z) (table stations : DataFrame) (r r' : row) :
  r' ∈ output_rows current_year table stations r ->
  cell r' "is_fire" =
  VBool (existsb (same_key (cell r "INCIDENT_CATEGORY")) fire_categories).
Proof.
  unfold output_rows. intros Hin.
  apply list_elem_of_fmap in Hin. destruct Hin as (r2 & -> & Hr2).
  rewrite finish_row_is_fire. do 3 f_equal.
  transitivity (cell (<["building_age" := age_cell current_year r]> r) "INCIDENT_CATEGORY");
    [| apply cell_insert_ne; discriminate].
  apply cell_of_lookup. apply join_row_cases in Hr2.
  destruct Hr2 as [(m & _ & _ & ->) | (_ & ->)]; apply attach_frame; label_notin.
Qed.

(** ** The fire flag *)

(** The flag of an output row is a Boolean, never a missing value: it tells
    whether the category of the row is one of the two literals of
    [fire_categories]. *)
Lemma is_fire_of_output (current_year : Z) (table firestations out : DataFrame) (r' : row) :
  create_input_table current_year table firestations = Ok out -> r' ∈ rows out ->
  cell r' "is_fire" =
  VBool (existsb (same_key (cell r' "INCIDENT_CATEGORY")) fire_categories).
Proof.
  intros Hrun Hin.
  destruct (elem_of_output _ _ _ _ _ Hrun Hin) as (stations & r & _ & _ & Hr').
  rewrite (output_rows_is_fire _ _ _ _ _ Hr'). do 3 f_equal.
  symmetry. apply cell_of_lookup.
  apply (output_rows_frame _ _ _ _ _ _ Hr'). label_notin.
Qed.

(** C1 fails on the code: the second literal of [fire_categories] is not the
    label that [preprocess_incidents] gives to building fires (its bytes are
    those of the label decoded in the wrong character set), so a building fire
    is flagged [False].  The other fire category and the rows without a
    category behave as claimed. *)
Theorem is_fire_misses_building_fires :
  replace_value map_of_incidents_values (VStr "INCENDIE") = VStr "Incendies de bâtiments" /\
  _generate_flag [VStr "Incendies de bâtiments"; VStr "Autres incendies"; VNaN]
                 fire_categories = [VBool false; VBool true; VBool false] /\
  (fun out => map (fun r => (cell r "INCIDENT_CATEGORY", cell r "is_fire")) (rows out))
    <$> create_input_table 2026 sample_merged sample_firestations =
  Ok [(VStr "Incendies de bâtiments", VBool false);
      (VStr "Autres incendies", VBool true);
      (VNaN, VBool false);
      (VNaN, VBool false)].
Proof. split; [| split]; vm_compute; reflexivity. Qed.

(** ** Building age *)

Lemma coerced_year_at `{Pandas} (raw : value) (x years : list value) (i : nat) :
  to_numeric_coerce raw = VNaN -> x !! i = Some raw ->
  _parse_integers x ≫= where_le_2024 = Ok years ->
  years !! i = Some (VInt 0).
Proof.
  intros Hraw Hi Hrun. bind_inv Hrun as ints Hints.
  unfold _parse_integers in Hints. apply traverse_ok in Hints.
  assert (Hfilled : map (fun v => fillna (VInt 0) (to_numeric_coerce v)) x !! i
                    = Some (VInt 0)).
  { rewrite list_lookup_fmap, Hi. simpl. rewrite Hraw. reflexivity. }
  destruct (Forall2_lookup_l _ _ _ _ _ Hints Hfilled) as (n & Hn & Hcast).
  rewrite astype_int_zero in Hcast. inversion Hcast; subst n.
  unfold where_le_2024 in Hrun. apply traverse_ok in Hrun.
  destruct (Forall2_lookup_l _ _ _ _ _ Hrun Hn) as (y & Hy & Hwhere).
  cbv beta in Hwhere. rewrite (le_scalar_int 0 2024) in Hwhere.
  simpl in Hwhere. inversion Hwhere; subst y. exact Hy.
Qed.

(** In [create_input_table] a row with an assessment identifier and the year
    of construction [0] gets the current year as its building age. *)
Lemma year_zero_gives_current_year
    (current_year : Z) (table firestations out : DataFrame) :
  create_input_table current_year table firestations = Ok out ->
  (forall r, r ∈ rows table ->
     isna (cell r "ASSESSMENT_ID") = false -> cell r "YEAR_CONSTRUCTION" = VInt 0 ->
     exists r', r' ∈ rows out /\
                r' !! "ASSESSMENT_ID" = r !! "ASSESSMENT_ID" /\
                r' !! "YEAR_CONSTRUCTION" = r !! "YEAR_CONSTRUCTION" /\
                cell r' "building_age" = VInt current_year) /\
  (forall r', r' ∈ rows out ->
     isna (cell r' "ASSESSMENT_ID") = false -> cell r' "YEAR_CONSTRUCTION" = VInt 0 ->
     cell r' "building_age" = VInt current_year /\
     isna (cell r' "building_age") = false).
Proof.
  intros Hrun.
  assert (Hage : forall r r' stations,
            r' ∈ output_rows current_year table stations r ->
            isna (cell r "ASSESSMENT_ID") = false -> cell r "YEAR_CONSTRUCTION" = VInt 0 ->
            cell r' "building_age" = VInt current_year).
  { intros r r' stations Hr' Hid Hyear.
    rewrite (output_rows_building_age _ _ _ _ _ Hr'). unfold age_cell.
    rewrite Hyear, calculate_building_age_int, Hid, Z.sub_0_r. reflexivity. }
  split.
  - intros r Hin Hid Hyear.
    pose proof Hrun as Hinv. apply create_input_table_inv in Hinv.
    destruct Hinv as (stations & _ & _ & Hrows & _).
    destruct (join_row_nonempty (aged_labels table) stations
                (<["building_age" := age_cell current_year r]> r)) as [r2 Hr2].
    assert (Hout : finish_row r2 ∈ output_rows current_year table stations r).
    { unfold output_rows. apply list_elem_of_fmap. exists r2.
      split; [reflexivity | exact Hr2]. }
    exists (finish_row r2). split; [| split; [| split]].
    + rewrite Hrows. apply list_elem_of_In, List.in_flat_map. exists r.
      split; apply list_elem_of_In; assumption.
    + apply (output_rows_frame _ _ _ _ _ _ Hout). label_notin.
    + apply (output_rows_frame _ _ _ _ _ _ Hout). label_notin.
    + apply (Hage _ _ _ Hout Hid Hyear).
  - intros r' Hin Hid Hyear.
    destruct (elem_of_output _ _ _ _ _ Hrun Hin) as (stations & r & _ & _ & Hr').
    assert (Hcell : cell r' "building_age" = VInt current_year).
    { assert (Hsame_id : cell r' "ASSESSMENT_ID" = cell r "ASSESSMENT_ID")
        by (apply cell_of_lookup, (output_rows_frame _ _ _ _ _ _ Hr'); label_notin).
      assert (Hsame_year : cell r' "YEAR_CONSTRUCTION" = cell r "YEAR_CONSTRUCTION")
        by (apply cell_of_lookup, (output_rows_frame _ _ _ _ _ _ Hr'); label_notin).
      apply (Hage _ _ _ Hr'); congruence. }
    split; [exact Hcell | rewrite Hcell; reflexivity].
Qed.

Lemma sample_run :
  exists out, create_input_table 2026 sample_merged sample_firestations = Ok out.
Proof.
  assert (Hrun : (fun _ => tt) <$> create_input_table 2026 sample_merged sample_firestations
                 = Ok tt) by (vm_compute; reflexivity).
  apply fmap_ok in Hrun. destruct Hrun as (out & Hout & _). exists out. exact Hout.
Qed.

(** ** Distance to the fire station *)

Lemma attach_station_cells (cs : list string) (from : string -> value) (l : row) :
  "LATITUDE" ∈ cs -> "LONGITUDE" ∈ cs ->
  cell (attach cs "_firestation" ["LATITUDE"; "LONGITUDE"] from l) "LATITUDE_firestation"
    = from "LATITUDE" /\
  cell (attach cs "_firestation" ["LATITUDE"; "LONGITUDE"] from l) "LONGITUDE_firestation"
    = from "LONGITUDE".
Proof.
  intros Hlat Hlon. rewrite attach_coordinates.
  rewrite (suffixed_present cs "LATITUDE" Hlat), (suffixed_present cs "LONGITUDE" Hlon).
  split.
  - apply cell_insert_eq.
  - rewrite cell_insert_ne by discriminate. apply cell_insert_eq.
Qed.

Lemma distance_cell_without_station (r : row) :
  cell r "LATITUDE_firestation" = VNaN -> distance_cell r = VNaN.
Proof.
  intros Hlat. unfold distance_cell, haversine_cells. rewrite Hlat.
  destruct (as_float (cell r "grid_lat")) as [[a|]|]; simpl; try reflexivity;
    destruct (as_float (cell r "grid_long")) as [[b|]|]; simpl; try reflexivity;
    destruct (as_float (cell r "LONGITUDE_firestation")) as [[d|]|]; reflexivity.
Qed.

Lemma finish_row_cell (r : row) (c : string) :
  c ∉ ["distance_to_fire_station"; "is_fire"; "LATITUDE"; "LONGITUDE"] ->
  cell (finish_row r) c = cell r c.
Proof. intros Hc. apply cell_of_lookup, finish_row_frame, Hc. Qed.

(** The station columns of an output row, read off the row it was joined
    from. *)
Lemma output_row_station (current_year : Z) (table stations : DataFrame) (r r' : row) :
  "LATITUDE" ∈ columns table -> "LONGITUDE" ∈ columns table ->
  r' ∈ output_rows current_year table stations r ->
  exists r2,
    r2 ∈ join_row (aged_labels table) stations "FIRE_STATION_ID" "_firestation"
           ["LATITUDE"; "LONGITUDE"] (<["building_age" := age_cell current_year r]> r) /\
    r' = finish_row r2 /\
    cell r' "FIRE_STATION_ID" = cell r "FIRE_STATION_ID" /\
    ((exists m, m ∈ rows stations /\
        same_key (cell r "FIRE_STATION_ID") (cell m "FIRE_STATION_ID") = true /\
        cell r' "LATITUDE_firestation" = cell m "LATITUDE" /\
        cell r' "LONGITUDE_firestation" = cell m "LONGITUDE") \/
     ((forall m, m ∈ rows stations ->
         same_key (cell r "FIRE_STATION_ID") (cell m "FIRE_STATION_ID") = false) /\
      cell r' "LATITUDE_firestation" = VNaN /\
      cell r' "LONGITUDE_firestation" = VNaN /\
      cell r' "distance_to_fire_station" = VNaN)).
Proof.
  intros Hlat Hlon Hin.
  assert (Hlat' : "LATITUDE" ∈ aged_labels table)
    by (apply elem_of_add_label; left; exact Hlat).
  assert (Hlon' : "LONGITUDE" ∈ aged_labels table)
    by (apply elem_of_add_label; left; exact Hlon).
  assert (Hid : cell r' "FIRE_STATION_ID" = cell r "FIRE_STATION_ID")
    by (apply cell_of_lookup, (output_rows_frame _ _ _ _ _ _ Hin); label_notin).
  unfold output_rows in Hin. apply list_elem_of_fmap in Hin.
  destruct Hin as (r2 & -> & Hr2).
  exists r2. split; [exact Hr2|]. split; [reflexivity|]. split; [exact Hid|].
  assert (Hkey : cell (<["building_age" := age_cell current_year r]> r) "FIRE_STATION_ID"
                 = cell r "FIRE_STATION_ID") by (apply cell_insert_ne; discriminate).
  rewrite !finish_row_cell by label_notin. rewrite finish_row_distance.
  apply join_row_cases in Hr2. rewrite Hkey in Hr2.
  destruct Hr2 as [(m & Hm & Hk & ->) | (Hnone & ->)].
  - left. exists m. split; [exact Hm|]. split; [exact Hk|].
    apply (attach_station_cells _ (cell m) _ Hlat' Hlon').
  - right. split; [exact Hnone|].
    destruct (attach_station_cells (aged_labels table) (fun _ => VNaN)
                (<["building_age" := age_cell current_year r]> r) Hlat' Hlon')
      as [Hclat Hclon].
    split; [exact Hclat|]. split; [exact Hclon|].
    apply distance_cell_without_station. exact Hclat.
Qed.

(** C2 as the code has it: the join is on [FIRE_STATION_ID], the station of
    the service area that the row's mesh cell lies in, not on
    [DISPATCHED_FIRE_STATION_ID].  It is a left join: every row stays; a row
    whose [FIRE_STATION_ID] matches a station gets the coordinates of that
    station, a row that matches none gets missing coordinates and a missing
    distance.  The distance is [_haversine_distance] of the centroid of the
    cell and the station's coordinates. *)
Theorem distance_uses_the_station_of_the_cell
    (current_year : Z) (table firestations out : DataFrame) :
  "LATITUDE" ∈ columns table -> "LONGITUDE" ∈ columns table ->
  create_input_table current_year table firestations = Ok out ->
  (forall r, r ∈ rows table ->
     exists r', r' ∈ rows out /\ forall c, c ∉ touched_labels -> r' !! c = r !! c) /\
  (forall r', r' ∈ rows out ->
     ((exists m, m ∈ rows firestations /\
         same_key (cell r' "FIRE_STATION_ID") (cell m "FIRE_STATION_ID") = true /\
         cell r' "LATITUDE_firestation" = cell m "LATITUDE" /\
         cell r' "LONGITUDE_firestation" = cell m "LONGITUDE") \/
      ((forall m, m ∈ rows firestations ->
          same_key (cell r' "FIRE_STATION_ID") (cell m "FIRE_STATION_ID") = false) /\
       cell r' "LATITUDE_firestation" = VNaN /\
       cell r' "LONGITUDE_firestation" = VNaN /\
       cell r' "distance_to_fire_station" = VNaN)) /\
     haversine_cells (cell r' "grid_lat") (cell r' "grid_long")
       (cell r' "LATITUDE_firestation") (cell r' "LONGITUDE_firestation")
     = Ok (cell r' "distance_to_fire_station") /\
     forall a b c d,
       cell r' "grid_lat" = VNum a -> cell r' "grid_long" = VNum b ->
       cell r' "LATITUDE_firestation" = VNum c ->
       cell r' "LONGITUDE_firestation" = VNum d ->
       cell r' "distance_to_fire_station" =
       VReal (_haversine_distance (Q2R (this a)) (Q2R (this b))
                                  (Q2R (this c)) (Q2R (this d)))).
Proof.
  intros Hlat Hlon Hrun. split.
  - intros r Hr. apply (output_of_elem _ _ _ _ _ Hrun Hr).
  - intros r' Hin.
    pose proof Hrun as Hinv. apply create_input_table_inv in Hinv.
    destruct Hinv as (stations & Hst & _ & Hrows & Hdist).
    rewrite Hrows in Hin. apply list_elem_of_In, List.in_flat_map in Hin.
    destruct Hin as (r & Hr & Hr'). apply list_elem_of_In in Hr, Hr'.
    destruct (output_row_station _ _ _ _ _ Hlat Hlon Hr')
      as (r2 & Hr2 & Heq & Hid & Hcases).
    destruct (select_inv _ _ _ Hst) as (_ & _ & Hsrows).
    assert (Hhav : haversine_cells (cell r' "grid_lat") (cell r' "grid_long")
                     (cell r' "LATITUDE_firestation") (cell r' "LONGITUDE_firestation")
                   = Ok (cell r' "distance_to_fire_station")).
    { subst r'. rewrite !finish_row_cell by label_notin. rewrite finish_row_distance.
      apply (Hdist r r2 Hr Hr2). }
    split; [| split; [exact Hhav|]].
    + rewrite Hid. destruct Hcases as [(m & Hm & Hk & Hclat & Hclon) | (Hnone & Hrest)].
      * left. rewrite Hsrows in Hm. apply list_elem_of_fmap in Hm.
        destruct Hm as (m0 & -> & Hm0).
        rewrite !project_row_cell in Hk, Hclat, Hclon by label_notin.
        exists m0. split; [exact Hm0|]. split; [exact Hk|]. split; assumption.
      * right. split; [| exact Hrest]. intros m0 Hm0.
        assert (Hm : project_row station_labels m0 ∈ rows stations)
          by (rewrite Hsrows; apply list_elem_of_fmap; exists m0; split;
              [reflexivity | exact Hm0]).
        specialize (Hnone _ Hm). rewrite project_row_cell in Hnone by label_notin.
        exact Hnone.
    + intros a b c d Ha Hb Hc Hd. rewrite Ha, Hb, Hc, Hd in Hhav.
      simpl in Hhav. inversion Hhav. reflexivity.
Qed.

Lemma distance_uses_the_station_of_the_cell_witness :
  exists out,
    create_input_table 2026 sample_merged sample_firestations = Ok out /\
    forall r', r' ∈ rows out ->
      haversine_cells (cell r' "grid_lat") (cell r' "grid_long")
        (cell r' "LATITUDE_firestation") (cell r' "LONGITUDE_firestation")
      = Ok (cell r' "distance_to_fire_station").
Proof.
  destruct sample_run as [out Hrun]. exists out. split; [exact Hrun|].
  assert (Hlat : "LATITUDE" ∈ columns sample_merged) by label_notin.
  assert (Hlon : "LONGITUDE" ∈ columns sample_merged) by label_notin.
  intros r' Hin.
  destruct (distance_uses_the_station_of_the_cell 2026 sample_merged sample_firestations
              out Hlat Hlon Hrun) as [_ Hrows].
  destruct (Hrows r' Hin) as (_ & Hhav & _). exact Hhav.
Defined.

(** C2 as stated fails: the first incident was answered by station 5 and lies
    in the area of station 7; it is joined to the coordinates of station 7.
    The assessed building has no dispatched station at all and still gets the
    coordinates of station 5 and a distance. *)
Lemma dispatched_station_is_not_the_join_key :
  (fun out =>
     map (fun r => (cell r "DISPATCHED_FIRE_STATION_ID", cell r "FIRE_STATION_ID",
                    cell r "LATITUDE_firestation", cell r "LONGITUDE_firestation",
                    isna (cell r "distance_to_fire_station")))
         (rows out))
    <$> create_input_table 2026 sample_merged sample_firestations =
  Ok [(VInt 5, VInt 7, vq 4560 100, vq (-7356) 100, false);
      (VInt 7, VInt 7, vq 4560 100, vq (-7356) 100, false);
      (VNaN, VInt 5, vq 4550 100, vq (-7366) 100, false);
      (VNaN, VInt 9, VNaN, VNaN, true)] /\
  map (fun m => (cell m "FIRE_STATION_ID", cell m "LATITUDE", cell m "LONGITUDE"))
      (rows sample_firestations) =
  [(VInt 5, vq 4550 100, vq (-7366) 100); (VInt 7, vq 4560 100, vq (-7356) 100)].
Proof. split; vm_compute; reflexivity. Qed.

(** ** Final cleanup *)

(** C3 as the code has it: the labels dropped at the end are [LATITUDE] and
    [LONGITUDE], the coordinates of the record itself; the station's
    coordinates stay, under [LATITUDE_firestation] and
    [LONGITUDE_firestation].  The output has the other labels of the input and
    the five new ones, and outside the labels written or dropped every row
    reads as the input row it stems from. *)
Theorem final_cleanup_drops_the_record_coordinates
    (current_year : Z) (table firestations out : DataFrame) :
  "LATITUDE" ∈ columns table -> "LONGITUDE" ∈ columns table ->
  create_input_table current_year table firestations = Ok out ->
  (forall c, c ∈ columns out <->
     (c ∈ columns table /\ c <> "LATITUDE" /\ c <> "LONGITUDE") \/
     c ∈ ["building_age"; "LATITUDE_firestation"; "LONGITUDE_firestation";
          "distance_to_fire_station"; "is_fire"]) /\
  (forall r', r' ∈ rows out ->
     r' !! "LATITUDE" = None /\ r' !! "LONGITUDE" = None /\
     exists r, r ∈ rows table /\ forall c, c ∉ touched_labels -> r' !! c = r !! c) /\
  (forall r, r ∈ rows table ->
     exists r', r' ∈ rows out /\ forall c, c ∉ touched_labels -> r' !! c = r !! c).
Proof.
  intros Hlat Hlon Hrun. split; [| split].
  - pose proof Hrun as Hinv. apply create_input_table_inv in Hinv.
    destruct Hinv as (stations & _ & Hcols & _).
    assert (Hlat' : "LATITUDE" ∈ aged_labels table)
      by (apply elem_of_add_label; left; exact Hlat).
    assert (Hlon' : "LONGITUDE" ∈ aged_labels table)
      by (apply elem_of_add_label; left; exact Hlon).
    intros c. rewrite Hcols. simpl map.
    rewrite (suffixed_present _ _ Hlat'), (suffixed_present _ _ Hlon').
    rewrite elem_of_remove_labels, !elem_of_add_label, elem_of_app.
    unfold aged_labels. rewrite elem_of_add_label.
    rewrite !elem_of_cons, !elem_of_nil. simpl.
    split.
    + intros [Hc Hnot].
      assert (Hne : c <> "LATITUDE" /\ c <> "LONGITUDE").
      { split; intros ->; apply Hnot; [left | right; left]; reflexivity. }
      destruct Hc as [[[[Hc| ->]|[->|[->|[]]]]| ->]| ->]; auto 10.
    + intros [(Hc & Hn1 & Hn2)|Hc].
      * split; [auto 10|]. intros [->|[->|[]]]; congruence.
      * split.
        -- destruct Hc as [->|[->|[->|[->|[->|[]]]]]]; auto 10.
        -- intros [->|[->|[]]];
             destruct Hc as [Hc|[Hc|[Hc|[Hc|[Hc|[]]]]]]; discriminate Hc.
  - intros r' Hin.
    destruct (elem_of_output _ _ _ _ _ Hrun Hin) as (stations & r & _ & Hr & Hr').
    pose proof Hr' as Hfin. unfold output_rows in Hfin.
    apply list_elem_of_fmap in Hfin. destruct Hfin as (r2 & Heq & _).
    destruct (finish_row_coordinates r2) as [Hnolat Hnolon]. rewrite <- Heq in Hnolat, Hnolon.
    split; [exact Hnolat|]. split; [exact Hnolon|].
    exists r. split; [exact Hr|]. intros c Hc.
    apply (output_rows_frame _ _ _ _ _ _ Hr' Hc).
  - intros r Hr. apply (output_of_elem _ _ _ _ _ Hrun Hr).
Qed.

Lemma final_cleanup_drops_the_record_coordinates_witness :
  exists out,
    create_input_table 2026 sample_merged sample_firestations = Ok out /\
    "LATITUDE_firestation" ∈ columns out /\ ~ "LATITUDE" ∈ columns out.
Proof.
  destruct sample_run as [out Hrun]. exists out. split; [exact Hrun|].
  assert (Hlat : "LATITUDE" ∈ columns sample_merged) by label_notin.
  assert (Hlon : "LONGITUDE" ∈ columns sample_merged) by label_notin.
  destruct (final_cleanup_drops_the_record_coordinates 2026 sample_merged
              sample_firestations out Hlat Hlon Hrun) as [Hcols _].
  split.
  - apply Hcols. right. label_notin.
  - intros Hin. apply Hcols in Hin. destruct Hin as [(_ & Hne & _)|Hin].
    + apply Hne. reflexivity.
    + revert Hin. label_notin.
Defined.

(** C3 as stated fails: after the cleanup the station's coordinates are still
    in the table, and the labels [LATITUDE] and [LONGITUDE] of the merged table
    are gone. *)
Lemma station_coordinates_survive_the_cleanup :
  columns <$> create_input_table 2026 sample_merged sample_firestations =
  Ok ["DISPATCHED_FIRE_STATION_ID"; "INCIDENT_CATEGORY"; "INCIDENT_ID";
      "FIRE_STATION_ID"; "grid_long"; "grid_lat"; "ASSESSMENT_ID";
      "YEAR_CONSTRUCTION"; "DGUID"; "building_age"; "LATITUDE_firestation";
      "LONGITUDE_firestation"; "distance_to_fire_station"; "is_fire"] /\
  (fun out => map (fun r => (cell r "LATITUDE_firestation", r !! "LATITUDE")) (rows out))
    <$> create_input_table 2026 sample_merged sample_firestations =
  Ok [(vq 4560 100, None); (vq 4560 100, None); (vq 4550 100, None); (VNaN, None)] /\
  map (fun r => cell r "LATITUDE") (rows sample_merged) =
  [vq 4552 100; vq 4553 100; vq 4554 100; vq 4556 100].
Proof. split; [| split]; vm_compute; reflexivity. Qed.

(** * Further properties of the nodes *)

(** ** Renaming and dropping labels *)

Lemma fmap_injective_on {A B : Type} (f : A -> B) (l : list A) (a b : A) :
  NoDup (map f l) -> a ∈ l -> b ∈ l -> f a = f b -> a = b.
Proof.
  induction l as [|c l IH]; intros Hnd Ha Hb Heq.
  - apply elem_of_nil in Ha. contradiction.
  - simpl in Hnd. inversion Hnd as [|? ? Hc Hnd']; subst.
    clear Hnd. rename Hnd' into Hnd.
    apply elem_of_cons in Ha. apply elem_of_cons in Hb.
    destruct Ha as [->|Ha], Hb as [->|Hb].
    + reflexivity.
    + exfalso. apply Hc. rewrite Heq. apply list_elem_of_fmap. exists b. split; [reflexivity | exact Hb].
    + exfalso. apply Hc. rewrite <- Heq. apply list_elem_of_fmap. exists a. split; [reflexivity | exact Ha].
    + apply (IH Hnd Ha Hb Heq).
Qed.

Lemma rename_row_bound (m : list (string * string)) (cs : list string) (r : row)
    (l : string) (v : value) :
  rename_row m cs r !! l = Some v ->
  exists c, c ∈ cs /\ rename_label m c = l /\ r !! c = Some v.
Proof.
  unfold rename_row. induction cs as [|c cs IH]; simpl; intros Hl.
  - rewrite lookup_empty in Hl. discriminate Hl.
  - destruct (r !! c) as [w|] eqn:Hc.
    + destruct (decide (rename_label m c = l)) as [Heq|Hne].
      * rewrite <- Heq, lookup_insert_eq in Hl. inversion Hl; subst w.
        exists c. split; [left | split; [exact Heq | exact Hc]].
      * rewrite lookup_insert_ne in Hl by exact Hne.
        destruct (IH Hl) as (c' & Hc' & Hren & Hv).
        exists c'. split; [right; exact Hc' | split; assumption].
    + destruct (IH Hl) as (c' & Hc' & Hren & Hv).
      exists c'. split; [right; exact Hc' | split; assumption].
Qed.

Lemma rename_row_lookup (m : list (string * string)) (cs : list string) (r : row)
    (c : string) :
  NoDup (map (rename_label m) cs) -> c ∈ cs ->
  rename_row m cs r !! rename_label m c = r !! c.
Proof.
  intros Hnd Hc.
  destruct (rename_row m cs r !! rename_label m c) as [v|] eqn:Hl.
  - destruct (rename_row_bound _ _ _ _ _ Hl) as (c' & Hc' & Hren & Hv).
    rewrite <- (fmap_injective_on _ _ _ _ Hnd Hc' Hc Hren). symmetry. exact Hv.
  - destruct (r !! c) as [v|] eqn:Hv; [| reflexivity]. exfalso.
    clear Hnd. revert Hl. unfold rename_row.
    induction cs as [|c0 cs IH]; simpl.
    + apply elem_of_nil in Hc. contradiction.
    + apply elem_of_cons in Hc. destruct Hc as [<-|Hc].
      * rewrite Hv, lookup_insert_eq. discriminate.
      * destruct (r !! c0) as [w|].
        -- destruct (decide (rename_label m c0 = rename_label m c)) as [Heq|Hne].
           ++ rewrite Heq, lookup_insert_eq. discriminate.
           ++ rewrite lookup_insert_ne by exact Hne. apply (IH Hc).
        -- apply (IH Hc).
Qed.

(** X1: renaming keeps the number of rows and the order of the labels; a label
    that the mapping does not mention keeps its name; and when the new labels
    are pairwise distinct, every cell is found under the new name of its
    label. *)
Theorem rename_columns_carries_cells (x : DataFrame) (column_names : list (string * string)) :
  NoDup (map (rename_label column_names) (columns x)) ->
  length (rows (_rename_columns x column_names)) = length (rows x) /\
  length (columns (_rename_columns x column_names)) = length (columns x) /\
  (forall c, dict_get column_names c = None -> rename_label column_names c = c) /\
  (forall c new, dict_get column_names c = Some new -> rename_label column_names c = new) /\
  Forall2 (fun r r' => forall c, c ∈ columns x ->
                                 r' !! rename_label column_names c = r !! c)
          (rows x) (rows (_rename_columns x column_names)).
Proof.
  intros Hnd. unfold _rename_columns. simpl.
  split; [apply List.length_map|]. split; [apply List.length_map|].
  split; [intros c Hc; unfold rename_label; rewrite Hc; reflexivity|].
  split; [intros c new Hc; unfold rename_label; rewrite Hc; reflexivity|].
  induction (rows x) as [|r rs IH]; simpl; constructor; [| exact IH].
  intros c Hc. apply (rename_row_lookup _ _ _ _ Hnd Hc).
Qed.

Lemma rename_columns_carries_cells_witness :
  Forall2 (fun r r' => forall c, c ∈ columns sample_incidents ->
                                 r' !! rename_label new_incidents_column_names c = r !! c)
          (rows sample_incidents)
          (rows (_rename_columns sample_incidents new_incidents_column_names)).
Proof.
  assert (Hnd : NoDup (map (rename_label new_incidents_column_names)
                           (columns sample_incidents)))
    by (apply (bool_decide_unpack _); vm_compute; exact I).
  destruct (rename_columns_carries_cells sample_incidents new_incidents_column_names Hnd)
    as (_ & _ & _ & _ & Hrows).
  exact Hrows.
Defined.

Lemma require_all_raise (x : DataFrame) (cs : list string) :
  (exists c, c ∈ cs /\ c ∉ columns x) ->
  exists c, require_all x cs = Raise (KeyError c) /\ c ∈ cs /\ c ∉ columns x.
Proof.
  induction cs as [|c0 cs IH]; intros (c & Hc & Hnot).
  - apply elem_of_nil in Hc. contradiction.
  - simpl. unfold require at 1, has_column.
    destruct (bool_decide_reflect (c0 ∈ columns x)) as [Hin|Hnin].
    + simpl. apply elem_of_cons in Hc. destruct Hc as [->|Hc]; [contradiction|].
      destruct IH as (c' & Hr & Hc' & Hn'); [exists c; split; assumption|].
      exists c'. split; [exact Hr | split; [right; exact Hc' | exact Hn']].
    + exists c0. split; [reflexivity | split; [left | exact Hnin]].
Qed.

(** X2: dropping labels succeeds exactly when every label to drop is a label
    of the table, and otherwise raises [KeyError] on a label that is missing.
    On success the dropped labels are gone from the label list and from every
    row, every other label and cell is as before, and no row is lost. *)
Theorem drop_columns_behaviour (x : DataFrame) (column_names : list string) :
  ((forall c, c ∈ column_names -> c ∈ columns x) ->
   exists y, _drop_columns x column_names = Ok y /\
     (forall c, c ∈ columns y <-> c ∈ columns x /\ c ∉ column_names) /\
     Forall2 (fun r r' => forall c, r' !! c = if bool_decide (c ∈ column_names)
                                              then None else r !! c)
             (rows x) (rows y)) /\
  ((exists c, c ∈ column_names /\ c ∉ columns x) ->
   exists c, _drop_columns x column_names = Raise (KeyError c) /\
             c ∈ column_names /\ c ∉ columns x).
Proof.
  split.
  - intros Hall. unfold _drop_columns.
    rewrite (proj2 (require_all_ok x column_names) Hall). simpl.
    eexists. split; [reflexivity|]. simpl. split.
    + intros c. apply elem_of_remove_labels.
    + induction (rows x) as [|r rs IH]; simpl; constructor; [| exact IH].
      intros c. apply lookup_delete_all.
  - intros Hmiss. destruct (require_all_raise _ _ Hmiss) as (c & Hr & Hc & Hn).
    exists c. unfold _drop_columns. rewrite Hr. simpl.
    split; [reflexivity | split; assumption].
Qed.

Lemma drop_columns_behaviour_witness :
  (exists y, _drop_columns sample_renamed ["LONGITUDE"] = Ok y /\
             length (rows y) = 4%nat) /\
  exists c, _drop_columns sample_renamed ["LONGITUDE"; "MTM8_X"] = Raise (KeyError c) /\
            c ∉ columns sample_renamed.
Proof.
  destruct (drop_columns_behaviour sample_renamed ["LONGITUDE"]) as [Hok _].
  destruct (drop_columns_behaviour sample_renamed ["LONGITUDE"; "MTM8_X"]) as [_ Hko].
  split.
  - destruct Hok as (y & Hy & _ & Hrows).
    + intros c Hc. apply list_elem_of_singleton in Hc. subst c. label_notin.
    + exists y. split; [exact Hy|]. apply Forall2_length in Hrows.
      rewrite <- Hrows. reflexivity.
  - destruct Hko as (c & Hc & _ & Hn).
    + exists "MTM8_X". split; label_notin.
    + exists c. split; assumption.
Defined.

(** ** Relabelling values *)

Lemma replace_value_absent (m : list (value * value)) (v : value) :
  (forall k w, (k, w) ∈ m -> py_eqb v k = false) -> replace_value m v = v.
Proof.
  induction m as [|[k w] m IH]; intros Habs; simpl; [reflexivity|].
  rewrite (Habs k w) by left. apply IH. intros k' w' Hin. apply (Habs k' w'). right. exact Hin.
Qed.

(** X3: relabelling leaves a value alone when it equals no key of the mapping,
    a missing value in particular.  With the mapping of [preprocess_incidents]
    the result is never one of the five raw codes, so relabelling twice is
    relabelling once. *)
Theorem rename_incidents_relabels (map_of_values : list (value * value)) (v : value) :
  ((forall k w, (k, w) ∈ map_of_values -> py_eqb v k = false) ->
   replace_value map_of_values v = v) /\
  replace_value map_of_values VNaN = VNaN /\
  (forall k w, (k, w) ∈ map_of_incidents_values ->
     py_eqb (replace_value map_of_incidents_values v) k = false) /\
  replace_value map_of_incidents_values (replace_value map_of_incidents_values v)
    = replace_value map_of_incidents_values v.
Proof.
  split; [apply replace_value_absent|].
  split; [apply replace_value_absent; intros k w _; reflexivity|].
  assert (Hnever : forall k w, (k, w) ∈ map_of_incidents_values ->
            py_eqb (replace_value map_of_incidents_values v) k = false).
  { intros k w Hin. unfold map_of_incidents_values in *. simpl.
    repeat (apply elem_of_cons in Hin; destruct Hin as [Hin|Hin];
            [inversion Hin; subst k w; clear Hin|]);
      try (apply elem_of_nil in Hin; contradiction);
      repeat match goal with
             | |- context [if py_eqb v ?k then _ else _] =>
                 let E := fresh "E" in destruct (py_eqb v k) eqn:E
             end;
      try assumption; vm_compute; reflexivity. }
  split; [exact Hnever|]. apply replace_value_absent. exact Hnever.
Qed.

Lemma rename_incidents_relabels_witness :
  replace_value map_of_incidents_values (VStr "NOUVEAU") = VStr "NOUVEAU".
Proof.
  apply (proj1 (rename_incidents_relabels map_of_incidents_values (VStr "NOUVEAU"))).
  intros k w Hin. unfold map_of_incidents_values in Hin.
  repeat (apply elem_of_cons in Hin; destruct Hin as [Hin|Hin];
          [inversion Hin; subst k w; vm_compute; reflexivity|]).
  apply elem_of_nil in Hin. contradiction.
Defined.

(** ** The rows of the preprocessed incidents *)

(** Where a row of the output of [preprocess_incidents] comes from. *)
Lemma preprocess_incidents_row `{Pandas} (incidents out : DataFrame) (r : row) :
  preprocess_incidents incidents = Ok out -> r ∈ rows out ->
  exists r2 ts n,
    survives outliers_to_drop r2 = true /\
    forallb (fun c => negb (isna (cell r2 c)))
            ["LATITUDE"; "LONGITUDE"; "INCIDENT_CATEGORY"] = true /\
    to_datetime (cell r2 "CREATION_DATE_TIME") = Ok ts /\
    py_eqb (opt_int dt_year ts) (VInt 2024) = false /\
    exists r4, datetime_fields r2 = Ok r4 /\
      r = <["UNITS_DEPLOYED" := VInt n]> (delete_all ["CREATION_DATE_TIME"] r4).
Proof.
  unfold preprocess_incidents. intros Hrun Hr.
  bind_inv Hrun as x0 Hx0. bind_inv Hrun as x1 Ha0. bind_inv Hrun as x2 Ha1.
  bind_inv Hrun as x3 Ha2. bind_inv Hrun as u Ha3. bind_inv Hrun as rs Ha4.
  bind_inv Hrun as x5 Ha5. bind_inv Hrun as a6 Ha6.
  destruct (update_parsed_row _ _ _ _ Hrun Hr) as (r6 & n & Hr6 & ->).
  unfold _remove_incidents_2024 in Ha6. bind_inv Ha6 as u' Hu'. inversion Ha6; subst a6.
  simpl in Hr6. apply elem_of_filter_bool in Hr6. destruct Hr6 as [Hr5 Hyear].
  apply drop_columns_inv in Ha5. destruct Ha5 as (_ & _ & Hrows5). simpl in Hrows5.
  rewrite Hrows5 in Hr5. apply list_elem_of_fmap in Hr5. destruct Hr5 as (r4 & -> & Hr4).
  apply traverse_ok in Ha4. destruct (Forall2_image_r _ _ _ _ Ha4 Hr4) as (r2 & Hr2 & Hdt).
  apply remove_NaN_inv in Ha2. destruct Ha2 as [_ Hrows2]. rewrite Hrows2 in Hr2.
  apply elem_of_filter_bool in Hr2. destruct Hr2 as [Hr1 Hnonnull].
  apply remove_outliers_inv in Ha1. destruct Ha1 as [_ Hrows1]. rewrite Hrows1 in Hr1.
  apply elem_of_filter_bool in Hr1. destruct Hr1 as [_ Hsurv].
  assert (Hts : exists ts, to_datetime (cell r2 "CREATION_DATE_TIME") = Ok ts /\
                           cell r4 "year" = opt_int dt_year ts).
  { pose proof Hdt as Hdt'. unfold datetime_fields in Hdt'. bind_inv Hdt' as ts Hts.
    exists ts. split; [exact Hts|]. inversion Hdt' as [Hr4eq].
    rewrite !cell_insert_ne by discriminate. apply cell_insert_eq. }
  destruct Hts as (ts & Hts & Hcell).
  exists r2, ts, n. split; [exact Hsurv|]. split; [exact Hnonnull|]. split; [exact Hts|].
  split.
  - rewrite cell_delete_all_notin in Hyear by label_notin. rewrite Hcell in Hyear.
    unfold py_neb in Hyear. apply negb_true_iff in Hyear. exact Hyear.
  - exists r4. split; [exact Hdt | reflexivity].
Qed.

Lemma preprocess_incidents_cell `{Pandas} (r2 r4 : row) (n : Z) (c : string) :
  datetime_fields r2 = Ok r4 ->
  c ∉ "UNITS_DEPLOYED" :: "CREATION_DATE_TIME" :: datetime_labels ->
  cell (<["UNITS_DEPLOYED" := VInt n]> (delete_all ["CREATION_DATE_TIME"] r4)) c = cell r2 c.
Proof.
  intros Hdt Hc.
  rewrite cell_insert_ne
    by (intros Heq; apply Hc; subst c; left).
  rewrite cell_delete_all_notin
    by (intros Hin; apply Hc; apply list_elem_of_singleton in Hin; subst c; right; left).
  apply (datetime_fields_keeps _ _ _ Hdt).
  intros Hin. apply Hc. right. right. exact Hin.
Qed.

(** X4: every row of the preprocessed incidents has a latitude, a longitude
    and a category: none of the three is missing. *)
Theorem preprocess_incidents_required_fields `{Pandas}
    (incidents out : DataFrame) (r : row) :
  preprocess_incidents incidents = Ok out -> r ∈ rows out ->
  isna (cell r "LATITUDE") = false /\ isna (cell r "LONGITUDE") = false /\
  isna (cell r "INCIDENT_CATEGORY") = false.
Proof.
  intros Hrun Hr.
  destruct (preprocess_incidents_row _ _ _ Hrun Hr)
    as (r2 & ts & n & _ & Hnonnull & _ & _ & r4 & Hdt & ->).
  rewrite !(preprocess_incidents_cell _ _ _ _ Hdt) by label_notin.
  simpl in Hnonnull. rewrite !andb_true_iff, !negb_true_iff in Hnonnull.
  destruct Hnonnull as (Hlat & Hlon & Hcat & _). split; [| split]; assumption.
Qed.

Lemma sample_preprocessed :
  exists out, @preprocess_incidents sample_pandas sample_incidents = Ok out /\
              length (rows out) = 1%nat.
Proof.
  assert (Hrun : (fun out => length (rows out))
                   <$> @preprocess_incidents sample_pandas sample_incidents = Ok 1%nat)
    by (vm_compute; reflexivity).
  apply fmap_ok in Hrun. destruct Hrun as (out & Hout & Hlen). exists out. split; assumption.
Qed.

Lemma preprocess_incidents_required_fields_witness :
  exists out, @preprocess_incidents sample_pandas sample_incidents = Ok out /\
    forall r, r ∈ rows out -> isna (cell r "INCIDENT_CATEGORY") = false.
Proof.
  destruct sample_preprocessed as (out & Hout & _). exists out. split; [exact Hout|].
  intros r Hr.
  destruct (@preprocess_incidents_required_fields sample_pandas _ _ r Hout Hr)
    as (_ & _ & Hcat).
  exact Hcat.
Defined.

(** ** Integer coercion, case by case *)

Lemma to_numeric_coerce_not_string `{Pandas} (v : value) (s : string) :
  to_numeric_coerce v <> VStr s.
Proof.
  destruct v as [|b|q|neg|x|s0]; simpl; try discriminate.
  destruct (floatify s0) as [[q|neg|]|]; simpl; discriminate.
Qed.

(** One cell through [to_numeric], [fillna(0)] and [astype(int)]. *)
Lemma parse_cell_cases `{Pandas} (v : value) :
  (exists neg, to_numeric_coerce v = VInf neg /\
     astype_int (fillna (VInt 0) (to_numeric_coerce v)) = Raise IntCastingNaNError) \/
  ((forall neg, to_numeric_coerce v <> VInf neg) /\
   exists n, astype_int (fillna (VInt 0) (to_numeric_coerce v)) = Ok (VInt n)).
Proof.
  pose proof (to_numeric_coerce_not_string v) as Hstr.
  destruct (to_numeric_coerce v) as [|b|q|neg|x|s0]; simpl.
  - right. split; [discriminate|]. eexists. reflexivity.
  - right. split; [discriminate|]. eexists. reflexivity.
  - right. split; [discriminate|]. eexists. reflexivity.
  - left. exists neg. split; reflexivity.
  - right. split; [discriminate|]. eexists. reflexivity.
  - exfalso. apply (Hstr s0). reflexivity.
Qed.

(** X7: the integer coercion of a Series succeeds exactly when no value reads
    as an infinity; it then returns one integer per value.  When some value is
    infinite the whole coercion raises [IntCastingNaNError]. *)
Theorem parse_integers_raises_only_on_infinity `{Pandas} (x : list value) :
  ((forall v, v ∈ x -> forall neg, to_numeric_coerce v <> VInf neg) ->
   exists y, _parse_integers x = Ok y /\ length y = length x /\
             forall w, w ∈ y -> exists n, w = VInt n) /\
  ((exists v neg, v ∈ x /\ to_numeric_coerce v = VInf neg) ->
   _parse_integers x = Raise IntCastingNaNError).
Proof.
  rewrite parse_integers_traverse. induction x as [|v x [IHok IHko]]; simpl.
  - split.
    + intros _. exists []. split; [reflexivity | split; [reflexivity|]].
      intros w Hw. apply elem_of_nil in Hw. contradiction.
    + intros (v & neg & Hv & _). apply elem_of_nil in Hv. contradiction.
  - destruct (parse_cell_cases v) as [(neg & Hinf & Hraise) | (Hfin & n & Hok)].
    + rewrite Hraise. simpl. split; [| reflexivity].
      intros Hall. exfalso. apply (Hall v (list_elem_of_here _ _) neg Hinf).
    + rewrite Hok. simpl. split.
      * intros Hall. destruct IHok as (y & Hy & Hlen & Hints).
        { intros v' Hv'. apply Hall. right. exact Hv'. }
        rewrite Hy. simpl. exists (VInt n :: y).
        split; [reflexivity | split; [simpl; rewrite Hlen; reflexivity|]].
        intros w Hw. apply elem_of_cons in Hw. destruct Hw as [->|Hw].
        -- exists n. reflexivity.
        -- apply (Hints w Hw).
      * intros (v' & neg & Hv' & Hinf). apply elem_of_cons in Hv'.
        destruct Hv' as [->|Hv']; [exfalso; apply (Hfin neg Hinf)|].
        rewrite IHko by (exists v', neg; split; assumption). reflexivity.
Qed.

Lemma parse_integers_raises_only_on_infinity_witness :
  (exists y, @_parse_integers sample_pandas [VStr "12"; VStr "n/a"; VNaN; vq 37 10] = Ok y /\
             length y = 4%nat) /\
  @_parse_integers sample_pandas [VStr "12"; VStr "-inf"] = Raise IntCastingNaNError.
Proof.
  destruct (@parse_integers_raises_only_on_infinity sample_pandas
              [VStr "12"; VStr "n/a"; VNaN; vq 37 10]) as [Hok _].
  destruct (@parse_integers_raises_only_on_infinity sample_pandas
              [VStr "12"; VStr "-inf"]) as [_ Hko].
  split.
  - destruct Hok as (y & Hy & Hlen & _).
    + intros v Hv neg.
      repeat (apply elem_of_cons in Hv; destruct Hv as [->|Hv]; [vm_compute; discriminate|]).
      apply elem_of_nil in Hv. contradiction.
    + exists y. split; assumption.
  - apply Hko. exists (VStr "-inf"), true. split; [| reflexivity].
    right. left.
Defined.

Lemma qz_le_l (n : Z) (q : Qc) :
  (qz n ≤ q)%Qc <-> (n * Z.pos (Qden (this q)) <= Qnum (this q))%Z.
Proof.
  unfold Qcle, qz. simpl this. rewrite Qred_correct. unfold Qle. simpl.
  rewrite Z.mul_1_r. reflexivity.
Qed.

Lemma qz_le_r (n : Z) (q : Qc) :
  (q ≤ qz n)%Qc <-> (Qnum (this q) <= n * Z.pos (Qden (this q)))%Z.
Proof.
  unfold Qcle, qz. simpl this. rewrite Qred_correct. unfold Qle. simpl.
  rewrite Z.mul_1_r. reflexivity.
Qed.

Lemma qz_lt_l (n : Z) (q : Qc) :
  (qz n < q)%Qc <-> (n * Z.pos (Qden (this q)) < Qnum (this q))%Z.
Proof.
  unfold Qclt, qz. simpl this. rewrite Qred_correct. unfold Qlt. simpl.
  rewrite Z.mul_1_r. reflexivity.
Qed.

Lemma qz_lt_r (n : Z) (q : Qc) :
  (q < qz n)%Qc <-> (Qnum (this q) < n * Z.pos (Qden (this q)))%Z.
Proof.
  unfold Qclt, qz. simpl this. rewrite Qred_correct. unfold Qlt. simpl.
  rewrite Z.mul_1_r. reflexivity.
Qed.

Lemma quot_bounds (a b : Z) :
  (0 < b)%Z ->
  ((0 <= a)%Z -> (a ÷ b * b <= a)%Z /\ (a < (a ÷ b + 1) * b)%Z) /\
  ((a <= 0)%Z -> ((a ÷ b - 1) * b < a)%Z /\ (a <= a ÷ b * b)%Z).
Proof.
  intros Hb. pose proof (Z.quot_rem' a b) as Hdiv.
  replace ((a ÷ b + 1) * b)%Z with (b * (a ÷ b) + b)%Z by ring.
  replace ((a ÷ b - 1) * b)%Z with (b * (a ÷ b) - b)%Z by ring.
  replace (a ÷ b * b)%Z with (b * (a ÷ b))%Z by ring.
  set (p := (b * (a ÷ b))%Z) in *. clearbody p. split; intros Ha.
  - pose proof (Z.rem_bound_pos a b Ha Hb) as Hrem.
    set (r := Z.rem a b) in *. clearbody r. lia.
  - pose proof (Z.rem_bound_pos_neg a b Hb Ha) as Hrem.
    set (r := Z.rem a b) in *. clearbody r. lia.
Qed.

(** ** Building age and fire flag of the output *)

(** X9: in the output of [create_input_table] the building age is missing on
    every row without an assessment identifier; on a row with one it is the
    current year minus the year of construction, and missing when that year
    is. *)
Theorem building_age_of_output (current_year : Z) (table firestations out : DataFrame)
    (r' : row) :
  create_input_table current_year table firestations = Ok out -> r' ∈ rows out ->
  (isna (cell r' "ASSESSMENT_ID") = true -> cell r' "building_age" = VNaN) /\
  (isna (cell r' "ASSESSMENT_ID") = false ->
   (forall y, cell r' "YEAR_CONSTRUCTION" = VInt y ->
              cell r' "building_age" = VInt (current_year - y)) /\
   (cell r' "YEAR_CONSTRUCTION" = VNaN -> cell r' "building_age" = VNaN)).
Proof.
  intros Hrun Hin.
  destruct (elem_of_output _ _ _ _ _ Hrun Hin) as (stations & r & _ & _ & Hr').
  assert (Hid : cell r' "ASSESSMENT_ID" = cell r "ASSESSMENT_ID")
    by (apply cell_of_lookup, (output_rows_frame _ _ _ _ _ _ Hr'); label_notin).
  assert (Hyear : cell r' "YEAR_CONSTRUCTION" = cell r "YEAR_CONSTRUCTION")
    by (apply cell_of_lookup, (output_rows_frame _ _ _ _ _ _ Hr'); label_notin).
  rewrite (output_rows_building_age _ _ _ _ _ Hr'), Hid, Hyear. unfold age_cell.
  split.
  - intros Hna. rewrite Hna.
    destruct (_calculate_building_age current_year (cell r "YEAR_CONSTRUCTION"));
      reflexivity.
  - intros Hna. rewrite Hna. split.
    + intros y Hy. rewrite Hy, calculate_building_age_int. reflexivity.
    + intros Hy. rewrite Hy. reflexivity.
Qed.

Lemma building_age_of_output_witness :
  exists out r',
    create_input_table 2026 sample_merged sample_firestations = Ok out /\
    r' ∈ rows out /\ isna (cell r' "ASSESSMENT_ID") = true /\
    cell r' "building_age" = VNaN.
Proof.
  destruct sample_run as [out Hrun].
  destruct (output_of_elem _ _ _ _
              (mk_row [("LATITUDE", vq 4556 100); ("LONGITUDE", vq (-7360) 100);
                       ("FIRE_STATION_ID", VInt 9);
                       ("grid_long", vq (-7375) 100); ("grid_lat", vq 4555 100);
                       ("DGUID", VStr "2021S0512")]) Hrun) as (r' & Hin & Hframe).
  { apply (bool_decide_unpack _). vm_compute. exact I. }
  assert (Hna : isna (cell r' "ASSESSMENT_ID") = true).
  { unfold cell. rewrite Hframe by label_notin. reflexivity. }
  exists out, r'. split; [exact Hrun|]. split; [exact Hin|]. split; [exact Hna|].
  apply (proj1 (building_age_of_output 2026 _ _ _ r' Hrun Hin) Hna).
Defined.

(** X10: the fire flag of an output row is always a Boolean, never missing: it
    is [False] on a row without a category, [True] on the category
    ['Autres incendies'], and [True] only on a category listed in
    [fire_categories]. *)
Theorem is_fire_is_boolean (current_year : Z) (table firestations out : DataFrame)
    (r' : row) :
  create_input_table current_year table firestations = Ok out -> r' ∈ rows out ->
  (exists b, cell r' "is_fire" = VBool b) /\
  (isna (cell r' "INCIDENT_CATEGORY") = true -> cell r' "is_fire" = VBool false) /\
  (cell r' "INCIDENT_CATEGORY" = VStr "Autres incendies" ->
   cell r' "is_fire" = VBool true) /\
  (cell r' "is_fire" = VBool true ->
   exists f, f ∈ fire_categories /\ cell r' "INCIDENT_CATEGORY" = f).
Proof.
  intros Hrun Hin. rewrite (is_fire_of_output _ _ _ _ _ Hrun Hin).
  split; [eexists; reflexivity|]. split; [| split].
  - destruct (cell r' "INCIDENT_CATEGORY"); try discriminate. intros _. reflexivity.
  - intros ->. reflexivity.
  - intros Htrue.
    assert (Hex : existsb (same_key (cell r' "INCIDENT_CATEGORY")) fire_categories = true)
      by (injection Htrue as Hex; exact Hex).
    apply existsb_exists in Hex. destruct Hex as (f & Hf & Hkey).
    apply list_elem_of_In in Hf. exists f. split; [exact Hf|].
    unfold same_key in Hkey. apply bool_decide_eq_true_1 in Hkey.
    unfold fire_categories in Hf.
    repeat (apply elem_of_cons in Hf; destruct Hf as [->|Hf]);
      try (apply elem_of_nil in Hf; contradiction);
      destruct (cell r' "INCIDENT_CATEGORY") as [|[|]| | | |]; simpl in Hkey;
      try discriminate Hkey; exact Hkey.
Qed.

Lemma is_fire_is_boolean_witness :
  exists out r',
    create_input_table 2026 sample_merged sample_firestations = Ok out /\
    r' ∈ rows out /\ cell r' "is_fire" = VBool false.
Proof.
  destruct sample_run as [out Hrun].
  destruct (output_of_elem _ _ _ _
              (mk_row [("LATITUDE", vq 4556 100); ("LONGITUDE", vq (-7360) 100);
                       ("FIRE_STATION_ID", VInt 9);
                       ("grid_long", vq (-7375) 100); ("grid_lat", vq 4555 100);
                       ("DGUID", VStr "2021S0512")]) Hrun) as (r' & Hin & Hframe).
  { apply (bool_decide_unpack _). vm_compute. exact I. }
  exists out, r'. split; [exact Hrun|]. split; [exact Hin|].
  destruct (is_fire_is_boolean 2026 _ _ _ r' Hrun Hin) as (_ & Hnull & _).
  apply Hnull. unfold cell. rewrite Hframe by label_notin. reflexivity.
Defined.

(** ** How many rows come out *)

Lemma flat_map_length_ge {A B : Type} (f : A -> list B) (l : list A) :
  (forall a, a ∈ l -> (1 <= length (f a))%nat) ->
  (length l <= length (flat_map f l))%nat.
Proof.
  induction l as [|a l IH]; intros Hf; simpl; [lia|].
  rewrite List.length_app.
  pose proof (Hf a (list_elem_of_here _ _)).
  assert (length l <= length (flat_map f l))%nat
    by (apply IH; intros a' Ha'; apply Hf; right; exact Ha').
  lia.
Qed.

Lemma flat_map_length_eq {A B : Type} (f : A -> list B) (l : list A) :
  (forall a, a ∈ l -> length (f a) = 1%nat) -> length (flat_map f l) = length l.
Proof.
  induction l as [|a l IH]; intros Hf; simpl; [reflexivity|].
  rewrite List.length_app, (Hf a (list_elem_of_here _ _)), IH; [reflexivity|].
  intros a' Ha'. apply Hf. right. exact Ha'.
Qed.

Lemma filter_unique_key {A B : Type} `{EqDecision B} (f : A -> B) (k : B) (l : list A) :
  NoDup (map f l) ->
  (length (List.filter (fun a => bool_decide (k = f a)) l) <= 1)%nat.
Proof.
  induction l as [|a l IH]; intros Hnd; simpl; [lia|].
  inversion Hnd as [|? ? Ha Hnd']; subst.
  destruct (bool_decide_reflect (k = f a)) as [->|Hne]; simpl; [| apply (IH Hnd')].
  assert (Hnone : List.filter (fun a0 => bool_decide (f a = f a0)) l = []).
  { clear IH Hnd Hnd'. induction l as [|b l IHl]; simpl; [reflexivity|].
    destruct (bool_decide_reflect (f a = f b)) as [Heq|Hneq].
    - exfalso. apply Ha. rewrite Heq. left.
    - apply IHl. intros Hin. apply Ha. right. exact Hin. }
  rewrite Hnone. simpl. lia.
Qed.

Lemma join_row_length (cs : list string) (stations : DataFrame) (l : row) :
  (1 <= length (join_row cs stations "FIRE_STATION_ID" "_firestation"
                         ["LATITUDE"; "LONGITUDE"] l))%nat /\
  (NoDup (map station_key (rows stations)) ->
   length (join_row cs stations "FIRE_STATION_ID" "_firestation"
                    ["LATITUDE"; "LONGITUDE"] l) = 1%nat).
Proof.
  unfold join_row.
  pose proof (filter_unique_key station_key (norm (cell l "FIRE_STATION_ID"))
                (rows stations)) as Huniq.
  unfold station_key in Huniq. unfold same_key.
  destruct (List.filter _ (rows stations)) as [|m ms]; simpl.
  - split; [lia | reflexivity].
  - rewrite List.length_map. split; [lia|].
    intros Hnd. specialize (Huniq Hnd). simpl in Huniq. lia.
Qed.

(** X11: the left join never loses a row: the output has at least as many rows
    as the merged table, and exactly as many when no two fire stations share
    an identifier. *)
Theorem create_input_table_row_count
    (current_year : Z) (table firestations out : DataFrame) :
  create_input_table current_year table firestations = Ok out ->
  (length (rows table) <= length (rows out))%nat /\
  (NoDup (map station_key (rows firestations)) ->
   length (rows out) = length (rows table)).
Proof.
  intros Hrun. apply create_input_table_inv in Hrun.
  destruct Hrun as (stations & Hst & _ & Hrows & _). rewrite Hrows.
  destruct (select_inv _ _ _ Hst) as (_ & _ & Hsrows).
  split.
  - apply flat_map_length_ge. intros r _. unfold output_rows. rewrite List.length_map.
    apply join_row_length.
  - intros Hnd. apply flat_map_length_eq. intros r _. unfold output_rows.
    rewrite List.length_map. apply join_row_length.
    rewrite Hsrows, List.map_map.
    erewrite List.map_ext; [exact Hnd|].
    intros m. unfold station_key. rewrite project_row_cell by label_notin. reflexivity.
Qed.

Lemma create_input_table_row_count_witness :
  exists out,
    create_input_table 2026 sample_merged sample_firestations = Ok out /\
    length (rows out) = 4%nat.
Proof.
  destruct sample_run as [out Hrun]. exists out. split; [exact Hrun|].
  destruct (create_input_table_row_count 2026 _ _ _ Hrun) as [_ Heq].
  rewrite Heq; [reflexivity|].
  apply (bool_decide_unpack _). vm_compute. exact I.
Defined.

(** ** Concatenating the three layers *)

Lemma concat_labelled (x y : DataFrame) :
  labelled x -> labelled y -> labelled (concat x y).
Proof.
  intros Hx Hy r Hr c Hc. unfold concat in *. simpl in *.
  apply elem_of_app in Hr. apply elem_of_app.
  destruct Hr as [Hr|Hr].
  - left. apply (Hx r Hr c Hc).
  - destruct (decide (c ∈ columns x)) as [Hin|Hnin]; [left; exact Hin|].
    right. apply elem_of_remove_labels. split; [apply (Hy r Hr c Hc) | exact Hnin].
Qed.

Lemma labelled_missing (x : DataFrame) (r : row) (c : string) :
  labelled x -> r ∈ rows x -> c ∉ columns x -> cell r c = VNaN.
Proof.
  intros Hx Hr Hc. unfold cell. destruct (r !! c) as [v|] eqn:Hv; [| reflexivity].
  exfalso. apply Hc. apply (Hx r Hr c). exists v. exact Hv.
Qed.

(** X12: the merged table holds the rows of the incidents, then those of the
    assessments, then those of the census, under the union of their labels;
    a row reads as missing under every label that its own source does not
    have.  So after [create_input_table] a row of a source without
    [INCIDENT_CATEGORY] is flagged [False], and a row of a source without
    [ASSESSMENT_ID] has no building age. *)
Theorem merged_rows_keep_their_provenance
    (current_year : Z) (incidents assessments census firestations out : DataFrame) :
  let merged := merge_incidents_property_assessments_census
                  (merge_incidents_property_assessments incidents assessments) census in
  labelled incidents -> labelled assessments -> labelled census ->
  create_input_table current_year merged firestations = Ok out ->
  rows merged = (rows incidents ++ rows assessments ++ rows census)%list /\
  (forall c, c ∈ columns merged <->
             c ∈ columns incidents \/ c ∈ columns assessments \/ c ∈ columns census) /\
  labelled merged /\
  forall source r,
    source ∈ [incidents; assessments; census] -> r ∈ rows source ->
    exists r', r' ∈ rows out /\ (forall c, c ∉ touched_labels -> r' !! c = r !! c) /\
      ("INCIDENT_CATEGORY" ∉ columns source -> cell r' "is_fire" = VBool false) /\
      ("ASSESSMENT_ID" ∉ columns source -> cell r' "building_age" = VNaN).
Proof.
  intros merged Hli Hla Hlc Hrun.
  assert (Hrows : rows merged = (rows incidents ++ rows assessments ++ rows census)%list).
  { unfold merged, merge_incidents_property_assessments_census,
      merge_incidents_property_assessments, concat. simpl.
    rewrite <- List.app_assoc. reflexivity. }
  split; [exact Hrows|]. split; [| split].
  - intros c. unfold merged, merge_incidents_property_assessments_census,
      merge_incidents_property_assessments, concat. simpl.
    rewrite !elem_of_app, !elem_of_remove_labels, elem_of_app, elem_of_remove_labels.
    destruct (decide (c ∈ columns incidents)); destruct (decide (c ∈ columns assessments));
      tauto.
  - apply concat_labelled; [apply concat_labelled|]; assumption.
  - intros source r Hsource Hr.
    assert (Hsrc : labelled source /\ r ∈ rows merged).
    { rewrite Hrows, !elem_of_app.
      repeat (apply elem_of_cons in Hsource; destruct Hsource as [->|Hsource]);
        try (apply elem_of_nil in Hsource; contradiction); split; auto. }
    destruct Hsrc as [Hls Hrm].
    destruct (output_of_elem _ _ _ _ _ Hrun Hrm) as (r' & Hin & Hframe).
    exists r'. split; [exact Hin|]. split; [exact Hframe|]. split.
    + intros Hno. rewrite (is_fire_of_output _ _ _ _ _ Hrun Hin).
      rewrite (cell_of_lookup r r') by (apply Hframe; label_notin).
      rewrite (labelled_missing _ _ _ Hls Hr Hno). reflexivity.
    + intros Hno.
      destruct (elem_of_output _ _ _ _ _ Hrun Hin) as (stations & r0 & _ & _ & Hr').
      rewrite (output_rows_building_age _ _ _ _ _ Hr').
      assert (Hid : cell r0 "ASSESSMENT_ID" = VNaN).
      { rewrite <- (cell_of_lookup r0 r')
          by (apply (output_rows_frame _ _ _ _ _ _ Hr'); label_notin).
        rewrite (cell_of_lookup r r') by (apply Hframe; label_notin).
        apply (labelled_missing _ _ _ Hls Hr Hno). }
      unfold age_cell. rewrite Hid.
      destruct (_calculate_building_age current_year (cell r0 "YEAR_CONSTRUCTION"));
        reflexivity.
Qed.

Lemma labelledb_sound (x : DataFrame) : labelledb x = true -> labelled x.
Proof.
  unfold labelledb, labelled. intros Hall r Hr c [v Hv].
  rewrite forallb_forall in Hall. specialize (Hall r (proj1 (list_elem_of_In _ _) Hr)).
  rewrite forallb_forall in Hall.
  assert (Hin : (c, v) ∈ map_to_list r) by (apply elem_of_map_to_list; exact Hv).
  specialize (Hall (c, v) (proj1 (list_elem_of_In _ _) Hin)).
  apply bool_decide_eq_true_1 in Hall. exact Hall.
Qed.

Lemma sample_joined_run :
  exists out,
    create_input_table 2026
      (merge_incidents_property_assessments_census
         (merge_incidents_property_assessments sample_joined_incidents
            sample_joined_assessments) sample_joined_census)
      sample_firestations = Ok out.
Proof.
  assert (Hrun : (fun _ => tt) <$>
                   create_input_table 2026
                     (merge_incidents_property_assessments_census
                        (merge_incidents_property_assessments sample_joined_incidents
                           sample_joined_assessments) sample_joined_census)
                     sample_firestations = Ok tt) by (vm_compute; reflexivity).
  apply fmap_ok in Hrun. destruct Hrun as (out & Hout & _). exists out. exact Hout.
Qed.

Lemma merged_rows_keep_their_provenance_witness :
  exists out r',
    create_input_table 2026
      (merge_incidents_property_assessments_census
         (merge_incidents_property_assessments sample_joined_incidents
            sample_joined_assessments) sample_joined_census)
      sample_firestations = Ok out /\
    r' ∈ rows out /\ r' !! "DGUID" = Some (VStr "2021S0512") /\
    cell r' "is_fire" = VBool false /\ cell r' "building_age" = VNaN.
Proof.
  destruct sample_joined_run as [out Hrun].
  destruct (merged_rows_keep_their_provenance 2026 sample_joined_incidents
              sample_joined_assessments sample_joined_census sample_firestations out)
    as (_ & _ & _ & Hsrc).
  - apply labelledb_sound. vm_compute. reflexivity.
  - apply labelledb_sound. vm_compute. reflexivity.
  - apply labelledb_sound. vm_compute. reflexivity.
  - exact Hrun.
  - destruct (Hsrc sample_joined_census
                (mk_row [("DGUID", VStr "2021S0512"); ("LATITUDE", vq 4556 100);
                         ("LONGITUDE", vq (-7360) 100); ("FIRE_STATION_ID", VInt 9);
                         ("grid_long", vq (-7375) 100); ("grid_lat", vq 4555 100)]))
      as (r' & Hin & Hframe & Hfire & Hage).
    + right. right. left.
    + left.
    + exists out, r'. split; [exact Hrun|]. split; [exact Hin|]. split; [| split].
      * rewrite Hframe by label_notin. reflexivity.
      * apply Hfire. label_notin.
      * apply Hage. label_notin.
Defined.

(** ** The haversine formula *)

Section Haversine.
Local Open Scope R_scope.

Lemma sin_half_sqr_sym (x y : R) :
  sin (np_radians (x - y) / 2) ^ 2 = sin (np_radians (y - x) / 2) ^ 2.
Proof.
  replace (np_radians (x - y) / 2) with (- (np_radians (y - x) / 2))
    by (unfold np_radians; lra).
  rewrite sin_neg. ring.
Qed.

(** X13: the distance of a point to itself is zero, and the distance between
    two points does not depend on the order in which they are given. *)
Theorem haversine_zero_and_symmetric (lat1 lon1 lat2 lon2 : R) :
  _haversine_distance lat1 lon1 lat1 lon1 = 0 /\
  _haversine_distance lat1 lon1 lat2 lon2 = _haversine_distance lat2 lon2 lat1 lon1.
Proof.
  split.
  - unfold _haversine_distance. cbv zeta.
    replace (np_radians (lat1 - lat1) / 2) with 0 by (unfold np_radians; lra).
    replace (np_radians (lon1 - lon1) / 2) with 0 by (unfold np_radians; lra).
    rewrite sin_0.
    replace (0 ^ 2 + cos (np_radians lat1) * cos (np_radians lat1) * 0 ^ 2) with 0 by ring.
    rewrite Rminus_0_r, sqrt_0, sqrt_1. unfold np_arctan2.
    destruct (Rlt_dec 0 1) as [_|Hn]; [| lra].
    unfold Rdiv. rewrite Rmult_0_l, atan_0. ring.
  - unfold _haversine_distance. cbv zeta.
    rewrite (sin_half_sqr_sym lat2 lat1), (sin_half_sqr_sym lon2 lon1).
    rewrite (Rmult_comm (cos (np_radians lat1)) (cos (np_radians lat2))). reflexivity.
Qed.

Lemma sqrt_sqr_abs (x : R) : sqrt (x ^ 2) = Rabs x.
Proof.
  replace (x ^ 2) with (Rsqr x) by (unfold Rsqr; ring). apply sqrt_Rsqr_abs.
Qed.

(** X14: between two points of one meridian, whose latitudes differ by at most
    180 degrees, the distance is the arc of the meridian: 6371 times the
    difference of the latitudes in radians. *)
Theorem haversine_along_meridian (lat1 lat2 lon : R) :
  -180 <= lat2 - lat1 <= 180 ->
  _haversine_distance lat1 lon lat2 lon = 6371 * Rabs (np_radians (lat2 - lat1)).
Proof.
  intros Hrange. unfold _haversine_distance. cbv zeta.
  set (h := np_radians (lat2 - lat1) / 2).
  assert (Hh : - (PI / 2) <= h <= PI / 2).
  { unfold h, np_radians. pose proof PI_RGT_0. split; nra. }
  replace (np_radians (lon - lon) / 2) with 0 by (unfold np_radians; lra).
  rewrite sin_0.
  replace (sin h ^ 2 + cos (np_radians lat1) * cos (np_radians lat2) * 0 ^ 2)
    with (sin h ^ 2) by ring.
  replace (1 - sin h ^ 2) with (cos h ^ 2)
    by (pose proof (sin2_cos2 h) as Hsc; unfold Rsqr in Hsc; lra).
  rewrite !sqrt_sqr_abs.
  replace (np_radians (lat2 - lat1)) with (2 * h) by (unfold h; lra).
  rewrite Rabs_mult, (Rabs_pos_eq 2) by lra.
  f_equal. f_equal.
  assert (Hcos : 0 <= cos h) by (apply cos_ge_0; lra).
  rewrite (Rabs_pos_eq (cos h)) by exact Hcos.
  assert (Hsin : Rabs (sin h) = sin (Rabs h)).
  { destruct (Rle_dec 0 h) as [Hpos|Hneg].
    - rewrite (Rabs_pos_eq h) by exact Hpos. apply Rabs_pos_eq.
      apply sin_ge_0; [exact Hpos|]. pose proof PI_RGT_0. lra.
    - rewrite (Rabs_left h) by lra. rewrite sin_neg. apply Rabs_left.
      apply sin_lt_0_var; [| lra]. pose proof PI_RGT_0. lra. }
  assert (Hcosabs : cos h = cos (Rabs h)).
  { destruct (Rle_dec 0 h) as [Hpos|Hneg].
    - rewrite (Rabs_pos_eq h) by exact Hpos. reflexivity.
    - rewrite (Rabs_left h) by lra. rewrite cos_neg. reflexivity. }
  rewrite Hsin, Hcosabs.
  assert (Habs : 0 <= Rabs h <= PI / 2).
  { split; [apply Rabs_pos|]. apply Rabs_le. lra. }
  set (k := Rabs h) in *. clearbody k.
  unfold np_arctan2.
  destruct (Rlt_dec 0 (cos k)) as [Hpos|Hzero].
  - assert (Hk : k < PI / 2).
    { destruct (Rle_lt_or_eq_dec _ _ (proj2 Habs)) as [Hlt|Heq]; [exact Hlt|].
      rewrite Heq, cos_PI2 in Hpos. lra. }
    change (sin k / cos k) with (tan k). apply atan_tan. lra.
  - assert (Hck : 0 <= cos k) by (apply cos_ge_0; lra).
    assert (Hc0 : cos k = 0) by lra.
    destruct (Rlt_dec (cos k) 0) as [Hneg|_]; [lra|].
    assert (Hk : k = PI / 2).
    { destruct (Rle_lt_or_eq_dec _ _ (proj2 Habs)) as [Hlt|Heq]; [| exact Heq].
      exfalso. assert (0 < cos k) by (apply cos_gt_0; lra). lra. }
    rewrite Hk, sin_PI2. destruct (Rlt_dec 0 1) as [_|Hn]; [symmetry; reflexivity | lra].
Qed.

Lemma haversine_along_meridian_witness :
  _haversine_distance 45 (-73) 46 (-73) = 6371 * Rabs (np_radians (46 - 45)).
Proof.
  apply (haversine_along_meridian 45 46 (-73)). lra.
Defined.

End Haversine.

(** ** Duplicates and the spatial joins *)

Lemma keep_first_keys {G : Type} (subset : list string) (l : list (row * G))
    (seen : list (list value)) :
  NoDup (map (fun rg => key_of subset (fst rg)) (keep_first subset seen l)) /\
  forall rg, rg ∈ keep_first subset seen l -> key_of subset (fst rg) ∉ seen.
Proof.
  revert seen. induction l as [|a l IH]; intros seen; simpl.
  - split; [constructor|]. intros rg Hin. apply elem_of_nil in Hin. contradiction.
  - destruct (bool_decide_reflect (key_of subset a.1 ∈ seen)) as [Hseen|Hnew].
    + apply IH.
    + destruct (IH (key_of subset a.1 :: seen)) as [Hnd Hout]. split.
      * simpl. constructor; [| exact Hnd].
        intros Hin. apply list_elem_of_fmap in Hin. destruct Hin as (rg & Hkey & Hrg).
        apply (Hout rg Hrg). rewrite <- Hkey. left.
      * intros rg Hin. apply elem_of_cons in Hin. destruct Hin as [->|Hin]; [exact Hnew|].
        intros Hs. apply (Hout rg Hin). right. exact Hs.
Qed.

Lemma keep_first_fixed {G : Type} (subset : list string) (l : list (row * G))
    (seen : list (list value)) :
  NoDup (map (fun rg => key_of subset (fst rg)) l) ->
  (forall rg, rg ∈ l -> key_of subset (fst rg) ∉ seen) ->
  keep_first subset seen l = l.
Proof.
  revert seen. induction l as [|a l IH]; intros seen Hnd Hout; simpl; [reflexivity|].
  simpl in Hnd. inversion Hnd as [|? ? Ha Hnd']; subst.
  rewrite bool_decide_eq_false_2 by (apply Hout; left).
  f_equal. apply IH; [exact Hnd'|].
  intros rg Hrg Hin. apply elem_of_cons in Hin. destruct Hin as [Heq|Hin].
  - apply Ha. rewrite <- Heq. apply list_elem_of_fmap. exists rg. split; [reflexivity | exact Hrg].
  - apply (Hout rg); [right; exact Hrg | exact Hin].
Qed.

Lemma keep_first_sublist {G : Type} (subset : list string) (l : list (row * G))
    (seen : list (list value)) :
  keep_first subset seen l `sublist_of` l.
Proof.
  revert seen. induction l as [|a l IH]; intros seen; simpl; [constructor|].
  destruct (bool_decide (key_of subset a.1 ∈ seen)).
  - apply sublist_cons, IH.
  - apply sublist_skip, IH.
Qed.

Lemma grequire_all_raise {G : Type} (x : GeoDataFrame G) (cs : list string) :
  (exists c, c ∈ cs /\ c ∉ gcolumns x) ->
  exists c, grequire_all x cs = Raise (KeyError c) /\ c ∈ cs /\ c ∉ gcolumns x.
Proof.
  induction cs as [|c0 cs IH]; intros (c & Hc & Hnot).
  - apply elem_of_nil in Hc. contradiction.
  - simpl. destruct (bool_decide_reflect (c0 ∈ gcolumns x)) as [Hin|Hnin].
    + apply elem_of_cons in Hc. destruct Hc as [->|Hc]; [contradiction|].
      destruct IH as (c' & Hr & Hc' & Hn'); [exists c; split; assumption|].
      exists c'. split; [exact Hr | split; [right; exact Hc' | exact Hn']].
    + exists c0. split; [reflexivity | split; [left | exact Hnin]].
Qed.

Lemma grequire_all_inv {G : Type} (x : GeoDataFrame G) (cs : list string) (u : unit) :
  grequire_all x cs = Ok u -> forall c, c ∈ cs -> c ∈ gcolumns x.
Proof.
  induction cs as [|c0 cs IH]; simpl; intros Hrun c Hc.
  - apply elem_of_nil in Hc. contradiction.
  - destruct (bool_decide_reflect (c0 ∈ gcolumns x)) as [Hin|Hnin]; [| discriminate Hrun].
    apply elem_of_cons in Hc. destruct Hc as [->|Hc]; [exact Hin | apply (IH Hrun c Hc)].
Qed.

Lemma remove_duplicates_inv {G : Type} (x y : GeoDataFrame G) (subset : list string) :
  _remove_duplicates x subset = Ok y ->
  (forall c, c ∈ subset -> c ∈ gcolumns x) /\
  gcolumns y = gcolumns x /\ grows y = keep_first subset [] (grows x).
Proof.
  unfold _remove_duplicates. intros Hrun. bind_inv Hrun as u Hu.
  inversion Hrun; subst y. simpl.
  split; [apply (grequire_all_inv _ _ _ Hu) | split; reflexivity].
Qed.

(** X15: removing duplicates raises [KeyError] when a label of the subset is
    not a label of the table.  Otherwise it keeps the labels, returns rows of
    the table in their order, no two of them with the same key, and changes
    nothing when it is applied again. *)
Theorem remove_duplicates_unique_keys {G : Type} (x : GeoDataFrame G)
    (subset : list string) :
  ((exists c, c ∈ subset /\ c ∉ gcolumns x) ->
   exists c, _remove_duplicates x subset = Raise (KeyError c) /\
             c ∈ subset /\ c ∉ gcolumns x) /\
  (forall y, _remove_duplicates x subset = Ok y ->
     gcolumns y = gcolumns x /\
     grows y `sublist_of` grows x /\
     NoDup (map (fun rg => key_of subset (fst rg)) (grows y)) /\
     _remove_duplicates y subset = Ok y).
Proof.
  split.
  - intros Hmiss. destruct (grequire_all_raise _ _ Hmiss) as (c & Hr & Hc & Hn).
    exists c. unfold _remove_duplicates. rewrite Hr. simpl.
    split; [reflexivity | split; assumption].
  - intros y Hrun. destruct (remove_duplicates_inv _ _ _ Hrun) as (Hcs & Hcols & Hrows).
    destruct (keep_first_keys subset (grows x) []) as [Hnd Hout].
    split; [exact Hcols|]. rewrite Hrows.
    split; [apply keep_first_sublist|]. split; [exact Hnd|].
    unfold _remove_duplicates.
    rewrite grequire_all_ok by (rewrite Hcols; exact Hcs). simpl.
    rewrite Hrows, (keep_first_fixed _ _ _ Hnd Hout). destruct y. simpl in *.
    subst. reflexivity.
Qed.

Lemma remove_duplicates_unique_keys_witness :
  exists c, _remove_duplicates sample_mesh ["INCIDENT_ID"] = Raise (KeyError c) /\
            c ∉ gcolumns sample_mesh.
Proof.
  destruct (remove_duplicates_unique_keys sample_mesh ["INCIDENT_ID"]) as [Hko _].
  destruct Hko as (c & Hc & _ & Hn).
  - exists "INCIDENT_ID". split; label_notin.
  - exists c. split; assumption.
Defined.

Lemma NoDup_singletons {A : Type} (l : list A) :
  NoDup (map (fun a => [a]) l) -> NoDup l.
Proof.
  induction l as [|a l IH]; simpl; intros Hnd; [constructor|].
  inversion Hnd as [|? ? Ha Hnd']; subst. constructor; [| apply (IH Hnd')].
  intros Hin. apply Ha. apply list_elem_of_fmap. exists a. split; [reflexivity | exact Hin].
Qed.

(** X16: a spatial join returns at most one row for each value of its key: the
    rows of the output are rows of the [sjoin] of the points with the mesh, in
    their order, under the labels of that [sjoin], and no two of them have the
    same key.  The key is a label of the output. *)
Theorem spatial_join_one_row_per_key `{Geopandas} (key : string) (x : DataFrame)
    (mesh : GeoDataFrame geometry) (out : DataFrame) :
  spatial_join key x mesh = Ok out ->
  exists points,
    with_points x = Ok points /\
    map fst (grows points) = rows x /\
    columns out = gcolumns (_spatial_join_points points mesh "mesh") /\
    key ∈ columns out /\
    rows out `sublist_of` map fst (grows (_spatial_join_points points mesh "mesh")) /\
    NoDup (map (fun r => norm (cell r key)) (rows out)).
Proof.
  unfold spatial_join. intros Hrun. bind_inv Hrun as points Hpoints.
  bind_inv Hrun as grid Hgrid. inversion Hrun; subst out. clear Hrun.
  unfold _intersect_mesh in Hgrid.
  destruct (remove_duplicates_inv _ _ _ Hgrid) as (Hkey & Hcols & Hrows).
  assert (Hsub : grows grid `sublist_of` grows (_spatial_join_points points mesh "mesh"))
    by (rewrite Hrows; apply keep_first_sublist).
  assert (Hnd : NoDup (map (fun rg => key_of [key] (fst rg)) (grows grid)))
    by (rewrite Hrows; apply keep_first_keys).
  exists points. split; [exact Hpoints|]. split.
  - unfold with_points in Hpoints. bind_inv Hpoints as u1 Hu1. bind_inv Hpoints as u2 Hu2.
    inversion Hpoints. simpl. rewrite List.map_map. simpl. apply List.map_id.
  - unfold drop_geometry. simpl. split; [exact Hcols|].
    split; [rewrite Hcols; apply Hkey; left|].
    split; [apply (fmap_sublist fst _ _ Hsub)|].
    rewrite List.map_map. apply NoDup_singletons. rewrite List.map_map.
    exact Hnd.
Qed.

Lemma sample_spatial_join :
  exists out,
    @spatial_join sample_geopandas "INCIDENT_ID" sample_located sample_mesh = Ok out.
Proof.
  assert (Hrun : (fun _ => tt) <$>
                   @spatial_join sample_geopandas "INCIDENT_ID" sample_located sample_mesh
                 = Ok tt) by (vm_compute; reflexivity).
  apply fmap_ok in Hrun. destruct Hrun as (out & Hout & _). exists out. exact Hout.
Qed.

Lemma spatial_join_one_row_per_key_witness :
  exists out,
    @spatial_join sample_geopandas "INCIDENT_ID" sample_located sample_mesh = Ok out /\
    NoDup (map (fun r => norm (cell r "INCIDENT_ID")) (rows out)).
Proof.
  destruct sample_spatial_join as [out Hout]. exists out. split; [exact Hout|].
  destruct (@spatial_join_one_row_per_key sample_geopandas _ _ _ _ Hout)
    as (points & _ & _ & _ & _ & _ & Hnd).
  exact Hnd.
Defined.

(** ** The census *)

Lemma rename_census_density (c : string) :
  rename_label new_census_column_names c = "POPULATION_DENSITY" ->
  c = "Population density per square kilometre" \/ c = "POPULATION_DENSITY".
Proof.
  unfold rename_label, new_census_column_names. cbn [dict_get].
  repeat (destruct (decide _) as [->|?]; simpl); try discriminate.
  - intros _. left. reflexivity.
  - intros ->. right. reflexivity.
Qed.

Lemma census_coordinates_labels `{Geopandas} (census : GeoDataFrame geometry) (c : string) :
  c ∈ columns (census_coordinates census) <->
  (c ∈ gcolumns census \/ c = "LONGITUDE" \/ c = "LATITUDE") /\ c <> "centroid".
Proof.
  unfold census_coordinates. simpl.
  rewrite elem_of_remove_labels, !elem_of_add_label, list_elem_of_singleton. tauto.
Qed.

(** X17: no census unit with a population density of zero or a population of
    zero is left, and no unit is added.  A unit whose two figures are not zero
    (a missing figure is not zero) is kept, with the coordinates of the
    centroid of its geometry.  A census without a density column raises
    [KeyError]. *)
Theorem preprocess_census_drops_empty_units `{Geopandas}
    (census : GeoDataFrame geometry) :
  (forall out, preprocess_census census = Ok out ->
     (length (rows out) <= length (grows census))%nat /\
     forall r, r ∈ rows out ->
       py_eqb (cell r "POPULATION_DENSITY") (VInt 0) = false /\
       py_eqb (cell r "2021_POPULATION") (VInt 0) = false) /\
  (NoDup (map (rename_label new_census_column_names)
              (columns (census_coordinates census))) ->
   "Population density per square kilometre" ∈ gcolumns census ->
   "Population, 2021" ∈ gcolumns census ->
   forall out rg, preprocess_census census = Ok out -> rg ∈ grows census ->
     py_eqb (cell (fst rg) "Population density per square kilometre") (VInt 0) = false ->
     py_eqb (cell (fst rg) "Population, 2021") (VInt 0) = false ->
     exists r, r ∈ rows out /\
       cell r "POPULATION_DENSITY"
         = cell (fst rg) "Population density per square kilometre" /\
       cell r "2021_POPULATION" = cell (fst rg) "Population, 2021" /\
       cell r "LATITUDE" = fst (centroid_lat_long (snd rg)) /\
       cell r "LONGITUDE" = snd (centroid_lat_long (snd rg))) /\
  ("Population density per square kilometre" ∉ gcolumns census ->
   "POPULATION_DENSITY" ∉ gcolumns census ->
   preprocess_census census = Raise (KeyError "POPULATION_DENSITY")).
Proof.
  split; [| split].
  - intros out Hrun. unfold preprocess_census in Hrun.
    pose proof (remove_outliers_inv _ _ _ Hrun) as [_ Hrows]. split.
    + rewrite Hrows. etransitivity; [apply List.filter_length_le|].
      unfold _rename_columns, census_coordinates. simpl.
      rewrite !List.length_map. reflexivity.
    + intros r Hr. apply (remove_outliers_rows _ _ _ r Hrun) in Hr.
      destruct Hr as [_ Hr]. split; apply Hr; unfold census_outliers_to_drop.
      * left.
      * right. left.
  - intros Hnd Hdensity Hpopulation out rg Hrun Hrg Hd Hp.
    unfold preprocess_census in Hrun.
    set (r0 := delete_all ["centroid"]
                 (<["LATITUDE" := fst (centroid_lat_long (snd rg))]>
                  (<["LONGITUDE" := snd (centroid_lat_long (snd rg))]> (fst rg)))).
    set (r := rename_row new_census_column_names (columns (census_coordinates census)) r0).
    assert (Hcell : forall c, c ∈ columns (census_coordinates census) ->
              cell r (rename_label new_census_column_names c) = cell r0 c).
    { intros c Hc. unfold cell, r. rewrite (rename_row_lookup _ _ _ _ Hnd Hc). reflexivity. }
    assert (Hraw : forall c, c ∉ ["centroid"; "LATITUDE"; "LONGITUDE"] ->
              cell r0 c = cell (fst rg) c).
    { intros c Hc. unfold r0. rewrite cell_delete_all_notin.
      - rewrite !cell_insert_ne; [reflexivity | |]; intros Heq; subst c; apply Hc.
        + right. right. left.
        + right. left.
      - intros Hin. apply list_elem_of_singleton in Hin. subst c. apply Hc. left. }
    assert (Hd' : cell r "POPULATION_DENSITY"
                  = cell (fst rg) "Population density per square kilometre").
    { rewrite <- Hraw by label_notin.
      apply (Hcell "Population density per square kilometre").
      apply census_coordinates_labels. split; [left; exact Hdensity | discriminate]. }
    assert (Hp' : cell r "2021_POPULATION" = cell (fst rg) "Population, 2021").
    { rewrite <- Hraw by label_notin. apply (Hcell "Population, 2021").
      apply census_coordinates_labels. split; [left; exact Hpopulation | discriminate]. }
    exists r. split; [| split; [exact Hd' | split; [exact Hp' | split]]].
    + apply (remove_outliers_rows _ _ _ r Hrun). split.
      * unfold _rename_columns. simpl. apply list_elem_of_fmap. exists r0.
        split; [reflexivity|]. apply list_elem_of_fmap. exists rg.
        split; [reflexivity | exact Hrg].
      * intros c v Hin. unfold census_outliers_to_drop in Hin.
        repeat (apply elem_of_cons in Hin; destruct Hin as [Hin|Hin];
                [injection Hin as -> ->|]);
          try (apply elem_of_nil in Hin; contradiction).
        -- rewrite Hd'. exact Hd.
        -- rewrite Hp'. exact Hp.
    + transitivity (cell r0 "LATITUDE").
      * apply (Hcell "LATITUDE"). apply census_coordinates_labels.
        split; [right; right; reflexivity | discriminate].
      * unfold r0. rewrite cell_delete_all_notin by label_notin. apply cell_insert_eq.
    + transitivity (cell r0 "LONGITUDE").
      * apply (Hcell "LONGITUDE"). apply census_coordinates_labels.
        split; [right; left; reflexivity | discriminate].
      * unfold r0. rewrite cell_delete_all_notin by label_notin.
        rewrite cell_insert_ne by discriminate. apply cell_insert_eq.
  - intros Hraw Hnew.
    assert (Hmiss : require (_rename_columns (census_coordinates census)
                               new_census_column_names) "POPULATION_DENSITY"
                    = Raise (KeyError "POPULATION_DENSITY")); cycle 1.
    { unfold preprocess_census, census_outliers_to_drop. simpl. rewrite Hmiss.
      reflexivity. }
    unfold require, has_column. rewrite bool_decide_eq_false_2; [reflexivity|].
    unfold _rename_columns. simpl. intros Hin. apply list_elem_of_fmap in Hin.
    destruct Hin as (c & Hren & Hc). symmetry in Hren.
    change (remove_labels ["centroid"]
              (add_label "LATITUDE" (add_label "LONGITUDE" (gcolumns census))))
      with (columns (census_coordinates census)) in Hc.
    apply census_coordinates_labels in Hc. destruct Hc as [[Hc|[->| ->]] _].
    + destruct (rename_census_density c Hren) as [-> | ->]; contradiction.
    + vm_compute in Hren. discriminate Hren.
    + vm_compute in Hren. discriminate Hren.
Qed.

Lemma preprocess_census_drops_empty_units_witness :
  exists out r,
    @preprocess_census sample_geopandas sample_census = Ok out /\
    r ∈ rows out /\ cell r "2021_POPULATION" = VNaN /\ cell r "LATITUDE" = vq 1 2.
Proof.
  assert (Hrun : exists out, @preprocess_census sample_geopandas sample_census = Ok out).
  { assert (Hrun : (fun _ => tt) <$> @preprocess_census sample_geopandas sample_census
                   = Ok tt) by (vm_compute; reflexivity).
    apply fmap_ok in Hrun. destruct Hrun as (out & Hout & _). exists out. exact Hout. }
  destruct Hrun as [out Hrun].
  destruct (@preprocess_census_drops_empty_units sample_geopandas sample_census)
    as (_ & Hkept & _).
  destruct (Hkept) with (out := out)
    (rg := (mk_row [("DGUID", VStr "2021S0514");
                    ("Population density per square kilometre", vq 3 2)],
            Box (qz 2) (qz 0) (qz 3) (qz 1)))
    as (r & Hr & _ & Hp & Hlat & _).
  - apply (bool_decide_unpack _). vm_compute. exact I.
  - label_notin.
  - label_notin.
  - exact Hrun.
  - right. right. left.
  - vm_compute. reflexivity.
  - vm_compute. reflexivity.
  - exists out, r. split; [exact Hrun|]. split; [exact Hr|]. split.
    + rewrite Hp. reflexivity.
    + rewrite Hlat. vm_compute. reflexivity.
Defined.

(** ** The fire stations *)

Lemma Forall2_compose {A B C : Type} (R : A -> B -> Prop) (S : B -> C -> Prop)
    (l1 : list A) (l2 : list B) (l3 : list C) :
  Forall2 R l1 l2 -> Forall2 S l2 l3 ->
  Forall2 (fun a c => exists b, R a b /\ S b c) l1 l3.
Proof.
  intros H12. revert l3. induction H12 as [|a b l1 l2 Hab _ IH]; intros l3 H23.
  - inversion H23. constructor.
  - inversion H23 as [|? c ? l3' Hbc Hrest]; subst.
    constructor; [exists b; split; assumption | apply IH; exact Hrest].
Qed.

Lemma Forall2_weaken {A B : Type} (R S : A -> B -> Prop) (l : list A) (k : list B) :
  Forall2 R l k -> (forall a b, R a b -> S a b) -> Forall2 S l k.
Proof.
  intros Hall Himpl. induction Hall as [|a b l k Hab _ IH]; constructor; auto.
Qed.

Lemma Forall2_map_self {A B : Type} (f : A -> B) (l : list A) :
  Forall2 (fun a b => b = f a) l (map f l).
Proof. induction l as [|a l IH]; simpl; constructor; [reflexivity | exact IH]. Qed.

Lemma zip_with_map_same {A B C D : Type} (f : B -> C -> D) (g : A -> B) (h : A -> C)
    (l : list A) :
  zip_with f (map g l) (map h l) = map (fun a => f (g a) (h a)) l.
Proof. induction l as [|a l IH]; simpl; [reflexivity | rewrite IH; reflexivity]. Qed.

Lemma series_inv (x : DataFrame) (c : string) (s : list value) :
  series x c = Ok s -> c ∈ columns x /\ s = map (fun r => cell r c) (rows x).
Proof.
  unfold series. intros Hrun. bind_inv Hrun as u Hu. destruct u.
  inversion Hrun. split; [apply require_ok; exact Hu | reflexivity].
Qed.

Lemma set_cells_traverse {B : Type} (c : string) (g : value -> result B) (h : B -> value)
    (rs : list row) (l' : list B) :
  traverse g (map (fun r => cell r c) rs) = Ok l' ->
  Forall2 (fun r r' => exists b, g (cell r c) = Ok b /\ r' = <[c := h b]> r)
          rs (set_cells c rs (map h l')).
Proof.
  revert l'. induction rs as [|r rs IH]; intros l' Hrun; simpl in Hrun.
  - inversion Hrun. constructor.
  - bind_inv Hrun as b Hb. bind_inv Hrun as bs Hbs. inversion Hrun; subst l'. simpl.
    constructor; [exists b; split; [exact Hb | reflexivity] | apply IH; exact Hbs].
Qed.

(** A column rewritten by the dates of [_parse_date]. *)
Lemma update_parse_date_rows `{Pandas} (c : string) (x y : DataFrame) :
  update_series c (fun s => fst <$> _parse_date s) x = Ok y ->
  c ∈ columns x /\ columns y = add_label c (columns x) /\
  Forall2 (fun r r' => exists t, to_datetime (cell r c) = Ok t /\
                                 r' = <[c := opt_str dt_date t]> r)
          (rows x) (rows y).
Proof.
  intros Hrun. apply update_series_inv in Hrun.
  destruct Hrun as (Hc & s' & Hs' & Hcols & Hrows).
  split; [exact Hc|]. split; [exact Hcols|].
  apply fmap_ok in Hs'. destruct Hs' as (p & Hp & Hfst).
  unfold _parse_date in Hp. bind_inv Hp as ts Hts. inversion Hp; subst p.
  simpl in Hfst. subst s'. rewrite Hrows. apply set_cells_traverse. exact Hts.
Qed.

Lemma preprocess_firestations_inv `{Pandas} (firestations out : DataFrame) :
  preprocess_firestations firestations = Ok out ->
  let renamed := _rename_columns firestations new_firestations_column_names in
  (forall c, c ∈ "START_DATE" :: "END_DATE" :: drop_firestation_columns ->
             c ∈ columns renamed) /\
  (forall c, c ∈ columns out <->
             (c ∈ columns renamed \/ c = "AREA") /\ c ∉ drop_firestation_columns) /\
  Forall2 (fun r r' =>
             exists t1 t2,
               to_datetime (cell r "START_DATE") = Ok t1 /\
               to_datetime (cell r "END_DATE") = Ok t2 /\
               r' = <["END_DATE" := opt_str dt_date t2]>
                      (<["START_DATE" := opt_str dt_date t1]>
                         (delete_all drop_firestation_columns
                            (<["AREA" := if isna (cell r "NEIGHBORHOOD")
                                         then cell r "CITY"
                                         else cell r "NEIGHBORHOOD"]> r))))
          (rows renamed) (rows out).
Proof.
  intros Hrun. cbv zeta. unfold preprocess_firestations in Hrun.
  set (renamed := _rename_columns firestations new_firestations_column_names) in *.
  bind_inv Hrun as n Hn. bind_inv Hrun as c Hc. bind_inv Hrun as x2 Hdrop.
  bind_inv Hrun as x3 Hstart.
  destruct (series_inv _ _ _ Hn) as [Hnin ->]. destruct (series_inv _ _ _ Hc) as [Hcin ->].
  unfold _combine_neighbourhoods_and_city in Hdrop.
  rewrite zip_with_map_same in Hdrop.
  destruct (drop_columns_inv _ _ _ Hdrop) as (Hdin & Hcols2 & Hrows2).
  simpl in Hdin, Hcols2, Hrows2. rewrite set_cells_map in Hrows2.
  destruct (update_parse_date_rows _ _ _ Hstart) as (Hsin & Hcols3 & Hrows3).
  destruct (update_parse_date_rows _ _ _ Hrun) as (Hein & Hcols4 & Hrows4).
  assert (Hlabels : forall l, l ∈ columns out <->
            (l ∈ columns renamed \/ l = "AREA") /\ l ∉ drop_firestation_columns).
  { intros l. rewrite Hcols4, elem_of_add_label, Hcols3, elem_of_add_label, Hcols2.
    rewrite elem_of_remove_labels, elem_of_add_label.
    rewrite Hcols3, elem_of_add_label, Hcols2, elem_of_remove_labels,
      elem_of_add_label in Hein.
    rewrite Hcols2, elem_of_remove_labels, elem_of_add_label in Hsin.
    split.
    - intros [[Hl| ->]| ->]; [exact Hl | exact Hsin |].
      destruct Hein as [Hein|Heq]; [exact Hein | discriminate Heq].
    - intros Hl. left. left. exact Hl. }
  split; [| split; [exact Hlabels|]].
  - intros l Hl. apply elem_of_cons in Hl. destruct Hl as [->|Hl].
    { rewrite Hcols2, elem_of_remove_labels, elem_of_add_label in Hsin.
      destruct Hsin as [[Hs|Hs] _]; [exact Hs | discriminate Hs]. }
    apply elem_of_cons in Hl. destruct Hl as [->|Hl].
    { assert (Hin : "END_DATE" ∈ columns out)
        by (rewrite Hcols4; apply elem_of_add_label; right; reflexivity).
      apply Hlabels in Hin. destruct Hin as [[Hin|Hin] _]; [exact Hin | discriminate Hin]. }
    specialize (Hdin l Hl). apply elem_of_add_label in Hdin.
    destruct Hdin as [Hdin| ->]; [exact Hdin|].
    exfalso. unfold drop_firestation_columns in Hl.
    repeat (apply elem_of_cons in Hl; destruct Hl as [Hl|Hl]; [discriminate Hl|]).
    apply elem_of_nil in Hl. exact Hl.
  - rewrite Hrows2 in Hrows3. rewrite List.map_map in Hrows3.
    pose proof (Forall2_compose _ _ _ _ _
                  (Forall2_compose _ _ _ _ _ (Forall2_map_self _ (rows renamed)) Hrows3)
                  Hrows4) as Hall.
    eapply Forall2_weaken; [exact Hall|]. clear.
    intros r r' (r3 & (r2 & -> & t1 & Ht1 & ->) & t2 & Ht2 & ->).
    exists t1, t2.
    rewrite cell_delete_all_notin, cell_insert_ne in Ht1 by (label_notin || discriminate).
    rewrite cell_insert_ne, cell_delete_all_notin, cell_insert_ne in Ht2
      by (label_notin || discriminate).
    split; [exact Ht1 | split; [exact Ht2 | reflexivity]].
Qed.

(** X18: for every raw fire station, in order, the output has one row.  Its
    [AREA] is the borough of the station when it has one, otherwise its town;
    its [START_DATE] and [END_DATE] are the dates of the timestamps read from
    [DATE_DEBUT] and [DATE_FIN], or ['NaT']; the borough, the town and the
    projected coordinates are gone; and every other cell is found under the
    new name of its label. *)
Theorem preprocess_firestations_rows `{Pandas} (firestations out : DataFrame) :
  NoDup (map (rename_label new_firestations_column_names) (columns firestations)) ->
  "ARRONDISSEMENT" ∈ columns firestations -> "VILLE" ∈ columns firestations ->
  "DATE_DEBUT" ∈ columns firestations -> "DATE_FIN" ∈ columns firestations ->
  preprocess_firestations firestations = Ok out ->
  Forall2 (fun r r' =>
             cell r' "AREA" = (if isna (cell r "ARRONDISSEMENT") then cell r "VILLE"
                               else cell r "ARRONDISSEMENT") /\
             (exists t, to_datetime (cell r "DATE_DEBUT") = Ok t /\
                        cell r' "START_DATE" = opt_str dt_date t) /\
             (exists t, to_datetime (cell r "DATE_FIN") = Ok t /\
                        cell r' "END_DATE" = opt_str dt_date t) /\
             (forall c, c ∈ drop_firestation_columns -> r' !! c = None) /\
             (forall c, c ∈ columns firestations ->
                rename_label new_firestations_column_names c
                  ∉ "AREA" :: "START_DATE" :: "END_DATE" :: drop_firestation_columns ->
                r' !! rename_label new_firestations_column_names c = r !! c))
          (rows firestations) (rows out).
Proof.
  intros Hnd Hn Hc Hs He Hrun.
  destruct (preprocess_firestations_inv _ _ Hrun) as (_ & _ & Hrows).
  unfold _rename_columns in Hrows. cbn [rows] in Hrows.
  pose proof (Forall2_compose _ _ _ _ _ (Forall2_map_self _ (rows firestations)) Hrows)
    as Hall.
  eapply Forall2_weaken; [exact Hall|]. clear Hall Hrows Hrun.
  intros r r' (r1 & -> & t1 & t2 & Ht1 & Ht2 & ->).
  assert (Hcell : forall c, c ∈ columns firestations ->
            cell (rename_row new_firestations_column_names (columns firestations) r)
                 (rename_label new_firestations_column_names c) = cell r c).
  { intros c Hin. unfold cell. rewrite (rename_row_lookup _ _ _ _ Hnd Hin). reflexivity. }
  pose proof (Hcell _ Hn) as Hn'. pose proof (Hcell _ Hc) as Hc'.
  pose proof (Hcell _ Hs) as Hs'. pose proof (Hcell _ He) as He'.
  change (rename_label new_firestations_column_names "ARRONDISSEMENT")
    with "NEIGHBORHOOD" in Hn'.
  change (rename_label new_firestations_column_names "VILLE") with "CITY" in Hc'.
  change (rename_label new_firestations_column_names "DATE_DEBUT")
    with "START_DATE" in Hs'.
  change (rename_label new_firestations_column_names "DATE_FIN") with "END_DATE" in He'.
  rewrite Hn', Hc'. rewrite Hs' in Ht1. rewrite He' in Ht2.
  split; [| split; [| split; [| split]]].
  - rewrite !cell_insert_ne by discriminate.
    rewrite cell_delete_all_notin by label_notin. apply cell_insert_eq.
  - exists t1. split; [exact Ht1|].
    rewrite cell_insert_ne by discriminate. apply cell_insert_eq.
  - exists t2. split; [exact Ht2|]. apply cell_insert_eq.
  - intros c Hin.
    rewrite !lookup_insert_ne
      by (intros <-; revert Hin; apply (bool_decide_unpack _); vm_compute; exact I).
    rewrite lookup_delete_all, bool_decide_eq_true_2 by exact Hin. reflexivity.
  - intros c Hin Hout.
    rewrite !lookup_insert_ne
      by (intros Heq; apply Hout; rewrite <- Heq; (right; left) || (right; right; left)).
    rewrite lookup_delete_all, bool_decide_eq_false_2
      by (intros Hd; apply Hout; do 3 right; exact Hd).
    rewrite lookup_insert_ne by (intros Heq; apply Hout; rewrite <- Heq; left).
    apply (rename_row_lookup _ _ _ _ Hnd Hin).
Qed.

Lemma sample_preprocessed_firestations :
  exists out, @preprocess_firestations sample_pandas sample_raw_firestations = Ok out.
Proof.
  assert (Hrun : (fun _ => tt) <$>
                   @preprocess_firestations sample_pandas sample_raw_firestations = Ok tt)
    by (vm_compute; reflexivity).
  apply fmap_ok in Hrun. destruct Hrun as (out & Hout & _). exists out. exact Hout.
Qed.

Lemma preprocess_firestations_rows_witness :
  exists out,
    @preprocess_firestations sample_pandas sample_raw_firestations = Ok out /\
    Forall2 (fun r r' =>
               cell r' "AREA" = (if isna (cell r "ARRONDISSEMENT") then cell r "VILLE"
                                 else cell r "ARRONDISSEMENT"))
            (rows sample_raw_firestations) (rows out).
Proof.
  destruct sample_preprocessed_firestations as [out Hout].
  exists out. split; [exact Hout|].
  eapply Forall2_weaken;
    [apply (@preprocess_firestations_rows sample_pandas sample_raw_firestations out)|].
  - apply (bool_decide_unpack _). vm_compute. exact I.
  - label_notin.
  - label_notin.
  - label_notin.
  - label_notin.
  - exact Hout.
  - intros r r' [Harea _]. exact Harea.
Defined.

(** ** The labels that [create_input_table] needs *)

Lemma require_raise (x : DataFrame) (c : string) :
  c ∉ columns x -> require x c = Raise (KeyError c).
Proof.
  intros Hc. unfold require, has_column. rewrite bool_decide_eq_false_2 by exact Hc.
  reflexivity.
Qed.

(** X19: [create_input_table] returns a table only if the merged table has the
    labels [ASSESSMENT_ID], [YEAR_CONSTRUCTION], [FIRE_STATION_ID], [grid_lat],
    [grid_long] and [INCIDENT_CATEGORY] and the fire stations have
    [FIRE_STATION_ID], [LATITUDE] and [LONGITUDE].  A merged table without
    [ASSESSMENT_ID] raises [KeyError] on it, one with it and without
    [YEAR_CONSTRUCTION] raises [KeyError] on that, and a year of construction
    that is a string raises [TypeError]. *)
Theorem create_input_table_required_labels
    (current_year : Z) (table firestations : DataFrame) :
  (forall out, create_input_table current_year table firestations = Ok out ->
     (forall c, c ∈ ["ASSESSMENT_ID"; "YEAR_CONSTRUCTION"; "FIRE_STATION_ID";
                     "grid_lat"; "grid_long"; "INCIDENT_CATEGORY"] ->
                c ∈ columns table) /\
     (forall c, c ∈ ["FIRE_STATION_ID"; "LATITUDE"; "LONGITUDE"] ->
                c ∈ columns firestations)) /\
  ("ASSESSMENT_ID" ∉ columns table ->
   create_input_table current_year table firestations
     = Raise (KeyError "ASSESSMENT_ID")) /\
  ("ASSESSMENT_ID" ∈ columns table -> "YEAR_CONSTRUCTION" ∉ columns table ->
   create_input_table current_year table firestations
     = Raise (KeyError "YEAR_CONSTRUCTION")) /\
  ("ASSESSMENT_ID" ∈ columns table -> "YEAR_CONSTRUCTION" ∈ columns table ->
   (exists r s, r ∈ rows table /\ cell r "YEAR_CONSTRUCTION" = VStr s) ->
   create_input_table current_year table firestations = Raise TypeError).
Proof.
  split; [| split; [| split]].
  - intros out Hrun. unfold create_input_table in Hrun.
    bind_inv Hrun as t1 Hs1. bind_inv Hrun as t2 Hs2. bind_inv Hrun as t3 Hs3.
    bind_inv Hrun as t4 Hs4.
    pose proof (add_building_age_inv _ _ _ Hs1) as [Hc1 _].
    unfold add_building_age in Hs1. bind_inv Hs1 as u1 Hu1. bind_inv Hs1 as u2 Hu2.
    destruct u1, u2. apply require_ok in Hu1. apply require_ok in Hu2.
    destruct (merge_firestations_inv _ _ _ Hs2) as (stations & Hst & Hkey & Hc2 & _).
    destruct (select_inv _ _ _ Hst) as (Hstations & _ & _).
    destruct (add_distance_inv _ _ Hs3) as (Hgrid & Hc3 & _).
    destruct (add_is_fire_inv _ _ Hs4) as (Hcat & _).
    assert (Hback : forall c, c ∈ columns t2 ->
              c ∉ ["building_age"; "LATITUDE"; "LONGITUDE"; "LATITUDE_firestation";
                   "LONGITUDE_firestation"] -> c ∈ columns table).
    { intros c Hc Hout. rewrite Hc2, elem_of_app, Hc1 in Hc.
      unfold aged_labels in Hc. rewrite elem_of_add_label in Hc.
      destruct Hc as [[Hc| ->]|Hc]; [exact Hc | exfalso; apply Hout; left |].
      exfalso. apply Hout. simpl in Hc. unfold suffixed in Hc.
      repeat (apply elem_of_cons in Hc; destruct Hc as [->|Hc];
              [destruct (bool_decide _); apply (bool_decide_unpack _); vm_compute; exact I|]).
      apply elem_of_nil in Hc. contradiction. }
    split; [| exact Hstations].
    intros c Hc.
    repeat (apply elem_of_cons in Hc; destruct Hc as [->|Hc]);
      try (apply elem_of_nil in Hc; contradiction).
    + exact Hu1.
    + exact Hu2.
    + rewrite Hc1 in Hkey. unfold aged_labels in Hkey. apply elem_of_add_label in Hkey.
      destruct Hkey as [Hkey|Hkey]; [exact Hkey | discriminate Hkey].
    + apply Hback; [apply Hgrid; left | label_notin].
    + apply Hback; [apply Hgrid; right; left | label_notin].
    + rewrite Hc3 in Hcat. apply elem_of_add_label in Hcat.
      destruct Hcat as [Hcat|Hcat]; [| discriminate Hcat].
      apply Hback; [exact Hcat | label_notin].
  - intros Hno. unfold create_input_table, add_building_age.
    rewrite (require_raise _ _ Hno). reflexivity.
  - intros Hid Hno. unfold create_input_table, add_building_age.
    rewrite (proj2 (require_ok _ _) Hid), (require_raise _ _ Hno). reflexivity.
  - intros Hid Hyear (r & s & Hr & Hs). unfold create_input_table, add_building_age.
    rewrite (proj2 (require_ok _ _) Hid), (proj2 (require_ok _ _) Hyear). simpl.
    assert (Hfail : traverse
              (fun r0 : row =>
                 age ← _calculate_building_age current_year (cell r0 "YEAR_CONSTRUCTION");
                 Ok (<["building_age" :=
                        if isna (cell r0 "ASSESSMENT_ID") then VNaN else age]> r0))
              (rows table) = Raise TypeError).
    { clear Hid Hyear. induction (rows table) as [|r0 rs IH].
      - apply elem_of_nil in Hr. contradiction.
      - simpl. destruct (_calculate_building_age current_year
                           (cell r0 "YEAR_CONSTRUCTION")) as [age|e] eqn:Hage.
        + simpl. apply elem_of_cons in Hr. destruct Hr as [->|Hr].
          * rewrite Hs in Hage. discriminate Hage.
          * rewrite (IH Hr). reflexivity.
        + simpl. unfold _calculate_building_age in Hage.
          destruct (norm (cell r0 "YEAR_CONSTRUCTION")); try discriminate Hage;
            inversion Hage; reflexivity. }
    rewrite Hfail. reflexivity.
Qed.

Lemma create_input_table_required_labels_witness :
  create_input_table 2026 sample_joined_incidents sample_firestations
    = Raise (KeyError "ASSESSMENT_ID").
Proof.
  apply (proj1 (proj2 (create_input_table_required_labels
                         2026 sample_joined_incidents sample_firestations))).
  label_notin.
Defined.

(** ** The property assessments *)

Lemma set_cells_length (c : string) (rs : list row) (s : list value) :
  length s = length rs -> length (set_cells c rs s) = length rs.
Proof.
  revert s. induction rs as [|r rs IH]; intros [|v s] Hlen; simpl in *;
    try reflexivity; try discriminate Hlen.
  rewrite IH by (injection Hlen as Hlen; exact Hlen). reflexivity.
Qed.

Lemma traverse_length {A B : Type} (f : A -> result B) (l : list A) (l' : list B) :
  traverse f l = Ok l' -> length l' = length l.
Proof. intros Hrun. apply traverse_ok in Hrun. apply Forall2_length in Hrun. congruence. Qed.

Lemma update_series_length (c : string) (f : list value -> result (list value))
    (x y : DataFrame) :
  (forall s s', f s = Ok s' -> length s' = length s) ->
  update_series c f x = Ok y -> length (rows y) = length (rows x).
Proof.
  intros Hf Hrun. apply update_series_inv in Hrun.
  destruct Hrun as (_ & s' & Hs' & _ & Hrows). rewrite Hrows.
  apply set_cells_length. rewrite (Hf _ _ Hs'). apply List.length_map.
Qed.

Lemma parse_integers_length `{Pandas} (s s' : list value) :
  _parse_integers s = Ok s' -> length s' = length s.
Proof. rewrite parse_integers_traverse. apply traverse_length. Qed.

Lemma rename_incidents_length (m : list (value * value)) (s s' : list value) :
  Ok (_rename_incidents s m) = Ok s' -> length s' = length s.
Proof. intros Heq. inversion Heq. apply List.length_map. Qed.

Lemma update_replaced_row (c : string) (m : list (value * value)) (x y : DataFrame)
    (r' : row) :
  update_series c (fun s => Ok (_rename_incidents s m)) x = Ok y -> r' ∈ rows y ->
  exists r, r ∈ rows x /\ r' = <[c := replace_value m (cell r c)]> r.
Proof.
  intros Hrun Hin. apply update_series_inv in Hrun.
  destruct Hrun as (_ & s' & Hs' & _ & Hrows). inversion Hs'; subst s'.
  unfold _rename_incidents in Hrows. rewrite List.map_map in Hrows.
  rewrite (set_cells_map c (fun r => replace_value m (cell r c))) in Hrows.
  rewrite Hrows in Hin. apply list_elem_of_fmap in Hin. destruct Hin as (r & -> & Hr).
  exists r. split; [exact Hr | reflexivity].
Qed.

(** X20: [preprocess_property_assessments] returns one row per assessment
    unit.  In each of them the floors, the dwellings, the use code and the two
    areas are integers, the year of construction is an integer up to 2024 or
    missing, and the use category is never the raw ['Régulier']. *)
Theorem preprocess_property_assessments_rows `{Pandas} `{Geopandas}
    (property_assessments : GeoDataFrame geometry) (out : DataFrame) :
  preprocess_property_assessments property_assessments = Ok out ->
  length (rows out) = length (grows property_assessments) /\
  forall r, r ∈ rows out ->
    (forall c, c ∈ ["ABOVE_GROUND_FLOORS"; "HOUSING_UNITS"; "USE_CODE"; "AREA_LAND";
                    "AREA_BUILDING"] -> exists n, cell r c = VInt n) /\
    (cell r "YEAR_CONSTRUCTION" = VNaN \/
     exists y, (y <= 2024)%Z /\ cell r "YEAR_CONSTRUCTION" = VInt y) /\
    py_eqb (cell r "USE_CATEGORY") (VStr "Régulier") = false.
Proof.
  intros Hrun. split.
  - unfold preprocess_property_assessments in Hrun.
    bind_inv Hrun as pa0 Hs0. bind_inv Hrun as pa1 Hs1. bind_inv Hrun as pa2 Hs2.
    bind_inv Hrun as pa3 Hs3. bind_inv Hrun as pa4 Hs4. bind_inv Hrun as pa5 Hs5.
    bind_inv Hrun as pa6 Hs6. bind_inv Hrun as pa7 Hs7.
    rewrite (update_series_length _ _ _ _ (rename_incidents_length _) Hrun).
    rewrite (update_series_length _ _ _ _ (traverse_length _) Hs7).
    rewrite (update_series_length _ _ _ _ parse_integers_length Hs6).
    rewrite (update_series_length _ _ _ _ parse_integers_length Hs5).
    rewrite (update_series_length _ _ _ _ parse_integers_length Hs4).
    rewrite (update_series_length _ _ _ _ parse_integers_length Hs3).
    rewrite (update_series_length _ _ _ _ parse_integers_length Hs2).
    rewrite (update_series_length _ _ _ _ parse_integers_length Hs1).
    unfold _rename_columns. cbn [rows]. rewrite List.length_map.
    destruct (drop_columns_inv _ _ _ Hs0) as (_ & _ & Hrows0). rewrite Hrows0.
    unfold _get_latitude_longitude. cbn [rows]. rewrite !List.length_map. reflexivity.
  - intros r Hin. split; [| split].
    + intros c Hc. clear - Hrun Hin Hc.
      unfold preprocess_property_assessments in Hrun.
      bind_inv Hrun as pa0 Hs0. bind_inv Hrun as pa1 Hs1. bind_inv Hrun as pa2 Hs2.
      bind_inv Hrun as pa3 Hs3. bind_inv Hrun as pa4 Hs4. bind_inv Hrun as pa5 Hs5.
      bind_inv Hrun as pa6 Hs6. bind_inv Hrun as pa7 Hs7.
      destruct (update_replaced_row _ _ _ _ _ Hrun Hin) as (r7 & Hr7 & ->).
      destruct (update_series_row _ _ _ _ _ Hs7 Hr7) as (r6 & v7 & Hr6 & _ & ->).
      destruct (update_parsed_row _ _ _ _ Hs6 Hr6) as (r5 & n6 & Hr5 & ->).
      destruct (update_parsed_row _ _ _ _ Hs5 Hr5) as (r4 & n5 & Hr4 & ->).
      destruct (update_parsed_row _ _ _ _ Hs4 Hr4) as (r3 & n4 & Hr3 & ->).
      destruct (update_parsed_row _ _ _ _ Hs3 Hr3) as (r2 & n3 & Hr2 & ->).
      destruct (update_parsed_row _ _ _ _ Hs2 Hr2) as (r1 & n2 & Hr1 & ->).
      destruct (update_parsed_row _ _ _ _ Hs1 Hr1) as (r0 & n1 & Hr0 & ->).
      repeat (apply elem_of_cons in Hc; destruct Hc as [->|Hc]);
        try (apply elem_of_nil in Hc; contradiction);
        eexists; repeat (rewrite cell_insert_ne by discriminate); apply cell_insert_eq.
    + apply (preprocess_property_assessments_years _ _ _ Hrun Hin).
    + unfold preprocess_property_assessments in Hrun.
      bind_inv Hrun as pa0 Hs0. bind_inv Hrun as pa1 Hs1. bind_inv Hrun as pa2 Hs2.
      bind_inv Hrun as pa3 Hs3. bind_inv Hrun as pa4 Hs4. bind_inv Hrun as pa5 Hs5.
      bind_inv Hrun as pa6 Hs6. bind_inv Hrun as pa7 Hs7.
      destruct (update_replaced_row _ _ _ _ _ Hrun Hin) as (r7 & Hr7 & ->).
      rewrite cell_insert_eq. simpl.
      destruct (py_eqb (cell r7 "USE_CATEGORY") (VStr "Régulier")) eqn:Hraw;
        [vm_compute; reflexivity | exact Hraw].
Qed.

Lemma preprocess_property_assessments_rows_witness :
  exists out,
    @preprocess_property_assessments sample_pandas sample_geopandas
      sample_raw_assessments = Ok out /\
    length (rows out) = 2%nat.
Proof.
  assert (Hrun : exists out,
            @preprocess_property_assessments sample_pandas sample_geopandas
              sample_raw_assessments = Ok out).
  { assert (Hrun : (fun _ => tt) <$>
                     @preprocess_property_assessments sample_pandas sample_geopandas
                       sample_raw_assessments = Ok tt) by (vm_compute; reflexivity).
    apply fmap_ok in Hrun. destruct Hrun as (out & Hout & _). exists out. exact Hout. }
  destruct Hrun as [out Hrun]. exists out. split; [exact Hrun|].
  destruct (@preprocess_property_assessments_rows sample_pandas sample_geopandas
              _ _ Hrun) as [Hlen _].
  rewrite Hlen. reflexivity.
Defined.

(** ** The identifiers of the incidents *)

Lemma concat_partitions_rows (init : DataFrame) (l : list (string * DataFrame)) :
  rows (foldl (fun result kv => concat_sorted result (snd kv)) init l) =
  (rows init ++ flat_map (fun kv => rows (snd kv)) l)%list.
Proof.
  revert init. induction l as [|kv l IH]; intros init; simpl.
  - rewrite List.app_nil_r. reflexivity.
  - rewrite IH. simpl. rewrite <- List.app_assoc. reflexivity.
Qed.

Lemma set_cells_positions (c : string) (g : nat -> value) (rs : list row) (k : nat) :
  set_cells c rs (map g (seq k (length rs))) = imap (fun i r => <[c := g (k + i)%nat]> r) rs.
Proof.
  revert k. induction rs as [|r rs IH]; intros k; simpl; [reflexivity|].
  rewrite Nat.add_0_r. f_equal. rewrite IH. apply imap_ext.
  intros i r' _. simpl. rewrite Nat.add_succ_r. reflexivity.
Qed.

Lemma VInt_inj (a b : Z) : VInt a = VInt b -> a = b.
Proof.
  intros Heq.
  apply (f_equal (fun v => match v with VNum q => Qctrunc q | _ => 0%Z end)) in Heq.
  unfold VInt in Heq. rewrite !Qctrunc_qz in Heq. exact Heq.
Qed.

(** The rows of the combined incidents are numbered by position. *)
Lemma combine_incidents_positions (partitioned_input : list (string * DataFrame)) :
  (forall i r, rows (combine_incidents partitioned_input) !! i = Some r ->
               cell r "INCIDENT_ID" = VInt (Z.of_nat i)) /\
  NoDup (map (fun r => cell r "INCIDENT_ID") (rows (combine_incidents partitioned_input))).
Proof.
  assert (Hid : forall i r, rows (combine_incidents partitioned_input) !! i = Some r ->
                            cell r "INCIDENT_ID" = VInt (Z.of_nat i)).
  { intros i r Hi. unfold combine_incidents, assign_series, _create_id in Hi.
    cbn [rows] in Hi.
    rewrite (set_cells_positions "INCIDENT_ID" (fun i => VInt (Z.of_nat i)) _ 0) in Hi.
    apply list_lookup_imap_Some in Hi.
    destruct Hi as (r0 & _ & ->). apply cell_insert_eq. }
  split; [exact Hid|].
  apply NoDup_alt. intros i j v Hi Hj.
  rewrite list_lookup_fmap in Hi, Hj.
  destruct (rows (combine_incidents partitioned_input) !! i) as [ri|] eqn:Hri;
    [| discriminate Hi].
  destruct (rows (combine_incidents partitioned_input) !! j) as [rj|] eqn:Hrj;
    [| discriminate Hj].
  simpl in Hi, Hj. rewrite (Hid _ _ Hri) in Hi. rewrite (Hid _ _ Hrj) in Hj.
  assert (Heq : VInt (Z.of_nat i) = VInt (Z.of_nat j)) by congruence.
  apply VInt_inj in Heq. lia.
Qed.

(** X21: the combined incidents are the rows of the partitions, one partition
    after the other in the order of their keys, and the [INCIDENT_ID] of a row
    is its position in that list, counted from zero.  So no two rows have the
    same identifier. *)
Theorem combine_incidents_ids (partitioned_input : list (string * DataFrame)) :
  exists sorted,
    sorted ≡ₚ partitioned_input /\ Sorted key_le sorted /\
    rows (combine_incidents partitioned_input) =
      imap (fun i r => <["INCIDENT_ID" := VInt (Z.of_nat i)]> r)
           (flat_map (fun kv => rows (snd kv)) sorted) /\
    "INCIDENT_ID" ∈ columns (combine_incidents partitioned_input) /\
    (forall i r, rows (combine_incidents partitioned_input) !! i = Some r ->
                 cell r "INCIDENT_ID" = VInt (Z.of_nat i)) /\
    NoDup (map (fun r => cell r "INCIDENT_ID") (rows (combine_incidents partitioned_input))).
Proof.
  exists (merge_sort key_le partitioned_input).
  destruct (combine_incidents_positions partitioned_input) as [Hid Hnd].
  split; [apply merge_sort_Permutation|]. split.
  { apply Sorted_merge_sort. intros a b. apply String.leb_total. }
  split; [| split; [| split; [exact Hid | exact Hnd]]].
  - unfold combine_incidents, assign_series, _create_id. cbn [rows].
    rewrite (set_cells_positions "INCIDENT_ID" (fun i => VInt (Z.of_nat i)) _ 0).
    unfold _concat_partitions. rewrite concat_partitions_rows. reflexivity.
  - unfold combine_incidents, assign_series. cbn [columns].
    apply elem_of_add_label. right. reflexivity.
Qed.

(** ** The identifiers through [preprocess_incidents] *)

Lemma rename_row_lookup_fixed (m : list (string * string)) (cs : list string) (r : row)
    (l : string) :
  rename_label m l = l -> (forall c, rename_label m c = l -> c = l) -> l ∈ cs ->
  rename_row m cs r !! l = r !! l.
Proof.
  intros Hsame Hfixed. unfold rename_row.
  assert (Hout : forall cs', l ∉ cs' ->
            foldr (fun c (acc : row) => match r !! c with
                                        | Some v => <[rename_label m c := v]> acc
                                        | None => acc
                                        end) (∅ : row) cs' !! l = None).
  { induction cs' as [|c' cs' IHcs]; intros Hnin; simpl; [apply lookup_empty|].
    assert (Hc' : c' <> l) by (intros ->; apply Hnin; left).
    assert (Hcs : l ∉ cs') by (intros Hin; apply Hnin; right; exact Hin).
    destruct (r !! c') as [w|]; [| apply (IHcs Hcs)].
    rewrite lookup_insert_ne by (intros Heq; apply Hc', Hfixed; exact Heq).
    apply (IHcs Hcs). }
  induction cs as [|c cs IH]; intros Hl.
  - apply elem_of_nil in Hl. contradiction.
  - simpl. destruct (decide (c = l)) as [->|Hne].
    + destruct (r !! l) as [v|] eqn:Hv.
      * rewrite Hsame. apply lookup_insert_eq.
      * destruct (decide (l ∈ cs)) as [Hin|Hnin]; [apply (IH Hin) | apply (Hout _ Hnin)].
    + assert (Hin : l ∈ cs)
        by (apply elem_of_cons in Hl; destruct Hl as [Heq|Hl]; [congruence | exact Hl]).
      destruct (r !! c) as [w|]; [| apply (IH Hin)].
      rewrite lookup_insert_ne by (intros Heq; apply Hne, Hfixed; exact Heq).
      apply (IH Hin).
Qed.

Lemma rename_incidents_keeps_id (c : string) :
  rename_label new_incidents_column_names c = "INCIDENT_ID" -> c = "INCIDENT_ID".
Proof.
  unfold rename_label, new_incidents_column_names. cbn [dict_get].
  repeat (destruct (decide _) as [->|?]; simpl); try discriminate.
  intros ->. reflexivity.
Qed.

Lemma set_cells_observe {A : Type} (obs : row -> A) (c : string) (rs : list row)
    (s : list value) :
  (forall r v, obs (<[c := v]> r) = obs r) -> length s = length rs ->
  map obs (set_cells c rs s) = map obs rs.
Proof.
  intros Hobs. revert s. induction rs as [|r rs IH]; intros [|v s] Hlen; simpl in *;
    try reflexivity; try discriminate Hlen.
  rewrite Hobs. rewrite IH by (injection Hlen as Hlen; exact Hlen). reflexivity.
Qed.

(** What a rewritten column leaves as it was. *)
Lemma update_series_observe {A : Type} (obs : row -> A) (c : string)
    (f : list value -> result (list value)) (x y : DataFrame) :
  (forall r v, obs (<[c := v]> r) = obs r) ->
  (forall s s', f s = Ok s' -> length s' = length s) ->
  update_series c f x = Ok y -> map obs (rows y) = map obs (rows x).
Proof.
  intros Hobs Hf Hrun. apply update_series_inv in Hrun.
  destruct Hrun as (_ & s' & Hs' & _ & Hrows). rewrite Hrows.
  apply set_cells_observe; [exact Hobs|]. rewrite (Hf _ _ Hs'). apply List.length_map.
Qed.

Lemma ids_filter (p : row -> bool) (l : list row) :
  map (fun r => cell r "INCIDENT_ID") (List.filter p l)
    `sublist_of` map (fun r => cell r "INCIDENT_ID") l.
Proof.
  induction l as [|r l IH]; simpl; [constructor|].
  destruct (p r); simpl; [apply sublist_skip | apply sublist_cons]; exact IH.
Qed.

Lemma ids_map (g : row -> row) (l : list row) :
  (forall r, cell (g r) "INCIDENT_ID" = cell r "INCIDENT_ID") ->
  map (fun r => cell r "INCIDENT_ID") (map g l) = map (fun r => cell r "INCIDENT_ID") l.
Proof.
  intros Hg. rewrite List.map_map. apply List.map_ext. exact Hg.
Qed.

(** X22: [preprocess_incidents] removes incidents but never changes or
    reorders their identifiers: the identifiers of the output are a
    subsequence of those of the input.  So the incidents that
    [combine_incidents] numbered still have pairwise distinct identifiers
    after the preprocessing. *)
Theorem preprocess_incidents_keeps_ids `{Pandas} (incidents out : DataFrame) :
  "INCIDENT_ID" ∈ columns incidents ->
  preprocess_incidents incidents = Ok out ->
  map (fun r => cell r "INCIDENT_ID") (rows out)
    `sublist_of` map (fun r => cell r "INCIDENT_ID") (rows incidents) /\
  (NoDup (map (fun r => cell r "INCIDENT_ID") (rows incidents)) ->
   NoDup (map (fun r => cell r "INCIDENT_ID") (rows out))) /\
  forall partitioned_input, incidents = combine_incidents partitioned_input ->
    NoDup (map (fun r => cell r "INCIDENT_ID") (rows out)).
Proof.
  intros Hid Hrun.
  assert (Hsub : map (fun r => cell r "INCIDENT_ID") (rows out)
                   `sublist_of` map (fun r => cell r "INCIDENT_ID") (rows incidents)).
  { unfold preprocess_incidents in Hrun.
    bind_inv Hrun as x0 Hs0. bind_inv Hrun as x1 Hs1. bind_inv Hrun as x2 Hs2.
    bind_inv Hrun as x3 Hs3. bind_inv Hrun as u Hs4. bind_inv Hrun as rs Hs5.
    bind_inv Hrun as x5 Hs6. bind_inv Hrun as x6 Hs7.
    rewrite (update_series_observe (fun r => cell r "INCIDENT_ID") "UNITS_DEPLOYED" _ _ _
               (fun r v => cell_insert_ne r "UNITS_DEPLOYED" "INCIDENT_ID" v
                             ltac:(discriminate))
               parse_integers_length Hrun).
    unfold _remove_incidents_2024 in Hs7. bind_inv Hs7 as u' Hu'.
    inversion Hs7; subst x6. cbn [rows loc].
    etransitivity; [apply ids_filter|].
    destruct (drop_columns_inv _ _ _ Hs6) as (_ & _ & Hrows5). rewrite Hrows5.
    cbn [rows].
    rewrite ids_map by (intros r; apply cell_delete_all_notin; label_notin).
    assert (Hdt : map (fun r => cell r "INCIDENT_ID") rs
                  = map (fun r => cell r "INCIDENT_ID") (rows x3)).
    { apply traverse_ok in Hs5. clear - Hs5.
      induction Hs5 as [|r r' l l' Hr _ IH]; simpl; [reflexivity|].
      rewrite (datetime_fields_keeps _ _ "INCIDENT_ID" Hr) by label_notin.
      rewrite IH. reflexivity. }
    rewrite Hdt.
    destruct (remove_NaN_inv _ _ _ Hs3) as [_ Hrows3]. rewrite Hrows3.
    etransitivity; [apply ids_filter|].
    destruct (remove_outliers_inv _ _ _ Hs2) as [_ Hrows2]. rewrite Hrows2.
    etransitivity; [apply ids_filter|].
    rewrite (update_series_observe (fun r => cell r "INCIDENT_ID") "INCIDENT_CATEGORY"
               _ _ _ (fun r v => cell_insert_ne r "INCIDENT_CATEGORY" "INCIDENT_ID" v
                                   ltac:(discriminate))
               (rename_incidents_length _) Hs1).
    destruct (drop_columns_inv _ _ _ Hs0) as (_ & Hcols0 & Hrows0).
    unfold _rename_columns. cbn [rows].
    rewrite ids_map.
    - rewrite Hrows0.
      rewrite ids_map by (intros r; apply cell_delete_all_notin; label_notin).
      reflexivity.
    - intros r. apply cell_of_lookup.
      apply rename_row_lookup_fixed;
        [reflexivity | apply rename_incidents_keeps_id |].
      rewrite Hcols0. apply elem_of_remove_labels. split; [exact Hid | label_notin]. }
  split; [exact Hsub|]. split.
  - intros Hnd. eapply sublist_NoDup; [exact Hnd | exact Hsub].
  - intros partitioned_input ->. eapply sublist_NoDup; [| exact Hsub].
    destruct (combine_incidents_positions partitioned_input) as [_ Hnd]. exact Hnd.
Qed.

Lemma preprocess_incidents_keeps_ids_witness :
  exists out, @preprocess_incidents sample_pandas sample_incidents = Ok out /\
    NoDup (map (fun r => cell r "INCIDENT_ID") (rows out)).
Proof.
  destruct sample_preprocessed as (out & Hout & _). exists out. split; [exact Hout|].
  destruct (@preprocess_incidents_keeps_ids sample_pandas sample_incidents out)
    as (_ & Hnd & _).
  - label_notin.
  - exact Hout.
  - apply Hnd. apply (bool_decide_unpack _). vm_compute. exact I.
Defined.

(** ** The coordinates of the assessment units *)

Lemma rename_assessments_keeps (l : string) :
  l ∈ ["LATITUDE"; "LONGITUDE"] ->
  forall c, rename_label new_property_assessments_column_names c = l -> c = l.
Proof.
  intros Hl c. unfold rename_label, new_property_assessments_column_names. cbn [dict_get].
  repeat (destruct (decide _) as [->|?]; simpl);
    try (intros <-; exfalso; revert Hl; apply (bool_decide_unpack _); vm_compute; exact I).
  intros ->. reflexivity.
Qed.

(** X23: the preprocessed assessment units carry, row for row, the latitude
    and the longitude of the centroid of their geometry: dropping, renaming
    and the integer columns leave the two coordinates alone. *)
Theorem property_assessments_coordinates `{Pandas} `{Geopandas}
    (property_assessments : GeoDataFrame geometry) (out : DataFrame) :
  preprocess_property_assessments property_assessments = Ok out ->
  map (fun r => (cell r "LATITUDE", cell r "LONGITUDE")) (rows out) =
  map (fun rg => centroid_lat_long (snd rg)) (grows property_assessments) /\
  "LATITUDE" ∈ columns out /\ "LONGITUDE" ∈ columns out.
Proof.
  intros Hrun. unfold preprocess_property_assessments in Hrun.
  bind_inv Hrun as pa0 Hs0. bind_inv Hrun as pa1 Hs1. bind_inv Hrun as pa2 Hs2.
  bind_inv Hrun as pa3 Hs3. bind_inv Hrun as pa4 Hs4. bind_inv Hrun as pa5 Hs5.
  bind_inv Hrun as pa6 Hs6. bind_inv Hrun as pa7 Hs7.
  destruct (drop_columns_inv _ _ _ Hs0) as (_ & Hcols0 & Hrows0).
  assert (Hlabels0 : "LATITUDE" ∈ columns pa0 /\ "LONGITUDE" ∈ columns pa0).
  { rewrite Hcols0. unfold _get_latitude_longitude. cbn [columns].
    rewrite !elem_of_remove_labels, !elem_of_add_label.
    split; (split; [auto | label_notin]). }
  split.
  - pose (obs := fun r : row => (cell r "LATITUDE", cell r "LONGITUDE")).
    assert (Hobs : forall c, c <> "LATITUDE" -> c <> "LONGITUDE" ->
              forall (r : row) (v : value), obs (<[c := v]> r) = obs r).
    { intros c Hlat Hlon r v. unfold obs. rewrite !cell_insert_ne by assumption.
      reflexivity. }
    change (map obs (rows out)
            = map (fun rg => centroid_lat_long (snd rg)) (grows property_assessments)).
    rewrite (update_series_observe obs "USE_CATEGORY" _ _ _
               (Hobs "USE_CATEGORY" ltac:(discriminate) ltac:(discriminate))
               (rename_incidents_length _) Hrun).
    rewrite (update_series_observe obs "YEAR_CONSTRUCTION" _ _ _
               (Hobs "YEAR_CONSTRUCTION" ltac:(discriminate) ltac:(discriminate))
               (traverse_length _) Hs7).
    rewrite (update_series_observe obs "AREA_BUILDING" _ _ _
               (Hobs "AREA_BUILDING" ltac:(discriminate) ltac:(discriminate))
               parse_integers_length Hs6).
    rewrite (update_series_observe obs "AREA_LAND" _ _ _
               (Hobs "AREA_LAND" ltac:(discriminate) ltac:(discriminate))
               parse_integers_length Hs5).
    rewrite (update_series_observe obs "USE_CODE" _ _ _
               (Hobs "USE_CODE" ltac:(discriminate) ltac:(discriminate))
               parse_integers_length Hs4).
    rewrite (update_series_observe obs "YEAR_CONSTRUCTION" _ _ _
               (Hobs "YEAR_CONSTRUCTION" ltac:(discriminate) ltac:(discriminate))
               parse_integers_length Hs3).
    rewrite (update_series_observe obs "HOUSING_UNITS" _ _ _
               (Hobs "HOUSING_UNITS" ltac:(discriminate) ltac:(discriminate))
               parse_integers_length Hs2).
    rewrite (update_series_observe obs "ABOVE_GROUND_FLOORS" _ _ _
               (Hobs "ABOVE_GROUND_FLOORS" ltac:(discriminate) ltac:(discriminate))
               parse_integers_length Hs1).
    unfold _rename_columns. cbn [rows]. rewrite Hrows0.
    unfold _get_latitude_longitude. cbn [rows]. rewrite !List.map_map.
    assert (Hcarry : forall l, l ∈ ["LATITUDE"; "LONGITUDE"] -> forall r : row,
              cell (rename_row new_property_assessments_column_names (columns pa0) r) l
              = cell r l).
    { intros l Hl r. apply cell_of_lookup. apply rename_row_lookup_fixed.
      - repeat (apply elem_of_cons in Hl; destruct Hl as [->|Hl]; [reflexivity|]).
        apply elem_of_nil in Hl. contradiction.
      - apply rename_assessments_keeps. exact Hl.
      - repeat (apply elem_of_cons in Hl; destruct Hl as [->|Hl]; [apply Hlabels0|]).
        apply elem_of_nil in Hl. contradiction. }
    apply List.map_ext. intros [r g]. unfold obs. cbn [fst snd].
    rewrite (Hcarry "LATITUDE") by left.
    rewrite (Hcarry "LONGITUDE") by (right; left).
    rewrite !cell_delete_all_notin by label_notin.
    rewrite cell_insert_eq, cell_insert_ne by discriminate. rewrite cell_insert_eq.
    destruct (centroid_lat_long g). reflexivity.
  - assert (Hkeep : forall l (x y : DataFrame) c f,
              update_series c f x = Ok y -> l ∈ columns x -> l ∈ columns y).
    { intros l x y c f Hup Hl. apply update_series_inv in Hup.
      destruct Hup as (_ & s' & _ & Hcols & _). rewrite Hcols.
      apply elem_of_add_label. left. exact Hl. }
    assert (Hren : forall l, l ∈ ["LATITUDE"; "LONGITUDE"] -> l ∈ columns pa0 ->
              l ∈ columns (_rename_columns pa0 new_property_assessments_column_names)).
    { intros l Hl Hin. unfold _rename_columns. cbn [columns].
      apply list_elem_of_fmap. exists l. split; [| exact Hin].
      repeat (apply elem_of_cons in Hl; destruct Hl as [->|Hl]; [reflexivity|]).
      apply elem_of_nil in Hl. contradiction. }
    split.
    + apply (Hkeep _ _ _ _ _ Hrun), (Hkeep _ _ _ _ _ Hs7), (Hkeep _ _ _ _ _ Hs6),
        (Hkeep _ _ _ _ _ Hs5), (Hkeep _ _ _ _ _ Hs4), (Hkeep _ _ _ _ _ Hs3),
        (Hkeep _ _ _ _ _ Hs2), (Hkeep _ _ _ _ _ Hs1), Hren; [left | apply Hlabels0].
    + apply (Hkeep _ _ _ _ _ Hrun), (Hkeep _ _ _ _ _ Hs7), (Hkeep _ _ _ _ _ Hs6),
        (Hkeep _ _ _ _ _ Hs5), (Hkeep _ _ _ _ _ Hs4), (Hkeep _ _ _ _ _ Hs3),
        (Hkeep _ _ _ _ _ Hs2), (Hkeep _ _ _ _ _ Hs1), Hren; [right; left | apply Hlabels0].
Qed.

Lemma property_assessments_coordinates_witness :
  exists out,
    @preprocess_property_assessments sample_pandas sample_geopandas
      sample_raw_assessments = Ok out /\
    map (fun r => (cell r "LATITUDE", cell r "LONGITUDE")) (rows out) =
    [(vq 1 2, vq 1 2); (vq 1 2, vq 3 2)].
Proof.
  assert (Hrun : exists out,
            @preprocess_property_assessments sample_pandas sample_geopandas
              sample_raw_assessments = Ok out).
  { assert (Hrun : (fun _ => tt) <$>
                     @preprocess_property_assessments sample_pandas sample_geopandas
                       sample_raw_assessments = Ok tt) by (vm_compute; reflexivity).
    apply fmap_ok in Hrun. destruct Hrun as (out & Hout & _). exists out. exact Hout. }
  destruct Hrun as [out Hrun]. exists out. split; [exact Hrun|].
  destruct (@property_assessments_coordinates sample_pandas sample_geopandas
              _ _ Hrun) as [Hcoords _].
  rewrite Hcoords. vm_compute. reflexivity.
Defined.

(** ** The integer cast within the range of [int64] *)

Lemma Qctrunc_in_range (q : Qc) (lo hi : Z) :
  (lo <= 0 <= hi)%Z -> (qz lo ≤ q)%Qc -> (q ≤ qz hi)%Qc -> (lo <= Qctrunc q <= hi)%Z.
Proof.
  intros [Hlo Hhi] Hge Hle. apply qz_le_l in Hge. apply qz_le_r in Hle.
  unfold Qctrunc.
  assert (Hb : (0 < Z.pos (Qden (this q)))%Z) by lia.
  destruct (quot_bounds (Qnum (this q)) (Z.pos (Qden (this q))) Hb) as [Hpos Hneg].
  set (a := Qnum (this q)) in *. set (b := Z.pos (Qden (this q))) in *.
  set (t := (a ÷ b)%Z) in *. clearbody t a b.
  destruct (Z.le_ge_cases 0 a) as [Ha|Ha].
  - destruct (Hpos Ha) as [H1 H2]. split; nia.
  - destruct (Hneg Ha) as [H1 H2]. split; nia.
Qed.

(** X8: [astype(int)] never fails on a finite number.  A number within the
    range of [int64] is rounded toward zero: when it is not negative it lies
    in [[n, n+1)], when it is not positive in [(n-1, n]], for the integer [n]
    returned, and [n] is in the range of [int64] too. *)
Theorem astype_int_rounds_toward_zero `{Pandas} (q : Qc) :
  exists n, astype_int (VNum q) = Ok (VInt n) /\
    ((qz int64_min ≤ q)%Qc -> (q ≤ qz int64_max)%Qc ->
     (int64_min <= n <= int64_max)%Z /\
     ((qz 0 ≤ q)%Qc -> (qz n ≤ q)%Qc /\ (q < qz (n + 1))%Qc) /\
     ((q ≤ qz 0)%Qc -> (qz (n - 1) < q)%Qc /\ (q ≤ qz n)%Qc)).
Proof.
  exists (to_int64 (Qctrunc q)). split; [reflexivity|]. intros Hlo Hhi.
  assert (Hrange : (int64_min <= Qctrunc q <= int64_max)%Z).
  { apply Qctrunc_in_range; [| exact Hlo | exact Hhi].
    unfold int64_min, int64_max. lia. }
  rewrite (to_int64_in_range _ Hrange). split; [exact Hrange|].
  unfold Qctrunc.
  assert (Hb : (0 < Z.pos (Qden (this q)))%Z) by lia.
  destruct (quot_bounds (Qnum (this q)) (Z.pos (Qden (this q))) Hb) as [Hpos Hneg].
  split.
  - intros Hq. apply qz_le_l in Hq. rewrite qz_le_l, qz_lt_r. apply Hpos. lia.
  - intros Hq. apply qz_le_r in Hq. rewrite qz_lt_l, qz_le_r. apply Hneg. lia.
Qed.

Lemma astype_int_rounds_toward_zero_witness :
  exists n, @astype_int sample_pandas (vq (-37) 10) = Ok (VInt n) /\
            (qz (n - 1) < Q2Qc (-37 # 10))%Qc /\ (Q2Qc (-37 # 10) ≤ qz n)%Qc.
Proof.
  destruct (@astype_int_rounds_toward_zero sample_pandas (Q2Qc (-37 # 10)))
    as (n & Hn & Hin).
  exists n. split; [exact Hn|].
  destruct Hin as (_ & _ & Hneg).
  - vm_compute. discriminate.
  - vm_compute. discriminate.
  - apply Hneg. vm_compute. discriminate.
Defined.

(** ** Where a preprocessed incident comes from *)

Lemma rename_incidents_keeps (l : string) :
  l ∈ ["CREATION_DATE_TIME"; "LATITUDE"; "LONGITUDE"] ->
  forall c, rename_label new_incidents_column_names c = l -> c = l.
Proof.
  intros Hl c. unfold rename_label, new_incidents_column_names. cbn [dict_get].
  repeat (destruct (decide _) as [->|?]; simpl);
    try (intros <-; exfalso; revert Hl; apply (bool_decide_unpack _); vm_compute; exact I).
  intros ->. reflexivity.
Qed.

(** A row of the preprocessed incidents stems from a raw incident: it has the
    coordinates of that incident, and its date and time fields are read from
    the timestamp that [pd.to_datetime] makes of the raw [CREATION_DATE_TIME]. *)
Lemma preprocess_incidents_trace `{Pandas} (incidents out : DataFrame) (r : row) :
  preprocess_incidents incidents = Ok out -> r ∈ rows out ->
  exists r0 r2 ts n,
    r0 ∈ rows incidents /\
    (forall c, c ∈ ["CREATION_DATE_TIME"; "LATITUDE"; "LONGITUDE"] ->
               cell r2 c = cell r0 c) /\
    to_datetime (cell r0 "CREATION_DATE_TIME") = Ok ts /\
    py_eqb (opt_int dt_year ts) (VInt 2024) = false /\
    r = <["UNITS_DEPLOYED" := VInt n]>
          (delete_all ["CREATION_DATE_TIME"]
             (<["time_of_day" := VStr match ts with
                                      | Some t => _get_time_of_day (dt_hour t)
                                      | None => "night"
                                      end]>
              (<["hour" := opt_int dt_hour ts]>
              (<["year" := opt_int dt_year ts]>
              (<["month" := opt_int dt_month ts]>
              (<["day_of_week" := opt_int dt_dayofweek ts]>
              (<["CREATION_TIME" := opt_str dt_time ts]>
              (<["CREATION_DATE" := opt_str dt_date ts]> r2)))))))).
Proof.
  unfold preprocess_incidents. intros Hrun Hr.
  bind_inv Hrun as x0 Hs0. bind_inv Hrun as x1 Hs1. bind_inv Hrun as x2 Hs2.
  bind_inv Hrun as x3 Hs3. bind_inv Hrun as u Hs4. bind_inv Hrun as rs Hs5.
  bind_inv Hrun as x5 Hs6. bind_inv Hrun as x6 Hs7.
  destruct (update_parsed_row _ _ _ _ Hrun Hr) as (r6 & n & Hr6 & ->).
  unfold _remove_incidents_2024 in Hs7. bind_inv Hs7 as u' Hu'. inversion Hs7; subst x6.
  cbn [rows loc] in Hr6. apply elem_of_filter_bool in Hr6. destruct Hr6 as [Hr5 Hyear].
  destruct (drop_columns_inv _ _ _ Hs6) as (_ & _ & Hrows5). cbn [rows] in Hrows5.
  rewrite Hrows5 in Hr5. apply list_elem_of_fmap in Hr5. destruct Hr5 as (r4 & -> & Hr4).
  apply traverse_ok in Hs5. destruct (Forall2_image_r _ _ _ _ Hs5 Hr4) as (r2 & Hr2 & Hdt).
  destruct (remove_NaN_inv _ _ _ Hs3) as [Hcols3 Hrows3]. rewrite Hrows3 in Hr2.
  apply elem_of_filter_bool in Hr2. destruct Hr2 as [Hr2 _].
  destruct (remove_outliers_inv _ _ _ Hs2) as [Hcols2 Hrows2]. rewrite Hrows2 in Hr2.
  apply elem_of_filter_bool in Hr2. destruct Hr2 as [Hr2 _].
  destruct (update_replaced_row _ _ _ _ _ Hs1 Hr2) as (r1 & Hr1 & Hr2eq).
  destruct (drop_columns_inv _ _ _ Hs0) as (_ & Hcols0 & Hrows0).
  unfold _rename_columns in Hr1. cbn [rows] in Hr1.
  apply list_elem_of_fmap in Hr1. destruct Hr1 as (r0' & Hr1eq & Hr0').
  rewrite Hrows0 in Hr0'. apply list_elem_of_fmap in Hr0'.
  destruct Hr0' as (r0 & Hr0eq & Hr0).
  assert (Hlabels : forall l, l ∈ ["CREATION_DATE_TIME"; "LATITUDE"; "LONGITUDE"] ->
            l ∈ columns x0).
  { intros l Hl.
    assert (Hin2 : l ∈ columns x2).
    { pose proof Hl as Hl'. apply elem_of_cons in Hl'. destruct Hl' as [->|Hl'].
      - rewrite <- Hcols3. apply require_ok. destruct u. exact Hs4.
      - unfold _remove_incident_NaN in Hs3. bind_inv Hs3 as u3 Hu3. destruct u3.
        apply (proj1 (require_all_ok _ _) Hu3).
        repeat (apply elem_of_cons in Hl'; destruct Hl' as [->|Hl']);
          try (apply elem_of_nil in Hl'; contradiction).
        + left.
        + right. left. }
    rewrite Hcols2 in Hin2. apply update_series_inv in Hs1.
    destruct Hs1 as (_ & s' & _ & Hcols1 & _). rewrite Hcols1 in Hin2.
    apply elem_of_add_label in Hin2. destruct Hin2 as [Hin2| ->].
    - unfold _rename_columns in Hin2. cbn [columns] in Hin2.
      apply list_elem_of_fmap in Hin2. destruct Hin2 as (c & Hren & Hc).
      symmetry in Hren. apply (rename_incidents_keeps l Hl) in Hren. subst c. exact Hc.
    - exfalso. revert Hl. apply (bool_decide_unpack _). vm_compute. exact I. }
  assert (Hraw : forall l, l ∈ ["CREATION_DATE_TIME"; "LATITUDE"; "LONGITUDE"] ->
            cell r2 l = cell r0 l).
  { intros l Hl. rewrite Hr2eq.
    rewrite cell_insert_ne
      by (intros <-; revert Hl; apply (bool_decide_unpack _); vm_compute; exact I).
    assert (Hsame : rename_label new_incidents_column_names l = l).
    { pose proof Hl as Hl'.
      repeat (apply elem_of_cons in Hl'; destruct Hl' as [->|Hl']; [reflexivity|]).
      apply elem_of_nil in Hl'. contradiction. }
    rewrite Hr1eq.
    rewrite (cell_of_lookup _ _ _
               (rename_row_lookup_fixed _ _ _ l Hsame
                  (rename_incidents_keeps l Hl) (Hlabels l Hl))).
    rewrite Hr0eq. apply cell_delete_all_notin.
    intros Hin. revert Hl.
    repeat (apply elem_of_cons in Hin; destruct Hin as [->|Hin];
            [apply (bool_decide_unpack _); vm_compute; exact I|]).
    apply elem_of_nil in Hin. contradiction. }
  pose proof Hdt as Hdt'. unfold datetime_fields in Hdt'. bind_inv Hdt' as ts Hts.
  inversion Hdt' as [Hr4eq]. clear Hdt'.
  rewrite (Hraw "CREATION_DATE_TIME") in Hts by left.
  exists r0, r2, ts, n. split; [exact Hr0|]. split; [exact Hraw|]. split; [exact Hts|].
  split; [| reflexivity].
  rewrite cell_delete_all_notin in Hyear by label_notin.
  rewrite <- Hr4eq in Hyear.
  rewrite !cell_insert_ne in Hyear by discriminate.
  rewrite cell_insert_eq in Hyear.
  unfold py_neb in Hyear. apply negb_true_iff in Hyear. exact Hyear.
Qed.

Lemma preprocess_incidents_coordinates `{Pandas} (r0 r2 : row) (ts : option Timestamp)
    (n : Z) (c : string) :
  (forall c, c ∈ ["CREATION_DATE_TIME"; "LATITUDE"; "LONGITUDE"] ->
             cell r2 c = cell r0 c) ->
  c ∈ ["LATITUDE"; "LONGITUDE"] ->
  cell (<["UNITS_DEPLOYED" := VInt n]>
          (delete_all ["CREATION_DATE_TIME"]
             (<["time_of_day" := VStr match ts with
                                      | Some t => _get_time_of_day (dt_hour t)
                                      | None => "night"
                                      end]>
              (<["hour" := opt_int dt_hour ts]>
              (<["year" := opt_int dt_year ts]>
              (<["month" := opt_int dt_month ts]>
              (<["day_of_week" := opt_int dt_dayofweek ts]>
              (<["CREATION_TIME" := opt_str dt_time ts]>
              (<["CREATION_DATE" := opt_str dt_date ts]> r2))))))))) c
  = cell r0 c.
Proof.
  intros Hraw Hc. rewrite <- (Hraw c) by (right; exact Hc).
  repeat (apply elem_of_cons in Hc; destruct Hc as [->|Hc];
          [rewrite cell_insert_ne by discriminate;
           rewrite cell_delete_all_notin by label_notin;
           rewrite !cell_insert_ne by discriminate; reflexivity|]).
  apply elem_of_nil in Hc. contradiction.
Qed.

(** X5: no row of the preprocessed incidents is of the year 2024.  Each row
    stems from a raw incident whose coordinates it has; its [year] is the year
    of the timestamp read from the raw [CREATION_DATE_TIME] of that incident,
    missing when the timestamp is, and that year is not 2024. *)
Theorem preprocess_incidents_drops_2024 `{Pandas}
    (incidents out : DataFrame) (r : row) :
  preprocess_incidents incidents = Ok out -> r ∈ rows out ->
  exists r0 ts,
    r0 ∈ rows incidents /\
    (forall c, c ∈ ["LATITUDE"; "LONGITUDE"] -> cell r c = cell r0 c) /\
    to_datetime (cell r0 "CREATION_DATE_TIME") = Ok ts /\
    cell r "year" = opt_int dt_year ts /\
    (forall t, ts = Some t -> dt_year t <> 2024%Z) /\
    py_eqb (cell r "year") (VInt 2024) = false.
Proof.
  intros Hrun Hr.
  destruct (preprocess_incidents_trace _ _ _ Hrun Hr)
    as (r0 & r2 & ts & n & Hr0 & Hraw & Hts & Hyear & Hrow).
  assert (Hcoord : forall c, c ∈ ["LATITUDE"; "LONGITUDE"] -> cell r c = cell r0 c)
    by (intros c Hc; rewrite Hrow; apply (preprocess_incidents_coordinates _ _ _ _ _ Hraw Hc)).
  assert (Hcell : cell r "year" = opt_int dt_year ts).
  { rewrite Hrow. rewrite cell_insert_ne by discriminate.
    rewrite cell_delete_all_notin by label_notin.
    rewrite !cell_insert_ne by discriminate. apply cell_insert_eq. }
  exists r0, ts. split; [exact Hr0|]. split; [exact Hcoord|]. split; [exact Hts|].
  split; [exact Hcell|]. split.
  - intros t -> Heq. simpl in Hyear. rewrite Heq in Hyear.
    vm_compute in Hyear. discriminate Hyear.
  - rewrite Hcell. exact Hyear.
Qed.

Lemma preprocess_incidents_drops_2024_witness :
  exists out, @preprocess_incidents sample_pandas sample_incidents = Ok out /\
    forall r, r ∈ rows out ->
      exists r0 ts, r0 ∈ rows sample_incidents /\
        @to_datetime sample_pandas (cell r0 "CREATION_DATE_TIME") = Ok ts /\
        cell r "year" = opt_int (@dt_year sample_pandas) ts /\
        py_eqb (cell r "year") (VInt 2024) = false.
Proof.
  destruct sample_preprocessed as (out & Hout & _). exists out. split; [exact Hout|].
  intros r Hr.
  destruct (@preprocess_incidents_drops_2024 sample_pandas _ _ r Hout Hr)
    as (r0 & ts & Hr0 & _ & Hts & Hcell & _ & Hyear).
  exists r0, ts. split; [exact Hr0|]. split; [exact Hts|]. split; [exact Hcell | exact Hyear].
Defined.

(** X6: every row of the preprocessed incidents stems from a raw incident, and
    its derived fields are read from the timestamp that [pd.to_datetime] makes
    of the raw [CREATION_DATE_TIME] of that incident: the hour is the hour of
    the timestamp and the time of day is the bucket of that hour ([night] when
    the timestamp is missing), and so for the date, the time, the day of the
    week and the month.  The number of units is an integer and the raw
    timestamp is gone. *)
Theorem preprocess_incidents_derived_fields `{Pandas}
    (incidents out : DataFrame) (r : row) :
  preprocess_incidents incidents = Ok out -> r ∈ rows out ->
  exists r0 ts,
    r0 ∈ rows incidents /\
    (forall c, c ∈ ["LATITUDE"; "LONGITUDE"] -> cell r c = cell r0 c) /\
    to_datetime (cell r0 "CREATION_DATE_TIME") = Ok ts /\
    cell r "hour" = opt_int dt_hour ts /\
    cell r "time_of_day" = VStr match ts with
                                | Some t => _get_time_of_day (dt_hour t)
                                | None => "night"
                                end /\
    cell r "CREATION_DATE" = opt_str dt_date ts /\
    cell r "CREATION_TIME" = opt_str dt_time ts /\
    cell r "day_of_week" = opt_int dt_dayofweek ts /\
    cell r "month" = opt_int dt_month ts /\
    (exists n, cell r "UNITS_DEPLOYED" = VInt n) /\
    r !! "CREATION_DATE_TIME" = None.
Proof.
  intros Hrun Hr.
  destruct (preprocess_incidents_trace _ _ _ Hrun Hr)
    as (r0 & r2 & ts & n & Hr0 & Hraw & Hts & _ & Hrow).
  assert (Hcoord : forall c, c ∈ ["LATITUDE"; "LONGITUDE"] -> cell r c = cell r0 c)
    by (intros c Hc; rewrite Hrow; apply (preprocess_incidents_coordinates _ _ _ _ _ Hraw Hc)).
  exists r0, ts. split; [exact Hr0|]. split; [exact Hcoord|]. split; [exact Hts|].
  rewrite Hrow.
  repeat split;
    try (rewrite cell_insert_ne by discriminate;
         rewrite cell_delete_all_notin by label_notin;
         repeat (rewrite cell_insert_ne by discriminate); apply cell_insert_eq).
  - exists n. apply cell_insert_eq.
  - rewrite lookup_insert_ne by discriminate. rewrite lookup_delete_all. reflexivity.
Qed.

Lemma preprocess_incidents_derived_fields_witness :
  exists out, @preprocess_incidents sample_pandas sample_incidents = Ok out /\
    forall r, r ∈ rows out ->
      exists r0 ts, r0 ∈ rows sample_incidents /\
        @to_datetime sample_pandas (cell r0 "CREATION_DATE_TIME") = Ok ts /\
        cell r "hour" = opt_int (@dt_hour sample_pandas) ts.
Proof.
  destruct sample_preprocessed as (out & Hout & _). exists out. split; [exact Hout|].
  intros r Hr.
  destruct (@preprocess_incidents_derived_fields sample_pandas _ _ r Hout Hr)
    as (r0 & ts & Hr0 & _ & Hts & Hhour & _).
  exists r0, ts. split; [exact Hr0|]. split; [exact Hts | exact Hhour].
Defined.

(** ** The unreadable year of construction, from the raw unit to the age *)

Lemma cells_set_cells_same (c : string) (rs : list row) (s : list value) :
  length s = length rs -> map (fun r => cell r c) (set_cells c rs s) = s.
Proof.
  revert s. induction rs as [|r rs IH]; intros [|v s] Hlen; simpl in *;
    try reflexivity; try discriminate Hlen.
  rewrite cell_insert_eq. rewrite IH by (injection Hlen as Hlen; exact Hlen). reflexivity.
Qed.

(** The column that [update_series] writes holds what the function returns. *)
Lemma update_series_written (c : string) (f : list value -> result (list value))
    (x y : DataFrame) :
  (forall s s', f s = Ok s' -> length s' = length s) ->
  update_series c f x = Ok y ->
  f (map (fun r => cell r c) (rows x)) = Ok (map (fun r => cell r c) (rows y)).
Proof.
  intros Hf Hrun. apply update_series_inv in Hrun.
  destruct Hrun as (_ & s' & Hs' & _ & Hrows). rewrite Hrows, cells_set_cells_same.
  - exact Hs'.
  - rewrite (Hf _ _ Hs'). apply List.length_map.
Qed.

Lemma rename_row_lookup_only (m : list (string * string)) (cs : list string) (r : row)
    (c : string) :
  c ∈ cs ->
  (forall c', c' ∈ cs -> rename_label m c' = rename_label m c -> c' = c) ->
  rename_row m cs r !! rename_label m c = r !! c.
Proof.
  unfold rename_row. induction cs as [|c0 cs IH]; intros Hc Honly.
  - apply elem_of_nil in Hc. contradiction.
  - simpl.
    assert (Hrest : forall c', c' ∈ cs -> rename_label m c' = rename_label m c -> c' = c)
      by (intros c' Hc'; apply Honly; right; exact Hc').
    destruct (decide (c0 = c)) as [->|Hne].
    + destruct (r !! c) as [v|] eqn:Hv; [apply lookup_insert_eq|].
      destruct (decide (c ∈ cs)) as [Hin|Hnin]; [apply (IH Hin Hrest)|].
      clear IH Hc Honly. induction cs as [|c1 cs IHcs]; simpl; [apply lookup_empty|].
      assert (Hc1 : c1 <> c) by (intros ->; apply Hnin; left).
      assert (Hcs : c ∉ cs) by (intros Hin; apply Hnin; right; exact Hin).
      assert (Hrest' : forall c', c' ∈ cs -> rename_label m c' = rename_label m c -> c' = c)
        by (intros c' Hc'; apply Hrest; right; exact Hc').
      destruct (r !! c1) as [w|]; [| apply (IHcs Hrest' Hcs)].
      rewrite lookup_insert_ne by (intros Heq; apply Hc1, Hrest; [left | exact Heq]).
      apply (IHcs Hrest' Hcs).
    + assert (Hin : c ∈ cs)
        by (apply elem_of_cons in Hc; destruct Hc as [Heq|Hc]; [congruence | exact Hc]).
      destruct (r !! c0) as [w|]; [| apply (IH Hin Hrest)].
      rewrite lookup_insert_ne by (intros Heq; apply Hne, Honly; [left | exact Heq]).
      apply (IH Hin Hrest).
Qed.

(** A raw column of the assessment units, read under its new name once the
    coordinates are added, the address columns dropped and the labels
    renamed. *)
Lemma assessments_renamed_column `{Geopandas} (pa : GeoDataFrame geometry)
    (pa0 : DataFrame) (dropped : list string) (raw new : string) :
  _drop_columns (_get_latitude_longitude pa) dropped = Ok pa0 ->
  raw ∈ gcolumns pa -> new ∉ gcolumns pa ->
  raw ∉ dropped -> raw ∉ ["LATITUDE"; "LONGITUDE"] -> new ∉ ["LATITUDE"; "LONGITUDE"] ->
  rename_label new_property_assessments_column_names raw = new ->
  (forall c, rename_label new_property_assessments_column_names c = new ->
             c = raw \/ c = new) ->
  map (fun r => cell r new)
      (rows (_rename_columns pa0 new_property_assessments_column_names))
  = map (fun rg => cell (fst rg) raw) (grows pa).
Proof.
  intros Hdrop Hraw Hnew Hkept Hrawll Hnewll Hren Honly.
  destruct (drop_columns_inv _ _ _ Hdrop) as (_ & Hcols0 & Hrows0).
  assert (Hlabels : forall c, c ∈ columns pa0 ->
            c ∈ gcolumns pa \/ c ∈ ["LATITUDE"; "LONGITUDE"]).
  { intros c Hc. rewrite Hcols0 in Hc. apply elem_of_remove_labels in Hc.
    destruct Hc as [Hc _]. unfold _get_latitude_longitude in Hc. cbn [columns] in Hc.
    rewrite !elem_of_add_label in Hc.
    destruct Hc as [[Hc| ->]| ->]; [left; exact Hc | right; left | right; right; left]. }
  assert (Hin : raw ∈ columns pa0).
  { rewrite Hcols0. apply elem_of_remove_labels. split; [| exact Hkept].
    unfold _get_latitude_longitude. cbn [columns]. rewrite !elem_of_add_label.
    left. left. exact Hraw. }
  unfold _rename_columns. cbn [rows]. rewrite Hrows0.
  unfold _get_latitude_longitude. cbn [rows]. rewrite !List.map_map.
  apply List.map_ext. intros [r g]. cbn [fst snd].
  unfold cell at 1. rewrite <- Hren. rewrite rename_row_lookup_only.
  - fold (cell (delete_all dropped
                  (<["LONGITUDE" := (centroid_lat_long g).2]>
                     (<["LATITUDE" := (centroid_lat_long g).1]> r))) raw).
    rewrite cell_delete_all_notin by exact Hkept.
    rewrite !cell_insert_ne; [reflexivity | |]; intros Heq; apply Hrawll; rewrite <- Heq.
    + left.
    + right. left.
  - exact Hin.
  - intros c' Hc' Hsame. rewrite Hren in Hsame.
    destruct (Honly c' Hsame) as [Heq|Heq]; [exact Heq|]. exfalso.
    destruct (Hlabels c' Hc') as [Hg|Hll]; subst c'; contradiction.
Qed.

Lemma rename_assessments_year (c : string) :
  rename_label new_property_assessments_column_names c = "YEAR_CONSTRUCTION" ->
  c = "ANNEE_CONSTRUCTION" \/ c = "YEAR_CONSTRUCTION".
Proof.
  unfold rename_label, new_property_assessments_column_names. cbn [dict_get].
  repeat (destruct (decide _) as [->|?]; simpl); try discriminate.
  - intros _. left. reflexivity.
  - intros ->. right. reflexivity.
Qed.

Lemma rename_assessments_id (c : string) :
  rename_label new_property_assessments_column_names c = "ASSESSMENT_ID" ->
  c = "ID_UEV" \/ c = "ASSESSMENT_ID".
Proof.
  unfold rename_label, new_property_assessments_column_names. cbn [dict_get].
  repeat (destruct (decide _) as [->|?]; simpl); try discriminate.
  - intros _. left. reflexivity.
  - intros ->. right. reflexivity.
Qed.

(** The years of construction that [preprocess_property_assessments] returns
    are the raw column [ANNEE_CONSTRUCTION] through [_parse_integers] and the
    test against 2024; the identifiers are the raw column [ID_UEV]. *)
Lemma preprocessed_years_and_ids `{Pandas} `{Geopandas}
    (property_assessments : GeoDataFrame geometry) (out : DataFrame) :
  "ID_UEV" ∈ gcolumns property_assessments ->
  "ASSESSMENT_ID" ∉ gcolumns property_assessments ->
  "ANNEE_CONSTRUCTION" ∈ gcolumns property_assessments ->
  "YEAR_CONSTRUCTION" ∉ gcolumns property_assessments ->
  preprocess_property_assessments property_assessments = Ok out ->
  _parse_integers (map (fun rg => cell (fst rg) "ANNEE_CONSTRUCTION")
                       (grows property_assessments)) ≫= where_le_2024
    = Ok (map (fun r => cell r "YEAR_CONSTRUCTION") (rows out)) /\
  map (fun r => cell r "ASSESSMENT_ID") (rows out)
    = map (fun rg => cell (fst rg) "ID_UEV") (grows property_assessments).
Proof.
  intros Hid Hnoid Hyear Hnoyear Hrun. unfold preprocess_property_assessments in Hrun.
  bind_inv Hrun as pa0 Hs0. bind_inv Hrun as pa1 Hs1. bind_inv Hrun as pa2 Hs2.
  bind_inv Hrun as pa3 Hs3. bind_inv Hrun as pa4 Hs4. bind_inv Hrun as pa5 Hs5.
  bind_inv Hrun as pa6 Hs6. bind_inv Hrun as pa7 Hs7.
  assert (Hkeep : forall l c : string, c <> l ->
            forall (r : row) (v : value), cell (<[c := v]> r) l = cell r l)
    by (intros l c Hne r v; apply cell_insert_ne; exact Hne).
  split.
  - pose (Y := fun r : row => cell r "YEAR_CONSTRUCTION").
    pose proof (update_series_observe Y "USE_CATEGORY" _ _ _
                  (Hkeep "YEAR_CONSTRUCTION" "USE_CATEGORY" ltac:(discriminate))
                  (rename_incidents_length _) Hrun) as E8.
    assert (W7 : where_le_2024 (map Y (rows pa6)) = Ok (map Y (rows pa7)))
      by (apply (update_series_written "YEAR_CONSTRUCTION" where_le_2024 _ _
                   (traverse_length _) Hs7)).
    pose proof (update_series_observe Y "AREA_BUILDING" _ _ _
                  (Hkeep "YEAR_CONSTRUCTION" "AREA_BUILDING" ltac:(discriminate))
                  parse_integers_length Hs6) as E6.
    pose proof (update_series_observe Y "AREA_LAND" _ _ _
                  (Hkeep "YEAR_CONSTRUCTION" "AREA_LAND" ltac:(discriminate))
                  parse_integers_length Hs5) as E5.
    pose proof (update_series_observe Y "USE_CODE" _ _ _
                  (Hkeep "YEAR_CONSTRUCTION" "USE_CODE" ltac:(discriminate))
                  parse_integers_length Hs4) as E4.
    assert (W3 : _parse_integers (map Y (rows pa2)) = Ok (map Y (rows pa3)))
      by (apply (update_series_written "YEAR_CONSTRUCTION" _parse_integers _ _
                   parse_integers_length Hs3)).
    pose proof (update_series_observe Y "HOUSING_UNITS" _ _ _
                  (Hkeep "YEAR_CONSTRUCTION" "HOUSING_UNITS" ltac:(discriminate))
                  parse_integers_length Hs2) as E2.
    pose proof (update_series_observe Y "ABOVE_GROUND_FLOORS" _ _ _
                  (Hkeep "YEAR_CONSTRUCTION" "ABOVE_GROUND_FLOORS" ltac:(discriminate))
                  parse_integers_length Hs1) as E1.
    pose proof (assessments_renamed_column _ _ _ "ANNEE_CONSTRUCTION" "YEAR_CONSTRUCTION"
                  Hs0 Hyear Hnoyear ltac:(label_notin) ltac:(label_notin)
                  ltac:(label_notin) eq_refl rename_assessments_year) as R.
    unfold Y in *.
    rewrite <- R, <- E1, <- E2, W3. cbn [mbind result_bind].
    rewrite <- E4, <- E5, <- E6, W7, E8. reflexivity.
  - pose (A := fun r : row => cell r "ASSESSMENT_ID").
    change (map A (rows out)
            = map (fun rg => cell (fst rg) "ID_UEV") (grows property_assessments)).
    rewrite (update_series_observe A "USE_CATEGORY" _ _ _
               (Hkeep "ASSESSMENT_ID" "USE_CATEGORY" ltac:(discriminate))
               (rename_incidents_length _) Hrun).
    rewrite (update_series_observe A "YEAR_CONSTRUCTION" _ _ _
               (Hkeep "ASSESSMENT_ID" "YEAR_CONSTRUCTION" ltac:(discriminate))
               (traverse_length _) Hs7).
    rewrite (update_series_observe A "AREA_BUILDING" _ _ _
               (Hkeep "ASSESSMENT_ID" "AREA_BUILDING" ltac:(discriminate))
               parse_integers_length Hs6).
    rewrite (update_series_observe A "AREA_LAND" _ _ _
               (Hkeep "ASSESSMENT_ID" "AREA_LAND" ltac:(discriminate))
               parse_integers_length Hs5).
    rewrite (update_series_observe A "USE_CODE" _ _ _
               (Hkeep "ASSESSMENT_ID" "USE_CODE" ltac:(discriminate))
               parse_integers_length Hs4).
    rewrite (update_series_observe A "YEAR_CONSTRUCTION" _ _ _
               (Hkeep "ASSESSMENT_ID" "YEAR_CONSTRUCTION" ltac:(discriminate))
               parse_integers_length Hs3).
    rewrite (update_series_observe A "HOUSING_UNITS" _ _ _
               (Hkeep "ASSESSMENT_ID" "HOUSING_UNITS" ltac:(discriminate))
               parse_integers_length Hs2).
    rewrite (update_series_observe A "ABOVE_GROUND_FLOORS" _ _ _
               (Hkeep "ASSESSMENT_ID" "ABOVE_GROUND_FLOORS" ltac:(discriminate))
               parse_integers_length Hs1).
    apply (assessments_renamed_column _ _ _ "ID_UEV" "ASSESSMENT_ID"
             Hs0 Hid Hnoid ltac:(label_notin) ltac:(label_notin)
             ltac:(label_notin) eq_refl rename_assessments_id).
Qed.

(** A row of a spatial join is a row of the [sjoin] of the located table with
    the mesh. *)
Lemma spatial_join_row `{Geopandas} (key : string) (x : DataFrame)
    (mesh : GeoDataFrame geometry) (grid : DataFrame) (g : row) :
  spatial_join key x mesh = Ok grid -> g ∈ rows grid ->
  exists points rg',
    with_points x = Ok points /\ map fst (grows points) = rows x /\
    rg' ∈ grows (_spatial_join_points points mesh "mesh") /\ g = fst rg'.
Proof.
  unfold spatial_join. intros Hrun Hg. bind_inv Hrun as points Hpoints.
  bind_inv Hrun as joined Hjoined. inversion Hrun; subst grid. clear Hrun.
  unfold _intersect_mesh in Hjoined.
  destruct (remove_duplicates_inv _ _ _ Hjoined) as (_ & _ & Hrows).
  unfold drop_geometry in Hg. cbn [rows] in Hg.
  apply list_elem_of_fmap in Hg. destruct Hg as (rg' & -> & Hrg').
  rewrite Hrows in Hrg'. apply keep_first_incl in Hrg'.
  exists points, rg'. split; [exact Hpoints|]. split; [| split; [exact Hrg' | reflexivity]].
  unfold with_points in Hpoints. bind_inv Hpoints as u1 Hu1. bind_inv Hpoints as u2 Hu2.
  inversion Hpoints. cbn [grows]. rewrite List.map_map. apply List.map_id.
Qed.

(** C9: an assessment unit whose raw year of construction pandas cannot read,
    or has not, leaves [preprocess_property_assessments] with the year [0]:
    [_parse_integers] fills the gap with zero and zero passes the test against
    2024.  Every row that the spatial join makes of that unit keeps this year,
    as far as [sjoin] hands the cells of its left table on, and when the unit
    has an identifier [create_input_table] gives it the current year as its
    building age, not a missing value. *)
Theorem unreadable_year_gives_current_year_as_age `{Pandas} `{Geopandas}
    (property_assessments mesh : GeoDataFrame geometry)
    (assessments grid incidents census firestations out : DataFrame)
    (current_year : Z) :
  "ID_UEV" ∈ gcolumns property_assessments ->
  "ASSESSMENT_ID" ∉ gcolumns property_assessments ->
  "ANNEE_CONSTRUCTION" ∈ gcolumns property_assessments ->
  "YEAR_CONSTRUCTION" ∉ gcolumns property_assessments ->
  (forall points rg',
     with_points assessments = Ok points ->
     rg' ∈ grows (_spatial_join_points points mesh "mesh") ->
     exists lg, lg ∈ grows points /\
       forall c, c ∈ ["ASSESSMENT_ID"; "YEAR_CONSTRUCTION"] -> fst rg' !! c = fst lg !! c) ->
  preprocess_property_assessments property_assessments = Ok assessments ->
  spatial_join_property_assessments assessments mesh = Ok grid ->
  create_input_table current_year
    (merge_incidents_property_assessments_census
       (merge_incidents_property_assessments incidents grid) census)
    firestations = Ok out ->
  forall g, g ∈ rows grid ->
    exists i rg a,
      grows property_assessments !! i = Some rg /\
      rows assessments !! i = Some a /\
      cell g "ASSESSMENT_ID" = cell (fst rg) "ID_UEV" /\
      cell g "YEAR_CONSTRUCTION" = cell a "YEAR_CONSTRUCTION" /\
      (to_numeric_coerce (cell (fst rg) "ANNEE_CONSTRUCTION") = VNaN ->
       cell a "YEAR_CONSTRUCTION" = VInt 0 /\
       (isna (cell g "ASSESSMENT_ID") = false ->
        exists r', r' ∈ rows out /\
          r' !! "ASSESSMENT_ID" = g !! "ASSESSMENT_ID" /\
          cell r' "YEAR_CONSTRUCTION" = VInt 0 /\
          cell r' "building_age" = VInt current_year /\
          isna (cell r' "building_age") = false)).
Proof.
  intros Hid Hnoid Hyear Hnoyear Hsjoin Hpre Hjoin Hrun g Hg.
  destruct (preprocessed_years_and_ids _ _ Hid Hnoid Hyear Hnoyear Hpre)
    as [Hyears Hids].
  destruct (spatial_join_row _ _ _ _ _ Hjoin Hg) as (points & rg' & Hpoints & Hleft & Hrg' & ->).
  destruct (Hsjoin points rg' Hpoints Hrg') as (lg & Hlg & Hcells).
  assert (Ha : fst lg ∈ rows assessments).
  { rewrite <- Hleft. apply list_elem_of_fmap. exists lg. split; [reflexivity | exact Hlg]. }
  apply list_elem_of_lookup in Ha. destruct Ha as [i Hi].
  assert (Hidi : map (fun r => cell r "ASSESSMENT_ID") (rows assessments) !! i
                 = Some (cell (fst lg) "ASSESSMENT_ID"))
    by (rewrite list_lookup_fmap, Hi; reflexivity).
  rewrite Hids in Hidi. rewrite list_lookup_fmap in Hidi.
  destruct (grows property_assessments !! i) as [rg|] eqn:Hrg; [| discriminate Hidi].
  simpl in Hidi. injection Hidi as Hidi.
  assert (Hgid : cell (fst rg') "ASSESSMENT_ID" = cell (fst lg) "ASSESSMENT_ID")
    by (apply cell_of_lookup, Hcells; left).
  assert (Hgyear : cell (fst rg') "YEAR_CONSTRUCTION" = cell (fst lg) "YEAR_CONSTRUCTION")
    by (apply cell_of_lookup, Hcells; right; left).
  exists i, rg, (fst lg). split; [exact Hrg|]. split; [exact Hi|].
  split; [rewrite Hgid; symmetry; exact Hidi|]. split; [exact Hgyear|].
  intros Hraw.
  assert (Hzero : cell (fst lg) "YEAR_CONSTRUCTION" = VInt 0).
  { assert (Hrawi : map (fun rg0 : row * geometry => cell (fst rg0) "ANNEE_CONSTRUCTION")
                        (grows property_assessments) !! i
                    = Some (cell (fst rg) "ANNEE_CONSTRUCTION"))
      by (rewrite list_lookup_fmap, Hrg; reflexivity).
    pose proof (coerced_year_at _ _ _ _ Hraw Hrawi Hyears) as Hat.
    rewrite list_lookup_fmap, Hi in Hat. simpl in Hat. injection Hat as Hat. exact Hat. }
  split; [exact Hzero|]. intros Hnotna.
  destruct (year_zero_gives_current_year _ _ _ _ Hrun) as [Hforward Hbackward].
  destruct (Hforward (fst rg')) as (r' & Hin & Hsame_id & Hsame_year & Hage).
  - unfold merge_incidents_property_assessments_census,
      merge_incidents_property_assessments, concat. cbn [rows].
    rewrite !elem_of_app. left. right. exact Hg.
  - exact Hnotna.
  - rewrite Hgyear. exact Hzero.
  - exists r'. split; [exact Hin|]. split; [exact Hsame_id|].
    assert (Hyear' : cell r' "YEAR_CONSTRUCTION" = VInt 0)
      by (rewrite (cell_of_lookup _ _ _ Hsame_year), Hgyear; exact Hzero).
    split; [exact Hyear'|]. split; [exact Hage|]. rewrite Hage. reflexivity.
Qed.

(** [sample_sjoin] against [sample_mesh] hands the identifier and the year of
    its left rows on. *)
Lemma sample_sjoin_keeps_left (left : GeoDataFrame shape) (rg' : row * shape) :
  rg' ∈ grows (sample_sjoin left sample_mesh "mesh") ->
  exists lg, lg ∈ grows left /\
    forall c, c ∈ ["ASSESSMENT_ID"; "YEAR_CONSTRUCTION"] -> fst rg' !! c = fst lg !! c.
Proof.
  unfold sample_sjoin. cbn [grows]. intros Hin.
  apply list_elem_of_In, List.in_flat_map in Hin. destruct Hin as (lg & Hlg & Hin).
  apply list_elem_of_In in Hlg. exists lg. split; [exact Hlg|].
  intros c Hc. unfold sample_mesh in Hin. cbn [grows enumerate flat_map fst snd] in Hin.
  repeat match type of Hin with
         | context [if ?b then _ else _] => destruct b
         end;
    cbn [List.app] in Hin;
    repeat (destruct Hin as [<-|Hin];
            [cbn [fst];
             rewrite lookup_insert_ne
               by (intros <-; revert Hc; apply (bool_decide_unpack _); vm_compute; exact I);
             rewrite lookup_union_r; [reflexivity|];
             repeat (apply elem_of_cons in Hc; destruct Hc as [->|Hc];
                     [vm_compute; reflexivity|]);
             apply elem_of_nil in Hc; contradiction|]);
    contradiction.
Qed.

Lemma sample_assessment_pipeline :
  exists assessments grid out g,
    @preprocess_property_assessments sample_pandas sample_geopandas
      sample_raw_assessments = Ok assessments /\
    @spatial_join_property_assessments sample_geopandas assessments sample_mesh
      = Ok grid /\
    create_input_table 2026
      (merge_incidents_property_assessments_census
         (merge_incidents_property_assessments sample_joined_incidents grid)
         sample_joined_census)
      sample_firestations = Ok out /\
    g ∈ rows grid /\ cell g "ASSESSMENT_ID" = VStr "01001".
Proof.
  assert (Hrun :
    (fun ago : DataFrame * DataFrame * DataFrame =>
       existsb (fun r => bool_decide (cell r "ASSESSMENT_ID" = VStr "01001"))
               (rows (snd (fst ago))))
      <$> (a ← @preprocess_property_assessments sample_pandas sample_geopandas
                 sample_raw_assessments;
           g ← @spatial_join_property_assessments sample_geopandas a sample_mesh;
           o ← create_input_table 2026
                 (merge_incidents_property_assessments_census
                    (merge_incidents_property_assessments sample_joined_incidents g)
                    sample_joined_census)
                 sample_firestations;
           Ok (a, g, o))
    = Ok true) by (vm_compute; reflexivity).
  apply fmap_ok in Hrun. destruct Hrun as ([[a g] o] & Hrun & Hex).
  bind_inv Hrun as a' Ha. bind_inv Hrun as g' Hg. bind_inv Hrun as o' Ho.
  inversion Hrun; subst a' g' o'. cbn [fst snd] in Hex.
  apply existsb_exists in Hex. destruct Hex as (r & Hr & Hid).
  apply list_elem_of_In in Hr. apply bool_decide_eq_true_1 in Hid.
  exists a, g, o, r. repeat split; assumption.
Qed.

Lemma unreadable_year_gives_current_year_as_age_witness :
  exists assessments grid out r',
    @preprocess_property_assessments sample_pandas sample_geopandas
      sample_raw_assessments = Ok assessments /\
    @spatial_join_property_assessments sample_geopandas assessments sample_mesh
      = Ok grid /\
    create_input_table 2026
      (merge_incidents_property_assessments_census
         (merge_incidents_property_assessments sample_joined_incidents grid)
         sample_joined_census)
      sample_firestations = Ok out /\
    r' ∈ rows out /\ cell r' "ASSESSMENT_ID" = VStr "01001" /\
    cell r' "YEAR_CONSTRUCTION" = VInt 0 /\ cell r' "building_age" = VInt 2026.
Proof.
  destruct sample_assessment_pipeline as (assessments & grid & out & g & Hpre & Hjoin & Hrun & Hg & Hgid).
  destruct (@unreadable_year_gives_current_year_as_age sample_pandas sample_geopandas
              sample_raw_assessments sample_mesh assessments grid
              sample_joined_incidents sample_joined_census sample_firestations out 2026)
    with (g := g) as (i & rg & a & Hrg & _ & Hraw_id & _ & Hzero).
  - label_notin.
  - label_notin.
  - label_notin.
  - label_notin.
  - intros points rg' _ Hrg'. apply (sample_sjoin_keeps_left points rg' Hrg').
  - exact Hpre.
  - exact Hjoin.
  - exact Hrun.
  - exact Hg.
  - assert (Hunreadable :
              @to_numeric_coerce sample_pandas (cell (fst rg) "ANNEE_CONSTRUCTION") = VNaN).
    { rewrite Hgid in Hraw_id. apply list_elem_of_lookup_2 in Hrg.
      unfold sample_raw_assessments in Hrg. cbn [grows] in Hrg.
      repeat (apply elem_of_cons in Hrg; destruct Hrg as [->|Hrg]).
      - vm_compute. reflexivity.
      - exfalso. vm_compute in Hraw_id. discriminate Hraw_id.
      - apply elem_of_nil in Hrg. contradiction. }
    destruct (Hzero Hunreadable) as [_ Hage].
    destruct Hage as (r' & Hin & Hsame & Hyear & Hage & _).
    + rewrite Hgid. reflexivity.
    + exists assessments, grid, out, r'.
      split; [exact Hpre|]. split; [exact Hjoin|]. split; [exact Hrun|].
      split; [exact Hin|]. split; [| split; [exact Hyear | exact Hage]].
      rewrite (cell_of_lookup _ _ _ Hsame). exact Hgid.
Defined.
